(** * Resonance Touch Interface: the core of the pipeline, embedded and verified

    A shallow embedding of the branching and stateful code of the repository:

    - [Constants]    : src/core/constants.ts (emotion, mode and form tags, the
                       pressure thresholds, the resonance mappings, the
                       performance limits, the error codes, the status values);
    - [Utils]        : RTIUtils.mergeConfig and RTIUtils.validateConfig;
    - [Mapper]       : the resonance mapper (resonance/ResonanceEngine, which
                       the orchestrator imports and these sources do not
                       hold), modelled from the specification over the
                       table and thresholds of [Constants];
    - [Genesis]      : the Genesis profile manager (findMatchingPatterns,
                       exportProfile, importProfile, saveProfile);
    - [Orchestrator] : the RTI class (latency window, accuracy average,
                       mode-usage table, error escalation);
    - [UtilsNumeric] : the numeric helpers of RTIUtils, retry, formatFileSize,
                       and validateConfig on numbers that may be NaN;
    - [GenesisOps]   : the other operations of the Genesis profile manager;
    - [Lifecycle]    : the event handlers and the life cycle of RTI;
    - [Construction] : the constructor of RTI.

    Numbers.  A JavaScript number that is only stored, copied and compared,
    or that enters arithmetic whose result is reported as a number (a
    latency, a confidence, a percentage), is the rational [Q] it denotes;
    there the comparisons and the arithmetic are the exact ones and IEEE
    rounding is outside the model.  Where the code rounds a difference
    before it decides something (the proximity tests of
    findMatchingPatterns) the numbers are binary64 floats and the operations
    are the primitive ones.  Where a NaN or an infinity can arise or decide
    (a division by an elapsed time of zero, the checks of validateConfig)
    the number is a [Number].  A timestamp ([Date.now()]) is an integer
    [Z]; a counter that starts at 0 or 1 and is only ever incremented is a
    [nat].

    Effects.  The mutable fields of a class instance are a record that the
    methods take and return.  What [emit] publishes is appended to a log;
    an 'error' event that no listener is registered for is thrown instead,
    as EventEmitter does, and a method that throws returns [None].  The one
    array that is sorted in place lives in a store of arrays that is
    addressed by reference, so that aliasing is visible. *)

From Stdlib Require Import QArith Qabs Qminmax Qpower Qround Lia Lqa Permutation Sorted ZArith DecimalString PrimFloat.
From stdpp Require Import gmap strings list.

Local Open Scope Q_scope.

(* A decimal written for a binary64 value stands for the nearest one. *)
Set Warnings "-inexact-float".

(** ** Shared helpers *)

(** [{...b, k: o}] for one optional key: the supplied value wins. *)
Definition overlay {A : Type} (o : option A) (b : A) : A :=
  match o with
  | Some v => v
  | None => b
  end.

(** [x < y] on numbers, as a boolean. *)
Definition Qlt_bool (x y : Q) : bool := negb (Qle_bool y x).

(** A JavaScript number at the places where the code can meet or make one
    that is not finite. *)
Inductive Number : Type :=
| Num (q : Q)
| PlusInfinity
| MinusInfinity
| NaN.

(** [a < b] as JavaScript decides it ([a > b] is [b < a]): false as soon as
    one side is NaN. *)
Definition Number_lt (a b : Number) : bool :=
  match a, b with
  | NaN, _ => false
  | _, NaN => false
  | Num x, Num y => Qlt_bool x y
  | MinusInfinity, MinusInfinity => false
  | MinusInfinity, _ => true
  | PlusInfinity, _ => false
  | Num _, PlusInfinity => true
  | Num _, MinusInfinity => false
  end.

(** [Array.prototype.sort(cmp)]: a stable sort; [a] stays in front of [b]
    when [cmp a b <= 0].  Written as an insertion sort that inserts from
    the right, so that equal elements keep their order. *)
Fixpoint sort_insert {A : Type} (cmp : A -> A -> Q) (x : A) (l : list A) : list A :=
  match l with
  | [] => [x]
  | y :: r => if Qle_bool (cmp x y) 0 then x :: y :: r else y :: sort_insert cmp x r
  end.

Fixpoint array_sort {A : Type} (cmp : A -> A -> Q) (l : list A) : list A :=
  match l with
  | [] => []
  | x :: r => sort_insert cmp x (array_sort cmp r)
  end.

(** Largest key first: [a] may stand in front of [b]. *)
Definition descending {A : Type} (key : A -> Q) (a b : A) : Prop := key b <= key a.

(** [Array.prototype.reduce((a, b) => a + b, 0)]. *)
Definition sumQ (l : list Q) : Q := fold_left Qplus l 0.

(** [String.prototype.includes]: [sub] occurs somewhere in [s]. *)
Fixpoint includes (s sub : string) : bool :=
  String.prefix sub s ||
  match s with
  | EmptyString => false
  | String _ r => includes r sub
  end.

(** [Array.prototype.includes] on an array of strings. *)
Definition array_includes (l : list string) (s : string) : bool :=
  existsb (String.eqb s) l.

(** ** src/core/constants.ts *)
Module Constants.

Inductive EmotionType : Type :=
| JOY | CALM | LOVE | EXCITEMENT | GRATITUDE | COMPASSION
| FOCUS | DETERMINATION | CONCENTRATION | DISCIPLINE
| ANGER | FRUSTRATION | ANXIETY | SADNESS | FEAR
| CURIOSITY | WONDER | CONTEMPLATION | INSPIRATION.

(** The string each key of [EMOTION_TYPES] holds. *)
Definition EMOTION_TYPES (e : EmotionType) : string :=
  match e with
  | JOY => "joy" | CALM => "calm" | LOVE => "love"
  | EXCITEMENT => "excitement" | GRATITUDE => "gratitude"
  | COMPASSION => "compassion"
  | FOCUS => "focus" | DETERMINATION => "determination"
  | CONCENTRATION => "concentration" | DISCIPLINE => "discipline"
  | ANGER => "anger" | FRUSTRATION => "frustration" | ANXIETY => "anxiety"
  | SADNESS => "sadness" | FEAR => "fear"
  | CURIOSITY => "curiosity" | WONDER => "wonder"
  | CONTEMPLATION => "contemplation" | INSPIRATION => "inspiration"
  end.

Inductive InteractionMode : Type :=
| CREATION | ALTERATION | DESTRUCTION | BLESSING.

Definition INTERACTION_MODES (m : InteractionMode) : string :=
  match m with
  | CREATION => "creation" | ALTERATION => "alteration"
  | DESTRUCTION => "destruction" | BLESSING => "blessing"
  end.

Inductive FormType : Type :=
| ORGANIC | FLUID | NATURAL | GROWING
| GEOMETRIC | CRYSTALLINE | PRECISE | STRUCTURED
| ANIMATED | RESPONSIVE | INTERACTIVE
| ETHEREAL | GLOWING | TRANSLUCENT | IMMATERIAL.

Definition FORM_TYPES (f : FormType) : string :=
  match f with
  | ORGANIC => "organic" | FLUID => "fluid" | NATURAL => "natural"
  | GROWING => "growing"
  | GEOMETRIC => "geometric" | CRYSTALLINE => "crystalline"
  | PRECISE => "precise" | STRUCTURED => "structured"
  | ANIMATED => "animated" | RESPONSIVE => "responsive"
  | INTERACTIVE => "interactive"
  | ETHEREAL => "ethereal" | GLOWING => "glowing"
  | TRANSLUCENT => "translucent" | IMMATERIAL => "immaterial"
  end.

(** The names of the pressure thresholds, lowest first. *)
Inductive PressureBand : Type :=
| VERY_LIGHT | LIGHT | MEDIUM | HEAVY | VERY_HEAVY | MAXIMUM.

Definition PRESSURE_THRESHOLDS (b : PressureBand) : Q :=
  match b with
  | VERY_LIGHT => 0.05
  | LIGHT => 0.2
  | MEDIUM => 0.5
  | HEAVY => 0.7
  | VERY_HEAVY => 0.9
  | MAXIMUM => 1.0
  end.

Definition band_name (b : PressureBand) : string :=
  match b with
  | VERY_LIGHT => "VERY_LIGHT" | LIGHT => "LIGHT" | MEDIUM => "MEDIUM"
  | HEAVY => "HEAVY" | VERY_HEAVY => "VERY_HEAVY" | MAXIMUM => "MAXIMUM"
  end.

(** One entry of [RESONANCE_MAPPINGS]. *)
Record ResonanceMapping : Type := mkMapping {
  mode : InteractionMode;
  form : FormType;
  characteristics : list string
}.

(** [RESONANCE_MAPPINGS], in declaration order; the keys are the template
    strings of the source, built from the emotion strings and band names. *)
Definition RESONANCE_MAPPINGS : list (string * ResonanceMapping) :=
  [ (EMOTION_TYPES JOY +:+ "_" +:+ EMOTION_TYPES CALM +:+ "_LIGHT",
     mkMapping CREATION ORGANIC ["flowing"; "natural"; "smooth"]);
    (EMOTION_TYPES LOVE +:+ "_VERY_LIGHT",
     mkMapping CREATION GROWING ["gentle"; "nurturing"; "expanding"]);
    (EMOTION_TYPES FOCUS +:+ "_" +:+ EMOTION_TYPES DETERMINATION +:+ "_MEDIUM",
     mkMapping ALTERATION PRECISE ["refined"; "accurate"; "controlled"]);
    (EMOTION_TYPES CONCENTRATION +:+ "_MEDIUM",
     mkMapping ALTERATION STRUCTURED ["organized"; "systematic"; "ordered"]);
    (EMOTION_TYPES ANGER +:+ "_" +:+ EMOTION_TYPES FRUSTRATION +:+ "_HEAVY",
     mkMapping DESTRUCTION GEOMETRIC ["sharp"; "fractured"; "broken"]);
    (EMOTION_TYPES ANXIETY +:+ "_HEAVY",
     mkMapping DESTRUCTION CRYSTALLINE ["fragile"; "shattered"; "dispersed"]);
    (EMOTION_TYPES COMPASSION +:+ "_VERY_LIGHT",
     mkMapping BLESSING ETHEREAL ["glowing"; "radiant"; "transcendent"]);
    (EMOTION_TYPES GRATITUDE +:+ "_LIGHT",
     mkMapping BLESSING GLOWING ["warm"; "luminous"; "harmonious"]) ].

(** [PERFORMANCE_LIMITS]. *)
Definition MAX_LATENCY_MS : Q := 10.
Definition MIN_SAMPLING_RATE_HZ : Q := 100.
Definition MAX_SAMPLING_RATE_HZ : Q := 2000.
Definition MAX_MEMORY_USAGE_MB : Q := 100.
Definition MAX_CPU_USAGE_PERCENT : Q := 20.
Definition MIN_CONFIDENCE_THRESHOLD : Q := 0.5.
Definition MAX_CONFIDENCE_THRESHOLD : Q := 0.95.

(** [ERROR_CODES]: every key holds its own name as a string. *)
Module ERROR_CODES.
Definition HARDWARE_NOT_SUPPORTED : string := "HARDWARE_NOT_SUPPORTED".
Definition SENSOR_DISCONNECTED : string := "SENSOR_DISCONNECTED".
Definition PRESSURE_SENSOR_ERROR : string := "PRESSURE_SENSOR_ERROR".
Definition THERMAL_SENSOR_ERROR : string := "THERMAL_SENSOR_ERROR".
Definition EMOTION_DECODER_ERROR : string := "EMOTION_DECODER_ERROR".
Definition RESONANCE_ENGINE_ERROR : string := "RESONANCE_ENGINE_ERROR".
Definition DIMENSIONAL_TRANSLATOR_ERROR : string := "DIMENSIONAL_TRANSLATOR_ERROR".
Definition INVALID_CONFIG : string := "INVALID_CONFIG".
Definition MISSING_REQUIRED_SENSOR : string := "MISSING_REQUIRED_SENSOR".
Definition INVALID_SAMPLING_RATE : string := "INVALID_SAMPLING_RATE".
Definition LATENCY_EXCEEDED : string := "LATENCY_EXCEEDED".
Definition MEMORY_LIMIT_EXCEEDED : string := "MEMORY_LIMIT_EXCEEDED".
Definition CPU_LIMIT_EXCEEDED : string := "CPU_LIMIT_EXCEEDED".
Definition ENCRYPTION_FAILED : string := "ENCRYPTION_FAILED".
Definition DATA_ACCESS_DENIED : string := "DATA_ACCESS_DENIED".
Definition PRIVACY_VIOLATION : string := "PRIVACY_VIOLATION".
End ERROR_CODES.

(** [SYSTEM_STATUS]. *)
Inductive SystemStatus : Type :=
| INITIALIZING | READY | PROCESSING | ERROR | DISABLED
| CONNECTED | DISCONNECTED.

End Constants.

(** ** src/core/types.ts and RTIUtils (src/core/utils.ts) *)
Module Utils.
Import Constants.

Inductive Sensor : Type := Force_Touch | Pulse | Thermal.
Inductive InputSurface : Type :=
| Haptic_Responsive_Glass | Flexible_Display | Standard_Trackpad.
Inductive EmotionDecoderEngine : Type :=
| DecoderGenesisEmotionCore | DecoderHerResonanceAI | DecoderCustom.
Inductive ResonanceEngineImpl : Type :=
| EngineHerResonanceAI | EngineQuantumResonance | EngineCustom.

(** The four sections of [RTIConfig]. *)
Record HardwareConfig : Type := mkHardware {
  sensors : list Sensor;
  inputSurface : InputSurface;
  pressureSensitivity : Q;
  samplingRate : Q
}.

Record SoftwareConfig : Type := mkSoftware {
  emotionDecoder : EmotionDecoderEngine;
  resonanceEngine : ResonanceEngineImpl;
  realTimeProcessing : bool;
  confidenceThreshold : Q
}.

Record PrivacySection : Type := mkPrivacy {
  localProcessingOnly : bool;
  encryptData : bool;
  dataRetentionDays : Q;
  allowAnonymousSharing : bool
}.

Record PerformanceConfig : Type := mkPerformance {
  maxLatency : Q;
  enableCaching : bool;
  memoryLimit : Q;
  adaptiveLearning : bool
}.

Record RTIConfig : Type := mkConfig {
  hardware : HardwareConfig;
  software : SoftwareConfig;
  privacy : PrivacySection;
  performance : PerformanceConfig
}.

(** A section object of an override, as the spread reads it at run time:
    every own key is either there or not.  (The declared type
    [Partial<RTIConfig>] asks for whole sections; those are the objects
    with every key there.) *)
Record HardwareOverride : Type := mkHardwareO {
  o_sensors : option (list Sensor);
  o_inputSurface : option InputSurface;
  o_pressureSensitivity : option Q;
  o_samplingRate : option Q
}.

Record SoftwareOverride : Type := mkSoftwareO {
  o_emotionDecoder : option EmotionDecoderEngine;
  o_resonanceEngine : option ResonanceEngineImpl;
  o_realTimeProcessing : option bool;
  o_confidenceThreshold : option Q
}.

Record PrivacyOverride : Type := mkPrivacyO {
  o_localProcessingOnly : option bool;
  o_encryptData : option bool;
  o_dataRetentionDays : option Q;
  o_allowAnonymousSharing : option bool
}.

Record PerformanceOverride : Type := mkPerformanceO {
  o_maxLatency : option Q;
  o_enableCaching : option bool;
  o_memoryLimit : option Q;
  o_adaptiveLearning : option bool
}.

(** [Partial<RTIConfig>]: each section is there or not. *)
Record RTIConfigOverride : Type := mkConfigO {
  o_hardware : option HardwareOverride;
  o_software : option SoftwareOverride;
  o_privacy : option PrivacyOverride;
  o_performance : option PerformanceOverride
}.

(** [{ ...b, ...o }] on each kind of section. *)
Definition spreadHardware (b : HardwareConfig) (o : HardwareOverride) : HardwareConfig :=
  {| sensors := overlay (o_sensors o) (sensors b);
     inputSurface := overlay (o_inputSurface o) (inputSurface b);
     pressureSensitivity := overlay (o_pressureSensitivity o) (pressureSensitivity b);
     samplingRate := overlay (o_samplingRate o) (samplingRate b) |}.

Definition spreadSoftware (b : SoftwareConfig) (o : SoftwareOverride) : SoftwareConfig :=
  {| emotionDecoder := overlay (o_emotionDecoder o) (emotionDecoder b);
     resonanceEngine := overlay (o_resonanceEngine o) (resonanceEngine b);
     realTimeProcessing := overlay (o_realTimeProcessing o) (realTimeProcessing b);
     confidenceThreshold := overlay (o_confidenceThreshold o) (confidenceThreshold b) |}.

Definition spreadPrivacy (b : PrivacySection) (o : PrivacyOverride) : PrivacySection :=
  {| localProcessingOnly := overlay (o_localProcessingOnly o) (localProcessingOnly b);
     encryptData := overlay (o_encryptData o) (encryptData b);
     dataRetentionDays := overlay (o_dataRetentionDays o) (dataRetentionDays b);
     allowAnonymousSharing := overlay (o_allowAnonymousSharing o) (allowAnonymousSharing b) |}.

Definition spreadPerformance (b : PerformanceConfig) (o : PerformanceOverride) : PerformanceConfig :=
  {| maxLatency := overlay (o_maxLatency o) (maxLatency b);
     enableCaching := overlay (o_enableCaching o) (enableCaching b);
     memoryLimit := overlay (o_memoryLimit o) (memoryLimit b);
     adaptiveLearning := overlay (o_adaptiveLearning o) (adaptiveLearning b) |}.

(** [RTIUtils.mergeConfig(base, override?)]. *)
Definition mergeConfig (base : RTIConfig) (override : option RTIConfigOverride) : RTIConfig :=
  match override with
  | None => base
  | Some o =>
      let merged := base in
      let merged :=
        match o_hardware o with
        | Some h => mkConfig (spreadHardware (hardware merged) h) (software merged)
                             (privacy merged) (performance merged)
        | None => merged
        end in
      let merged :=
        match o_software o with
        | Some s => mkConfig (hardware merged) (spreadSoftware (software merged) s)
                             (privacy merged) (performance merged)
        | None => merged
        end in
      let merged :=
        match o_privacy o with
        | Some p => mkConfig (hardware merged) (software merged)
                             (spreadPrivacy (privacy merged) p) (performance merged)
        | None => merged
        end in
      let merged :=
        match o_performance o with
        | Some p => mkConfig (hardware merged) (software merged) (privacy merged)
                             (spreadPerformance (performance merged) p)
        | None => merged
        end in
      merged
  end.

(** [DEFAULT_CONFIG] of constants.ts. *)
Definition DEFAULT_CONFIG : RTIConfig :=
  {| hardware := mkHardware [Force_Touch; Thermal] Standard_Trackpad 0.5 1000;
     software := mkSoftware DecoderGenesisEmotionCore EngineHerResonanceAI true 0.7;
     privacy := mkPrivacy true true 30 false;
     performance := mkPerformance 10 true 50 true |}.

(** The result of [validateConfig]. *)
Record ValidationResult : Type := mkValidation {
  valid : bool;
  errors : list string
}.

(** [errors.push(msg)] under [if (cond)]. *)
Definition push_if (cond : bool) (msg : string) (errors : list string) : list string :=
  if cond then errors ++ [msg] else errors.

(** The seven messages; the numbers are the limits of [PERFORMANCE_LIMITS]
    as the template strings print them. *)
Definition MSG_RATE_LOW : string := "Sampling rate must be at least 100 Hz".
Definition MSG_RATE_HIGH : string := "Sampling rate must not exceed 2000 Hz".
Definition MSG_PRESSURE : string := "Pressure sensitivity must be between 0.0 and 1.0".
Definition MSG_CONFIDENCE_LOW : string := "Confidence threshold must be at least 0.5".
Definition MSG_CONFIDENCE_HIGH : string := "Confidence threshold must not exceed 0.95".
Definition MSG_LATENCY : string := "Maximum latency must not exceed 10 ms".
Definition MSG_MEMORY : string := "Memory limit must not exceed 100 MB".

(** [RTIUtils.validateConfig(config)], for a configuration whose numbers
    are finite; [UtilsNumeric.validateNumbers] is the same function on
    numbers that may be NaN or infinite. *)
Definition validateConfig (config : RTIConfig) : ValidationResult :=
  let errors := [] in
  let errors :=
    push_if (Qlt_bool (samplingRate (hardware config)) MIN_SAMPLING_RATE_HZ)
            MSG_RATE_LOW errors in
  let errors :=
    push_if (Qlt_bool MAX_SAMPLING_RATE_HZ (samplingRate (hardware config)))
            MSG_RATE_HIGH errors in
  let errors :=
    push_if (Qlt_bool (pressureSensitivity (hardware config)) 0
             || Qlt_bool 1 (pressureSensitivity (hardware config)))
            MSG_PRESSURE errors in
  let errors :=
    push_if (Qlt_bool (confidenceThreshold (software config)) MIN_CONFIDENCE_THRESHOLD)
            MSG_CONFIDENCE_LOW errors in
  let errors :=
    push_if (Qlt_bool MAX_CONFIDENCE_THRESHOLD (confidenceThreshold (software config)))
            MSG_CONFIDENCE_HIGH errors in
  let errors :=
    push_if (Qlt_bool MAX_LATENCY_MS (maxLatency (performance config)))
            MSG_LATENCY errors in
  let errors :=
    push_if (Qlt_bool MAX_MEMORY_USAGE_MB (memoryLimit (performance config)))
            MSG_MEMORY errors in
  {| valid := Nat.eqb (length errors) 0; errors := errors |}.

(** The sixteen option names of a configuration, and the value of one. *)
Inductive ConfigField : Type :=
| F_sensors | F_inputSurface | F_pressureSensitivity | F_samplingRate
| F_emotionDecoder | F_resonanceEngine | F_realTimeProcessing | F_confidenceThreshold
| F_localProcessingOnly | F_encryptData | F_dataRetentionDays | F_allowAnonymousSharing
| F_maxLatency | F_enableCaching | F_memoryLimit | F_adaptiveLearning.

Inductive FieldValue : Type :=
| VSensors (l : list Sensor)
| VSurface (s : InputSurface)
| VDecoder (d : EmotionDecoderEngine)
| VEngine (e : ResonanceEngineImpl)
| VNumber (q : Q)
| VBoolean (b : bool).

(** [config.section.field]. *)
Definition readField (c : RTIConfig) (f : ConfigField) : FieldValue :=
  match f with
  | F_sensors => VSensors (sensors (hardware c))
  | F_inputSurface => VSurface (inputSurface (hardware c))
  | F_pressureSensitivity => VNumber (pressureSensitivity (hardware c))
  | F_samplingRate => VNumber (samplingRate (hardware c))
  | F_emotionDecoder => VDecoder (emotionDecoder (software c))
  | F_resonanceEngine => VEngine (resonanceEngine (software c))
  | F_realTimeProcessing => VBoolean (realTimeProcessing (software c))
  | F_confidenceThreshold => VNumber (confidenceThreshold (software c))
  | F_localProcessingOnly => VBoolean (localProcessingOnly (privacy c))
  | F_encryptData => VBoolean (encryptData (privacy c))
  | F_dataRetentionDays => VNumber (dataRetentionDays (privacy c))
  | F_allowAnonymousSharing => VBoolean (allowAnonymousSharing (privacy c))
  | F_maxLatency => VNumber (maxLatency (performance c))
  | F_enableCaching => VBoolean (enableCaching (performance c))
  | F_memoryLimit => VNumber (memoryLimit (performance c))
  | F_adaptiveLearning => VBoolean (adaptiveLearning (performance c))
  end.

(** What an override supplies for a field: nothing when the section is
    not there or the section lacks the field. *)
Definition supplied (o : RTIConfigOverride) (f : ConfigField) : option FieldValue :=
  match f with
  | F_sensors => h ← o_hardware o; VSensors <$> o_sensors h
  | F_inputSurface => h ← o_hardware o; VSurface <$> o_inputSurface h
  | F_pressureSensitivity => h ← o_hardware o; VNumber <$> o_pressureSensitivity h
  | F_samplingRate => h ← o_hardware o; VNumber <$> o_samplingRate h
  | F_emotionDecoder => s ← o_software o; VDecoder <$> o_emotionDecoder s
  | F_resonanceEngine => s ← o_software o; VEngine <$> o_resonanceEngine s
  | F_realTimeProcessing => s ← o_software o; VBoolean <$> o_realTimeProcessing s
  | F_confidenceThreshold => s ← o_software o; VNumber <$> o_confidenceThreshold s
  | F_localProcessingOnly => p ← o_privacy o; VBoolean <$> o_localProcessingOnly p
  | F_encryptData => p ← o_privacy o; VBoolean <$> o_encryptData p
  | F_dataRetentionDays => p ← o_privacy o; VNumber <$> o_dataRetentionDays p
  | F_allowAnonymousSharing => p ← o_privacy o; VBoolean <$> o_allowAnonymousSharing p
  | F_maxLatency => p ← o_performance o; VNumber <$> o_maxLatency p
  | F_enableCaching => p ← o_performance o; VBoolean <$> o_enableCaching p
  | F_memoryLimit => p ← o_performance o; VNumber <$> o_memoryLimit p
  | F_adaptiveLearning => p ← o_performance o; VBoolean <$> o_adaptiveLearning p
  end.

(** The configuration of the scenario: the defaults with a sampling rate of
    50 Hz and a confidence threshold of 0.99. *)
Definition scenario_config : RTIConfig :=
  {| hardware := mkHardware [Force_Touch; Thermal] Standard_Trackpad 0.5 50;
     software := mkSoftware DecoderGenesisEmotionCore EngineHerResonanceAI true 0.99;
     privacy := privacy DEFAULT_CONFIG;
     performance := performance DEFAULT_CONFIG |}.

End Utils.

(** ** The resonance mapper *)
Module Mapper.
Import Constants.

(** Modelled from the spec: the emotional state handed to the mapper
    (the repository declares it in emotion/types, which is not among its
    files): primary emotion tag, optional secondary tag, intensity,
    confidence, timestamp. *)
Record EmotionalState : Type := mkState {
  primary : EmotionType;
  secondary : option EmotionType;
  intensity : Q;
  confidence : Q;
  timestamp : Z
}.

(** Modelled from the spec: a rule of the table as a structured predicate,
    the primary emotion(s) it names and its pressure band, with the
    action it yields.  The resonance action is the (mode, form,
    characteristics) triple of the table entries. *)
Record Rule : Type := mkRule {
  rule_emotions : list EmotionType;
  rule_band : PressureBand;
  rule_action : ResonanceMapping
}.

(** The string key the source table gives a rule. *)
Definition rule_key (r : Rule) : string :=
  String.concat "_" (List.map EMOTION_TYPES (rule_emotions r) ++ [band_name (rule_band r)]).

(** Modelled from the spec: the keys of [RESONANCE_MAPPINGS], in declared
    order, each read as the emotion(s) and the band it is built from. *)
Definition RULE_PREDICATES : list (list EmotionType * PressureBand) :=
  [ ([JOY; CALM], LIGHT);
    ([LOVE], VERY_LIGHT);
    ([FOCUS; DETERMINATION], MEDIUM);
    ([CONCENTRATION], MEDIUM);
    ([ANGER; FRUSTRATION], HEAVY);
    ([ANXIETY], HEAVY);
    ([COMPASSION], VERY_LIGHT);
    ([GRATITUDE], LIGHT) ].

(** Modelled from the spec: the rules, each predicate with the action its
    entry of [RESONANCE_MAPPINGS] holds. *)
Definition RESONANCE_RULES : list Rule :=
  zip_with (fun predicate entry => mkRule predicate.1 predicate.2 entry.2)
           RULE_PREDICATES RESONANCE_MAPPINGS.

(** Modelled from the spec: the bands are ordered, non-overlapping ranges
    derived from the fixed thresholds.  Each threshold is the inclusive
    lower end of its band, which runs up to the next threshold
    (half-open); the top band starts at [MAXIMUM]; a pressure under the
    lowest threshold is in no band. *)
Definition bands_descending : list PressureBand :=
  [MAXIMUM; VERY_HEAVY; HEAVY; MEDIUM; LIGHT; VERY_LIGHT].

(** Modelled from the spec: the band of a pressure, the highest one whose
    threshold the pressure reaches. *)
Definition pressureBand (pressure : Q) : option PressureBand :=
  List.find (fun b => Qle_bool (PRESSURE_THRESHOLDS b) pressure) bands_descending.

(** Emotion tags and band names are compared as the strings they are. *)
Definition emotion_eqb (a b : EmotionType) : bool :=
  String.eqb (EMOTION_TYPES a) (EMOTION_TYPES b).

Definition band_eqb (a b : PressureBand) : bool :=
  String.eqb (band_name a) (band_name b).

(** Modelled from the spec: a rule matches when the state's primary
    emotion is one the rule names and the pressure falls in its band. *)
Definition rule_matches (s : EmotionalState) (b : PressureBand) (r : Rule) : bool :=
  existsb (emotion_eqb (primary s)) (rule_emotions r) && band_eqb (rule_band r) b.

(** Modelled from the spec: specificity order; a rule naming two emotions
    goes before a rule naming one, declared order otherwise. *)
Definition by_specificity (a b : Rule) : Q :=
  inject_Z (Z.of_nat (length (rule_emotions b)) - Z.of_nat (length (rule_emotions a))).

(** Modelled from the spec: the rules in the order they are tried. *)
Definition rules_by_specificity : list Rule :=
  array_sort by_specificity RESONANCE_RULES.

(** Modelled from the spec: the documented neutral fallback action. *)
Definition NEUTRAL_FALLBACK : ResonanceMapping :=
  mkMapping ALTERATION STRUCTURED [].

(** Modelled from the spec: [map(emotionalState, pressure)]; the rules are
    tried in specificity order, the first match wins, and the neutral
    fallback answers when none matches. *)
Definition map (emotionalState : EmotionalState) (pressure : Q) : ResonanceMapping :=
  match pressureBand pressure with
  | None => NEUTRAL_FALLBACK
  | Some b =>
      match List.find (rule_matches emotionalState b) rules_by_specificity with
      | Some r => rule_action r
      | None => NEUTRAL_FALLBACK
      end
  end.

(** The band above a band, if any. *)
Definition next_band (b : PressureBand) : option PressureBand :=
  match b with
  | VERY_LIGHT => Some LIGHT
  | LIGHT => Some MEDIUM
  | MEDIUM => Some HEAVY
  | HEAVY => Some VERY_HEAVY
  | VERY_HEAVY => Some MAXIMUM
  | MAXIMUM => None
  end.

End Mapper.

(** ** The Genesis profile manager (class GenesisProfile) *)
Module Genesis.

(** A reference to an array of patterns, and the store of those arrays. *)
Definition loc : Type := nat.

Record PatternCharacteristics : Type := mkCharacteristics {
  c_primary : string;
  c_secondary : option string;
  intensityRange : Q * Q;
  pressureSensitivity : float;
  thermalSignature : float;
  pulseCorrelation : option Q
}.

Record EmotionalPattern : Type := mkPattern {
  id : string;
  name : string;
  characteristics : PatternCharacteristics;
  frequency : Q;
  confidence : Q;
  lastObserved : Z;
  p_createdAt : Z
}.

Abbreviation Heap := (gmap loc (list EmotionalPattern)).

Record Sensitivity : Type := mkSensitivity {
  pressure : float;
  thermal : float;
  pulse : Q
}.

Inductive ResponseSpeed : Type := slow | normal | fast.

Record ResonanceSettings : Type := mkSettings {
  preferredModes : list string;
  formPreferences : list string;
  sensitivity : Sensitivity;
  responseSpeed : ResponseSpeed;
  hapticFeedback : bool
}.

Record PrivacyConfig : Type := mkPrivacyConfig {
  localProcessingOnly : bool;
  encryptData : bool;
  retentionDays : Q;
  allowAnonymousSharing : bool;
  sharePatterns : bool;
  sharePreferences : bool
}.

Record Adjustment : Type := mkAdjustment {
  a_type : string;
  a_value : Q;
  a_timestamp : Z
}.

Record AdaptiveData : Type := mkAdaptive {
  learningRate : Q;
  accuracy : Q;
  trainingSamples : nat;
  lastTraining : Z;
  adjustments : list Adjustment
}.

(** The profile object ([this.profile]).  The fingerprint is held by
    reference: it is the array [findMatchingPatterns] reads. *)
Record GenesisProfile : Type := mkProfile {
  userId : string;
  displayName : string;
  emotionalFingerprint : loc;
  resonancePreferences : ResonanceSettings;
  privacySettings : PrivacyConfig;
  learningData : AdaptiveData;
  createdAt : Z;
  updatedAt : Z;
  version : string
}.

(** [Partial<GenesisProfile>]: every top-level key is there or not. *)
Record PartialProfile : Type := mkPartial {
  o_userId : option string;
  o_displayName : option string;
  o_emotionalFingerprint : option loc;
  o_resonancePreferences : option ResonanceSettings;
  o_privacySettings : option PrivacyConfig;
  o_learningData : option AdaptiveData;
  o_createdAt : option Z;
  o_updatedAt : option Z;
  o_version : option string
}.

(** [{ ...p, ...data }]. *)
Definition spreadProfile (p : GenesisProfile) (data : PartialProfile) : GenesisProfile :=
  {| userId := overlay (o_userId data) (userId p);
     displayName := overlay (o_displayName data) (displayName p);
     emotionalFingerprint := overlay (o_emotionalFingerprint data) (emotionalFingerprint p);
     resonancePreferences := overlay (o_resonancePreferences data) (resonancePreferences p);
     privacySettings := overlay (o_privacySettings data) (privacySettings p);
     learningData := overlay (o_learningData data) (learningData p);
     createdAt := overlay (o_createdAt data) (createdAt p);
     updatedAt := overlay (o_updatedAt data) (updatedAt p);
     version := overlay (o_version data) (version p) |}.

(** Reading an array through its reference. *)
Definition deref (h : Heap) (l : loc) : list EmotionalPattern :=
  default [] (h !! l).

(** An array literal or a method that returns a new array: the contents
    go to a reference the store does not hold yet. *)
Definition alloc (contents : list EmotionalPattern) (h : Heap) : Heap * loc :=
  let l := fresh (dom h) in (<[l := contents]> h, l).

(** [arr.filter(f)]: a new array; [arr] is left as it is. *)
Definition Array_filter (f : EmotionalPattern -> bool) (arr : loc) (h : Heap) : Heap * loc :=
  alloc (List.filter f (deref h arr)) h.

(** [arr.sort(cmp)]: sorts [arr] in place and returns [arr] itself. *)
Definition Array_sort (cmp : EmotionalPattern -> EmotionalPattern -> Q)
    (arr : loc) (h : Heap) : Heap * loc :=
  (<[arr := array_sort cmp (deref h arr)]> h, arr).

(** [createDefaultProfile(userId)]; [now] is what [Date.now()] reads. *)
Definition createDefaultProfile (uid : string) (now : Z) (h : Heap) : Heap * GenesisProfile :=
  let '(h', fp) := alloc [] h in
  (h',
   {| userId := uid;
      displayName := "User_" +:+ String.substring 0 8 uid;
      emotionalFingerprint := fp;
      resonancePreferences :=
        mkSettings ["creation"; "alteration"] ["organic"; "fluid"]
                   (mkSensitivity 0.5 0.5 0.5) normal true;
      privacySettings := mkPrivacyConfig true true 30 false false false;
      learningData := mkAdaptive 0.1 0.0 0 now [];
      createdAt := now;
      updatedAt := now;
      version := "1.0.0" |}).

(** [saveProfile()]: stamps [updatedAt]; the write to the storage backend
    and the events it emits leave [this.profile] as stamped. *)
Definition saveProfile (now : Z) (p : GenesisProfile) : GenesisProfile :=
  {| userId := userId p;
     displayName := displayName p;
     emotionalFingerprint := emotionalFingerprint p;
     resonancePreferences := resonancePreferences p;
     privacySettings := privacySettings p;
     learningData := learningData p;
     createdAt := createdAt p;
     updatedAt := now;
     version := version p |}.

(** The argument of [findMatchingPatterns]. *)
Record Query : Type := mkQuery {
  q_primary : string;
  q_intensity : Q;
  q_pressure : float;
  q_thermal : float
}.

(** The predicate handed to [filter].  The two proximity tests subtract
    before they compare, so their outcome depends on the rounding of the
    difference: they are computed in binary64, as the code computes them. *)
Definition matchesPattern (q : Query) (pattern : EmotionalPattern) : bool :=
  let matchesPrimary := String.eqb (c_primary (characteristics pattern)) (q_primary q) in
  let matchesIntensity :=
    Qle_bool (fst (intensityRange (characteristics pattern))) (q_intensity q)
    && Qle_bool (q_intensity q) (snd (intensityRange (characteristics pattern))) in
  let matchesPressure :=
    PrimFloat.ltb
      (PrimFloat.abs (PrimFloat.sub (pressureSensitivity (characteristics pattern))
                                    (q_pressure q)))
      0.2 in
  let matchesThermal :=
    PrimFloat.ltb
      (PrimFloat.abs (PrimFloat.sub (thermalSignature (characteristics pattern))
                                    (q_thermal q)))
      0.2 in
  matchesPrimary && matchesIntensity && matchesPressure && matchesThermal.

(** The comparator handed to [sort]: [(a, b) => b.confidence - a.confidence]. *)
Definition byConfidence (a b : EmotionalPattern) : Q :=
  confidence b - confidence a.

(** [findMatchingPatterns(characteristics)]: the reference of the array it
    returns, and the store after the call. *)
Definition findMatchingPatterns (p : GenesisProfile) (q : Query) (h : Heap) : Heap * loc :=
  let '(h1, filtered) := Array_filter (matchesPattern q) (emotionalFingerprint p) h in
  Array_sort byConfidence filtered h1.

(** [exportProfile(includePrivate)]. *)
Definition exportProfile (includePrivate : bool) (p : GenesisProfile) : PartialProfile :=
  {| o_userId := Some (userId p);
     o_displayName := Some (displayName p);
     o_version := Some (version p);
     o_createdAt := Some (createdAt p);
     o_updatedAt := Some (updatedAt p);
     o_emotionalFingerprint :=
       if includePrivate || sharePatterns (privacySettings p)
       then Some (emotionalFingerprint p) else None;
     o_resonancePreferences :=
       if includePrivate || sharePreferences (privacySettings p)
       then Some (resonancePreferences p) else None;
     o_privacySettings := if includePrivate then Some (privacySettings p) else None;
     o_learningData := if includePrivate then Some (learningData p) else None |}.

(** [importProfile(data, merge)], up to the end of the [saveProfile] it
    awaits; [now] is what [Date.now()] reads during the call. *)
Definition importProfile (data : PartialProfile) (merge : bool) (now : Z)
    (p : GenesisProfile) (h : Heap) : Heap * GenesisProfile :=
  let '(h', assigned) :=
    if merge then
      let q := spreadProfile p data in
      (h, {| userId := userId p;
             displayName := displayName q;
             emotionalFingerprint := emotionalFingerprint q;
             resonancePreferences := resonancePreferences q;
             privacySettings := privacySettings q;
             learningData := learningData q;
             createdAt := createdAt p;
             updatedAt := updatedAt q;
             version := version q |})
    else
      let '(h1, d) := createDefaultProfile (userId p) now h in
      let q := spreadProfile d data in
      (h1, {| userId := userId p;
              displayName := displayName q;
              emotionalFingerprint := emotionalFingerprint q;
              resonancePreferences := resonancePreferences q;
              privacySettings := privacySettings q;
              learningData := learningData q;
              createdAt := createdAt q;
              updatedAt := updatedAt q;
              version := version q |}) in
  (h', saveProfile now assigned).

(** What it is for a stored pattern to match a query: same primary
    emotion, intensity inside the stored range with both ends included,
    pressure sensitivity and thermal signature each within 0.2 of the query's
    values, the distance [|x - y|] and its comparison with 0.2 being those
    of binary64 arithmetic. *)
Definition Matches (q : Query) (pattern : EmotionalPattern) : Prop :=
  c_primary (characteristics pattern) = q_primary q /\
  (fst (intensityRange (characteristics pattern)) <= q_intensity q /\
   q_intensity q <= snd (intensityRange (characteristics pattern))) /\
  (PrimFloat.abs (pressureSensitivity (characteristics pattern) - q_pressure q)
   <? 0.2)%float = true /\
  (PrimFloat.abs (thermalSignature (characteristics pattern) - q_thermal q)
   <? 0.2)%float = true.

(** The patterns of one confidence value. *)
Definition hasConfidence (c : Q) (pattern : EmotionalPattern) : bool :=
  Qeq_bool (confidence pattern) c.

(** A small profile to run the operations on: five stored patterns, two of
    them of equal confidence, one of another emotion, one too far away in
    pressure sensitivity. *)
Definition example_pattern (ident emotion : string) (sens : float) (conf : Q)
    : EmotionalPattern :=
  mkPattern ident ident (mkCharacteristics emotion None (0.2, 0.8) sens 0.5 None)
            1 conf 0 0.

Definition example_patterns : list EmotionalPattern :=
  [ example_pattern "a" "joy" 0.5 0.6;
    example_pattern "b" "joy" 0.6 0.9;
    example_pattern "c" "anger" 0.5 1;
    example_pattern "d" "joy" 0.4 0.6;
    example_pattern "e" "joy" 0.9 0.95 ].

Definition example_store : Heap := {[ 0%nat := example_patterns ]}.

Definition example_profile : GenesisProfile :=
  {| userId := "user-0001-abcd";
     displayName := "User_user-000";
     emotionalFingerprint := 0%nat;
     resonancePreferences :=
       mkSettings ["creation"; "alteration"] ["organic"; "fluid"]
                  (mkSensitivity 0.5 0.5 0.5) normal true;
     privacySettings := mkPrivacyConfig true true 30 false false false;
     learningData := mkAdaptive 0.1 0.0 0 7 [];
     createdAt := 7;
     updatedAt := 8;
     version := "1.0.0" |}.

Definition example_query : Query := mkQuery "joy" 0.5 0.5 0.5.

(** A second profile with the identity, version and timestamps of the
    example and everything else different; both keep their patterns and
    preferences unshared. *)
Definition example_profile' : GenesisProfile :=
  {| userId := "user-0001-abcd";
     displayName := "User_user-000";
     emotionalFingerprint := 3%nat;
     resonancePreferences :=
       mkSettings ["blessing"] ["ethereal"] (mkSensitivity 0.9 0.1 0.3) fast false;
     privacySettings := mkPrivacyConfig false false 90 true false false;
     learningData := mkAdaptive 0.2 0.8 1 9 [mkAdjustment "pressure" 0.1 9];
     createdAt := 7;
     updatedAt := 8;
     version := "1.0.0" |}.

(** An import payload that carries an identity, a creation time and an
    update time of its own (an export of another profile does). *)
Definition example_import : PartialProfile :=
  {| o_userId := Some "someone-else";
     o_displayName := Some "Imported";
     o_emotionalFingerprint := None;
     o_resonancePreferences := None;
     o_privacySettings := None;
     o_learningData := None;
     o_createdAt := Some 1%Z;
     o_updatedAt := Some 5%Z;
     o_version := Some "2.0.0" |}.

(** The reading of the import contract that overlays every top-level field
    of [data] other than [userId] and [createdAt], [updatedAt] included. *)
Definition merge_overlays_every_other_field : Prop :=
  forall (data : PartialProfile) (now : Z) (p : GenesisProfile) (h : Heap),
    let p' := (importProfile data true now p h).2 in
    userId p' = userId p /\
    createdAt p' = createdAt p /\
    displayName p' = overlay (o_displayName data) (displayName p) /\
    emotionalFingerprint p' = overlay (o_emotionalFingerprint data) (emotionalFingerprint p) /\
    resonancePreferences p' = overlay (o_resonancePreferences data) (resonancePreferences p) /\
    privacySettings p' = overlay (o_privacySettings data) (privacySettings p) /\
    learningData p' = overlay (o_learningData data) (learningData p) /\
    version p' = overlay (o_version data) (version p) /\
    updatedAt p' = overlay (o_updatedAt data) (updatedAt p).

End Genesis.

(** ** The orchestrator (class RTI) *)
Module Orchestrator.
Import Constants.

Inductive Severity : Type := low | medium | high | critical.

(** [this.performanceMetrics]. *)
Record PerformanceMetrics : Type := mkMetrics {
  lastLatency : Q;
  averageLatency : Q;
  latencySamples : list Q;
  memoryUsage : Q;
  cpuUsage : Q
}.

(** An entry of [stats.topModes]. *)
Record ModeUsage : Type := mkModeUsage {
  mode : string;
  count : nat;
  percentage : Q
}.

(** An entry of [stats.topEmotions]. *)
Record EmotionUsage : Type := mkEmotionUsage {
  e_emotion : string;
  e_count : nat;
  e_percentage : Q
}.

(** [this.stats]. *)
Record RTIStats : Type := mkStats {
  totalTouches : nat;
  totalEmotions : nat;
  totalResonances : nat;
  stats_averageLatency : Q;
  recognitionAccuracy : Q;
  topEmotions : list EmotionUsage;
  topModes : list ModeUsage;
  sessionDuration : Z;
  uptime : Z
}.

(** [this.status.performance]. *)
Record StatusPerformance : Type := mkStatusPerformance {
  latency : Q;
  throughput : Number;
  sp_memoryUsage : Q;
  sp_cpuUsage : Q
}.

(** What [this.emit] publishes (the payload fields the methods set). *)
Inductive Emitted : Type :=
| EmitError (code message : string) (severity : Severity) (timestamp : Z)
| EmitStatusChange (status : SystemStatus) (timestamp : Z)
| EmitPerformanceUpdate (latency : Q) (throughput : Number) (timestamp : Z).

(** The fields of an RTI instance that the methods below read or write:
    [status.status], [status.performance], [stats], [sessionStartTime],
    [performanceMetrics]; of the listener table that the class inherits
    from EventEmitter, the number of listeners registered for 'error'; and
    the log of what was published, oldest first. *)
Record RTI : Type := mkRTI {
  status : SystemStatus;
  status_performance : StatusPerformance;
  stats : RTIStats;
  sessionStartTime : Z;
  performanceMetrics : PerformanceMetrics;
  errorListeners : nat;
  emitted : list Emitted
}.

(** The field values the constructor assigns; [now] is [Date.now()]. *)
Definition constructed (now : Z) : RTI :=
  {| status := INITIALIZING;
     status_performance := mkStatusPerformance 0 (Num 0) 0 0;
     stats := mkStats 0 0 0 0 0 [] [] 0 0;
     sessionStartTime := now;
     performanceMetrics := mkMetrics 0 0 [] 0 0;
     errorListeners := 0;
     emitted := [] |}.

(** [this.on('error', listener)], which the class inherits: the
    application registers a listener for 'error'. *)
Definition onError (st : RTI) : RTI :=
  mkRTI (status st) (status_performance st) (stats st) (sessionStartTime st)
        (performanceMetrics st) (S (errorListeners st)) (emitted st).

(** [this.off('error', listener)] for a listener that is registered. *)
Definition offError (st : RTI) : RTI :=
  mkRTI (status st) (status_performance st) (stats st) (sessionStartTime st)
        (performanceMetrics st) (Nat.pred (errorListeners st)) (emitted st).

(** [this.removeAllListeners()]. *)
Definition removeAllListeners (st : RTI) : RTI :=
  mkRTI (status st) (status_performance st) (stats st) (sessionStartTime st)
        (performanceMetrics st) 0 (emitted st).

(** [this.emit(type, payload)] for a type other than 'error': the payload
    is published (it joins the log), whether or not anyone listens.  The
    listeners belong to the application and are taken to return. *)
Definition emit (e : Emitted) (st : RTI) : RTI :=
  mkRTI (status st) (status_performance st) (stats st) (sessionStartTime st)
        (performanceMetrics st) (errorListeners st) (emitted st ++ [e]).

(** [this.emit('error', payload)].  EventEmitter treats this type apart:
    when no listener is registered for 'error' the call throws
    (ERR_UNHANDLED_ERROR) and nothing is published ([None]). *)
Definition emitError (e : Emitted) (st : RTI) : option RTI :=
  match errorListeners st with
  | O => None
  | S _ => Some (emit e st)
  end.

(** [updateStatus(status)]. *)
Definition updateStatus (s : SystemStatus) (now : Z) (st : RTI) : RTI :=
  emit (EmitStatusChange s now)
       (mkRTI s (status_performance st) (stats st) (sessionStartTime st)
              (performanceMetrics st) (errorListeners st) (emitted st)).

(** [samples.push(latency)] and then [shift()] once the length passes 100. *)
Definition pushSample (latency : Q) (samples : list Q) : list Q :=
  let samples := samples ++ [latency] in
  if Nat.ltb 100 (length samples) then tail samples else samples.

(** [samples.reduce((a, b) => a + b, 0) / samples.length]. *)
Definition average (samples : list Q) : Q :=
  sumQ samples / inject_Z (Z.of_nat (length samples)).

(** [touches / elapsed * 1000].  When no time has passed the division is
    by zero: NaN when no touch was counted either, Infinity otherwise. *)
Definition touchesPerSecond (touches : nat) (elapsed : Z) : Number :=
  if (elapsed =? 0)%Z
  then match touches with O => NaN | S _ => PlusInfinity end
  else Num (inject_Z (Z.of_nat touches) / inject_Z elapsed * 1000).

(** [updatePerformanceMetrics(latency)]; [now] is [Date.now()]. *)
Definition updatePerformanceMetrics (latency : Q) (now : Z) (st : RTI) : RTI :=
  let pm := performanceMetrics st in
  let samples := pushSample latency (latencySamples pm) in
  let avg := average samples in
  let pm' := mkMetrics latency avg samples (memoryUsage pm) (cpuUsage pm) in
  let tp := touchesPerSecond (totalTouches (stats st)) (now - sessionStartTime st) in
  let sp := status_performance st in
  let sp' := mkStatusPerformance avg tp (sp_memoryUsage sp) (sp_cpuUsage sp) in
  emit (EmitPerformanceUpdate avg tp now)
       (mkRTI (status st) sp' (stats st) (sessionStartTime st) pm' (errorListeners st)
              (emitted st)).

(** [updateRecognitionAccuracy(confidence)]. *)
Definition updateRecognitionAccuracy (confidence : Q) (st : RTI) : RTI :=
  let alpha := 0.1 in
  let s := stats st in
  let acc := (1 - alpha) * recognitionAccuracy s + alpha * confidence in
  mkRTI (status st) (status_performance st)
        (mkStats (totalTouches s) (totalEmotions s) (totalResonances s)
                 (stats_averageLatency s) acc (topEmotions s) (topModes s)
                 (sessionDuration s) (uptime s))
        (sessionStartTime st) (performanceMetrics st) (errorListeners st) (emitted st).

(** [existingMode.count++] on the entry [find] returned: the first one
    whose mode is [m]. *)
Fixpoint incrementFirst (m : string) (l : list ModeUsage) : list ModeUsage :=
  match l with
  | [] => []
  | e :: r =>
      if String.eqb (mode e) m
      then mkModeUsage (mode e) (S (count e)) (percentage e) :: r
      else e :: incrementFirst m r
  end.

(** [topModes.reduce((sum, m) => sum + m.count, 0)]. *)
Definition totalCount (l : list ModeUsage) : nat :=
  fold_left (fun sum m => (sum + count m)%nat) l 0%nat.

(** [m.percentage = (m.count / total) * 100]. *)
Definition setPercentage (total : nat) (m : ModeUsage) : ModeUsage :=
  mkModeUsage (mode m) (count m)
    (inject_Z (Z.of_nat (count m)) / inject_Z (Z.of_nat total) * 100).

(** The comparator [(a, b) => b.count - a.count]. *)
Definition byCount (a b : ModeUsage) : Q :=
  inject_Z (Z.of_nat (count b) - Z.of_nat (count a)).

(** The three steps of [updateModeStatistics] on the table itself. *)
Definition updateModeTable (m : string) (table : list ModeUsage) : list ModeUsage :=
  let table :=
    match List.find (fun e => String.eqb (mode e) m) table with
    | Some _ => incrementFirst m table
    | None => table ++ [mkModeUsage m 1 0]
    end in
  let total := totalCount table in
  let table := List.map (setPercentage total) table in
  array_sort byCount table.

(** [updateModeStatistics(mode)]. *)
Definition updateModeStatistics (m : string) (st : RTI) : RTI :=
  let s := stats st in
  mkRTI (status st) (status_performance st)
        (mkStats (totalTouches s) (totalEmotions s) (totalResonances s)
                 (stats_averageLatency s) (recognitionAccuracy s) (topEmotions s)
                 (updateModeTable m (topModes s))
                 (sessionDuration s) (uptime s))
        (sessionStartTime st) (performanceMetrics st) (errorListeners st) (emitted st).

Definition criticalErrors : list string :=
  [ ERROR_CODES.HARDWARE_NOT_SUPPORTED;
    ERROR_CODES.EMOTION_DECODER_ERROR;
    ERROR_CODES.RESONANCE_ENGINE_ERROR ].

Definition highErrors : list string :=
  [ ERROR_CODES.SENSOR_DISCONNECTED;
    ERROR_CODES.LATENCY_EXCEEDED;
    ERROR_CODES.MEMORY_LIMIT_EXCEEDED ].

(** [determineErrorSeverity(code)]. *)
Definition determineErrorSeverity (code : string) : Severity :=
  if array_includes criticalErrors code then critical
  else if array_includes highErrors code then high
  else if includes code "PERFORMANCE" then medium
  else low.

Definition severity_is_critical (s : Severity) : bool :=
  match s with
  | critical => true
  | _ => false
  end.

(** [handleError(code, message, error)]; [now] is [Date.now()].  The
    [error] argument only travels in the event as its context.  The event
    is emitted before the status is looked at: when that emit throws, so
    does [handleError] ([None]), and no field has changed. *)
Definition handleError (code message : string) (now : Z) (st : RTI) : option RTI :=
  let severity := determineErrorSeverity code in
  match emitError (EmitError code message severity now) st with
  | None => None
  | Some st => Some (if severity_is_critical severity then updateStatus ERROR now st else st)
  end.

(** The sum of the percentage fields of a table. *)
Definition percentageSum (table : list ModeUsage) : Q :=
  sumQ (List.map percentage table).

(** Successive calls of [updatePerformanceMetrics], one per measurement,
    each with the clock reading of its call. *)
Definition recordLatencies (samples : list (Q * Z)) (st : RTI) : RTI :=
  fold_left (fun st s => updatePerformanceMetrics s.1 s.2 st) samples st.

(** Successive calls of [updateModeStatistics]. *)
Definition recordModes (modes : list string) (st : RTI) : RTI :=
  fold_left (fun st m => updateModeStatistics m st) modes st.

(** The last [n] elements of a list. *)
Definition lastN {A : Type} (n : nat) (l : list A) : list A :=
  skipn (length l - n) l.

(** 101 measurements, 1 ms to 101 ms, taken one second apart. *)
Definition example_latencies : list (Q * Z) :=
  List.map (fun n => (inject_Z (Z.of_nat n), (1000 * Z.of_nat n)%Z)) (seq 1 101).

End Orchestrator.

(** ** RTIUtils: the numeric helpers and retry *)
Module UtilsNumeric.
Import Constants Utils.

(** The five numbers [validateConfig] reads, as JavaScript can hand them
    over: NaN and the infinities included. *)
Record CheckedNumbers : Type := mkChecked {
  n_samplingRate : Number;
  n_pressureSensitivity : Number;
  n_confidenceThreshold : Number;
  n_maxLatency : Number;
  n_memoryLimit : Number
}.

(** Those of a configuration whose numbers are all finite. *)
Definition checkedNumbers (config : RTIConfig) : CheckedNumbers :=
  {| n_samplingRate := Num (samplingRate (hardware config));
     n_pressureSensitivity := Num (pressureSensitivity (hardware config));
     n_confidenceThreshold := Num (confidenceThreshold (software config));
     n_maxLatency := Num (maxLatency (performance config));
     n_memoryLimit := Num (memoryLimit (performance config)) |}.

(** [RTIUtils.validateConfig(config)] once more, on such numbers: the same
    seven comparisons in the same order. *)
Definition validateNumbers (c : CheckedNumbers) : ValidationResult :=
  let errors := [] in
  let errors :=
    push_if (Number_lt (n_samplingRate c) (Num MIN_SAMPLING_RATE_HZ))
            MSG_RATE_LOW errors in
  let errors :=
    push_if (Number_lt (Num MAX_SAMPLING_RATE_HZ) (n_samplingRate c))
            MSG_RATE_HIGH errors in
  let errors :=
    push_if (Number_lt (n_pressureSensitivity c) (Num 0)
             || Number_lt (Num 1) (n_pressureSensitivity c))
            MSG_PRESSURE errors in
  let errors :=
    push_if (Number_lt (n_confidenceThreshold c) (Num MIN_CONFIDENCE_THRESHOLD))
            MSG_CONFIDENCE_LOW errors in
  let errors :=
    push_if (Number_lt (Num MAX_CONFIDENCE_THRESHOLD) (n_confidenceThreshold c))
            MSG_CONFIDENCE_HIGH errors in
  let errors :=
    push_if (Number_lt (Num MAX_LATENCY_MS) (n_maxLatency c))
            MSG_LATENCY errors in
  let errors :=
    push_if (Number_lt (Num MAX_MEMORY_USAGE_MB) (n_memoryLimit c))
            MSG_MEMORY errors in
  {| valid := Nat.eqb (length errors) 0; errors := errors |}.

(** A number that is NaN, or lies between two bounds, both included. *)
Definition NaN_or_within (lo hi : Q) (x : Number) : Prop :=
  match x with
  | NaN => True
  | Num q => lo <= q /\ q <= hi
  | PlusInfinity | MinusInfinity => False
  end.

(** A number that is NaN, or does not exceed a bound. *)
Definition NaN_or_at_most (hi : Q) (x : Number) : Prop :=
  match x with
  | NaN | MinusInfinity => True
  | Num q => q <= hi
  | PlusInfinity => False
  end.

(** [RTIUtils.clamp(value, min, max)]: [Math.max(min, Math.min(max, value))]. *)
Definition clamp (value min max : Q) : Q :=
  Qmax min (Qmin max value).

(** [RTIUtils.normalizePressure(pressure, min = 0, max = 500)]; an argument
    left out takes its default.  The quotient is the rational one, which
    is the code's for [max <> min]; for [max = min] the code divides by
    zero, and nothing is stated about that case. *)
Definition normalizePressure (pressure : Q) (min max : option Q) : Q :=
  let min := overlay min 0 in
  let max := overlay max 500 in
  let normalized := (pressure - min) / (max - min) in
  Qmax 0 (Qmin 1 normalized).

(** [RTIUtils.calculateEmotionalIntensity(pressure, thermal, pulse?)]. *)
Definition calculateEmotionalIntensity (pressure thermal : Q) (pulse : option Q) : Q :=
  let intensity := pressure * 0.6 in
  let intensity := intensity + thermal * 0.3 in
  let intensity :=
    match pulse with
    | Some pulse => intensity + pulse * 0.1
    | None => intensity
    end in
  Qmax 0 (Qmin 1 intensity).

(** What a call of [retry] ends with: the value [func] resolved with, or
    the error thrown ([None] is [undefined], thrown when no attempt was
    made). *)
Inductive Settled (E T : Type) : Type :=
| Resolved (value : T)
| Rejected (error : option E).
Arguments Resolved {E T} value.
Arguments Rejected {E T} error.

(** The loop of [retry]; [func attempt] is how the call of [func] in
    iteration [attempt] settles ([inl] a rejection, [inr] a value),
    [remaining] bounds the iterations left, [slept] collects the delays
    waited so far, in order. *)
Fixpoint retry_loop {E T : Type} (func : nat -> E + T) (maxRetries : Z) (baseDelay : Q)
    (remaining attempt : nat) (lastError : option E) (slept : list Q)
    : Settled E T * list Q :=
  match remaining with
  | O => (Rejected lastError, slept)
  | S remaining =>
      match func attempt with
      | inr value => (Resolved value, slept)
      | inl error =>
          if Z.eqb (Z.of_nat attempt) maxRetries
          then (Rejected (Some error), slept)
          else
            let delay := baseDelay * inject_Z (2 ^ Z.of_nat attempt) in
            retry_loop func maxRetries baseDelay remaining (S attempt)
                       (Some error) (slept ++ [delay])
      end
  end.

(** [RTIUtils.retry(func, maxRetries = 3, baseDelay = 1000)] for an integer
    [maxRetries]: the loop runs for [attempt = 0 .. maxRetries]. *)
Definition retry {E T : Type} (func : nat -> E + T) (maxRetries : option Z)
    (baseDelay : option Q) : Settled E T * list Q :=
  let maxRetries := overlay maxRetries 3%Z in
  let baseDelay := overlay baseDelay 1000 in
  retry_loop func maxRetries baseDelay (Z.to_nat (maxRetries + 1)) 0 None [].

(** The delay slept after the failure of iteration [attempt]. *)
Definition backoff (baseDelay : Q) (attempt : nat) : Q :=
  baseDelay * inject_Z (2 ^ Z.of_nat attempt).

(** A whole number in decimal, as template strings and [toFixed] print
    it. *)
Definition decimal (n : N) : string :=
  NilZero.string_of_uint (N.to_uint n).

(** [x.toFixed(1)] for [x >= 0]: the integer [n] with [n / 10] closest to
    [x], the larger one on a tie, printed with one digit after the point. *)
Definition tenths (x : Q) : N := Z.to_N (Qfloor (x * 10 + (1 # 2))).

Definition toFixed1 (x : Q) : string :=
  decimal (tenths x / 10) +:+ "." +:+ decimal (tenths x mod 10).

Definition units : list string := ["B"; "KB"; "MB"; "GB"; "TB"].

(** The loop of [formatFileSize]:
    [while (size >= 1024 && unitIndex < units.length - 1)]; the index can
    grow [fuel] more times. *)
Fixpoint scale (fuel : nat) (size : Q) (unitIndex : nat) : Q * nat :=
  match fuel with
  | O => (size, unitIndex)
  | S fuel =>
      if Qle_bool 1024 size && (unitIndex <? length units - 1)%nat
      then scale fuel (size / 1024) (S unitIndex)
      else (size, unitIndex)
  end.

(** [RTIUtils.formatFileSize(bytes)] for a whole number of bytes (below
    2^53 the divisions by 1024 and the rounding of [toFixed] are exact, so
    the numbers below are the ones the code computes). *)
Definition formatFileSize (bytes : N) : string :=
  let '(size, unitIndex) := scale (length units - 1) (inject_Z (Z.of_N bytes)) 0 in
  toFixed1 size +:+ " " +:+ nth unitIndex units "".

End UtilsNumeric.

(** ** The Genesis profile manager: the operations on the stored profile *)
Module GenesisOps.
Import Genesis.

(** [Partial<EmotionalPattern>]: every key is there or not. *)
Record PartialPattern : Type := mkPartialPattern {
  u_id : option string;
  u_name : option string;
  u_characteristics : option PatternCharacteristics;
  u_frequency : option Q;
  u_confidence : option Q;
  u_lastObserved : option Z;
  u_createdAt : option Z
}.

(** [Partial<ResonanceSettings>]. *)
Record PartialSettings : Type := mkPartialSettings {
  u_preferredModes : option (list string);
  u_formPreferences : option (list string);
  u_sensitivity : option Sensitivity;
  u_responseSpeed : option ResponseSpeed;
  u_hapticFeedback : option bool
}.

(** [Partial<PrivacyConfig>]. *)
Record PartialPrivacy : Type := mkPartialPrivacy {
  u_localProcessingOnly : option bool;
  u_encryptData : option bool;
  u_retentionDays : option Q;
  u_allowAnonymousSharing : option bool;
  u_sharePatterns : option bool;
  u_sharePreferences : option bool
}.

(** [arr.findIndex(p => p.id === patternId)]; [None] stands for -1. *)
Fixpoint findIndex (patternId : string) (arr : list EmotionalPattern) : option nat :=
  match arr with
  | [] => None
  | p :: r => if String.eqb (id p) patternId then Some 0%nat else S <$> findIndex patternId r
  end.

(** [arr.push(x)]: the array grows in place. *)
Definition Array_push (x : EmotionalPattern) (arr : loc) (h : Heap) : Heap :=
  <[arr := deref h arr ++ [x]]> h.

(** [arr[i] = f(arr[i])] for an index inside the array. *)
Definition Array_update (f : EmotionalPattern -> EmotionalPattern) (i : nat)
    (arr : loc) (h : Heap) : Heap :=
  <[arr := alter f i (deref h arr)]> h.

(** [arr.splice(i, 1)]: the element at [i] leaves the array, in place. *)
Definition Array_splice1 (i : nat) (arr : loc) (h : Heap) : Heap :=
  <[arr := delete i (deref h arr)]> h.

(** [{ ...pattern, id: uuid, createdAt: now }]. *)
Definition stampPattern (pattern : EmotionalPattern) (uuid : string) (now : Z)
    : EmotionalPattern :=
  {| id := uuid;
     name := name pattern;
     characteristics := characteristics pattern;
     frequency := frequency pattern;
     confidence := confidence pattern;
     lastObserved := lastObserved pattern;
     p_createdAt := now |}.

(** [addEmotionalPattern(pattern)]; [uuid] is what [uuidv4()] returns and
    [now] what [Date.now()] reads during the call. *)
Definition addEmotionalPattern (pattern : EmotionalPattern) (uuid : string) (now : Z)
    (p : GenesisProfile) (h : Heap) : Heap * GenesisProfile :=
  let newPattern := stampPattern pattern uuid now in
  let h := Array_push newPattern (emotionalFingerprint p) h in
  (h, saveProfile now p).

(** [{ ...old, ...updates, lastObserved: now }]. *)
Definition mergePattern (updates : PartialPattern) (now : Z) (old : EmotionalPattern)
    : EmotionalPattern :=
  {| id := overlay (u_id updates) (id old);
     name := overlay (u_name updates) (name old);
     characteristics := overlay (u_characteristics updates) (characteristics old);
     frequency := overlay (u_frequency updates) (frequency old);
     confidence := overlay (u_confidence updates) (confidence old);
     lastObserved := now;
     p_createdAt := overlay (u_createdAt updates) (p_createdAt old) |}.

(** [updateEmotionalPattern(patternId, updates)]. *)
Definition updateEmotionalPattern (patternId : string) (updates : PartialPattern) (now : Z)
    (p : GenesisProfile) (h : Heap) : Heap * GenesisProfile :=
  match findIndex patternId (deref h (emotionalFingerprint p)) with
  | Some patternIndex =>
      let h := Array_update (mergePattern updates now) patternIndex
                            (emotionalFingerprint p) h in
      (h, saveProfile now p)
  | None => (h, p)
  end.

(** [removeEmotionalPattern(patternId)]. *)
Definition removeEmotionalPattern (patternId : string) (now : Z)
    (p : GenesisProfile) (h : Heap) : Heap * GenesisProfile :=
  match findIndex patternId (deref h (emotionalFingerprint p)) with
  | Some patternIndex =>
      let h := Array_splice1 patternIndex (emotionalFingerprint p) h in
      (h, saveProfile now p)
  | None => (h, p)
  end.

Definition with_resonancePreferences (r : ResonanceSettings) (p : GenesisProfile)
    : GenesisProfile :=
  mkProfile (userId p) (displayName p) (emotionalFingerprint p) r (privacySettings p)
            (learningData p) (createdAt p) (updatedAt p) (version p).

Definition with_privacySettings (s : PrivacyConfig) (p : GenesisProfile) : GenesisProfile :=
  mkProfile (userId p) (displayName p) (emotionalFingerprint p) (resonancePreferences p) s
            (learningData p) (createdAt p) (updatedAt p) (version p).

Definition with_learningData (d : AdaptiveData) (p : GenesisProfile) : GenesisProfile :=
  mkProfile (userId p) (displayName p) (emotionalFingerprint p) (resonancePreferences p)
            (privacySettings p) d (createdAt p) (updatedAt p) (version p).

(** [updateResonancePreferences(preferences)]. *)
Definition updateResonancePreferences (preferences : PartialSettings) (now : Z)
    (p : GenesisProfile) : GenesisProfile :=
  let old := resonancePreferences p in
  saveProfile now
    (with_resonancePreferences
       {| preferredModes := overlay (u_preferredModes preferences) (preferredModes old);
          formPreferences := overlay (u_formPreferences preferences) (formPreferences old);
          sensitivity := overlay (u_sensitivity preferences) (sensitivity old);
          responseSpeed := overlay (u_responseSpeed preferences) (responseSpeed old);
          hapticFeedback := overlay (u_hapticFeedback preferences) (hapticFeedback old) |}
       p).

(** [updatePrivacySettings(settings)]. *)
Definition updatePrivacySettings (settings : PartialPrivacy) (now : Z)
    (p : GenesisProfile) : GenesisProfile :=
  let old := privacySettings p in
  saveProfile now
    (with_privacySettings
       {| localProcessingOnly :=
            overlay (u_localProcessingOnly settings) (localProcessingOnly old);
          encryptData := overlay (u_encryptData settings) (encryptData old);
          retentionDays := overlay (u_retentionDays settings) (retentionDays old);
          allowAnonymousSharing :=
            overlay (u_allowAnonymousSharing settings) (allowAnonymousSharing old);
          sharePatterns := overlay (u_sharePatterns settings) (sharePatterns old);
          sharePreferences := overlay (u_sharePreferences settings) (sharePreferences old) |}
       p).

(** [recordLearningAdjustment(type, value)]. *)
Definition recordLearningAdjustment (type : string) (value : Q) (now : Z)
    (p : GenesisProfile) : GenesisProfile :=
  let d := learningData p in
  saveProfile now
    (with_learningData
       {| learningRate := learningRate d;
          accuracy := accuracy d;
          trainingSamples := S (trainingSamples d);
          lastTraining := now;
          adjustments := adjustments d ++ [mkAdjustment type value now] |}
       p).

(** [updateLearningAccuracy(accuracy)]. *)
Definition updateLearningAccuracy (acc : Q) (now : Z) (p : GenesisProfile) : GenesisProfile :=
  let d := learningData p in
  saveProfile now
    (with_learningData
       (mkAdaptive (learningRate d) acc (trainingSamples d) (lastTraining d) (adjustments d))
       p).

(** [x || 0.5] on an optional number: [undefined] and 0 both give 0.5. *)
Definition or_half (x : option Q) : Q :=
  match x with
  | Some v => if Qeq_bool v 0 then 0.5 else v
  | None => 0.5
  end.

(** [getPersonalizedResonance(emotion)]: the settings it returns (all of
    the stored preferences, or the two keys derived from the top pattern),
    and the store after the call. *)
Definition getPersonalizedResonance (emotion : string) (p : GenesisProfile) (h : Heap)
    : Heap * PartialSettings :=
  let '(h, patterns) := findMatchingPatterns p (mkQuery emotion 0.5 0.5 0.5) h in
  match deref h patterns with
  | [] =>
      let r := resonancePreferences p in
      (h, {| u_preferredModes := Some (preferredModes r);
             u_formPreferences := Some (formPreferences r);
             u_sensitivity := Some (sensitivity r);
             u_responseSpeed := Some (responseSpeed r);
             u_hapticFeedback := Some (hapticFeedback r) |})
  | topPattern :: _ =>
      (h, {| u_preferredModes := None;
             u_formPreferences := None;
             u_sensitivity :=
               Some {| pressure := pressureSensitivity (characteristics topPattern);
                       thermal := thermalSignature (characteristics topPattern);
                       pulse := or_half (pulseCorrelation (characteristics topPattern)) |};
             u_responseSpeed :=
               Some (if Qlt_bool 0.8 (confidence topPattern) then fast else normal);
             u_hapticFeedback := None |})
  end.

(** [clearProfile()]. *)
Definition clearProfile (now : Z) (p : GenesisProfile) (h : Heap) : Heap * GenesisProfile :=
  let '(h, d) := createDefaultProfile (userId p) now h in
  (h, saveProfile now d).

(** [getProfile()]: a shallow copy; the fingerprint is the same array. *)
Definition getProfile (p : GenesisProfile) : GenesisProfile := p.

(** The whole of [Partial<GenesisProfile>] that a data object without any
    key is. *)
Definition no_data : PartialProfile :=
  mkPartial None None None None None None None None None.

(** Successive calls of [recordLearningAdjustment], each with its type,
    value and the time of the call. *)
Definition recordAdjustments (calls : list (string * Q * Z)) (p : GenesisProfile)
    : GenesisProfile :=
  fold_left (fun p c => recordLearningAdjustment c.1.1 c.1.2 c.2 p) calls p.

(** The probe [getPersonalizedResonance] matches with. *)
Definition probe (emotion : string) : Query := mkQuery emotion 0.5 0.5 0.5.

End GenesisOps.

(** ** The orchestrator: the event handlers and the life cycle *)
Module Lifecycle.
Import Constants Utils Orchestrator.

(** A touch event as the hardware layer delivers it (types.ts). *)
Record TouchEvent : Type := mkTouch {
  t_timestamp : Z;
  t_x : Q;
  t_y : Q;
  t_pressure : Q;
  t_duration : Q;
  t_area : Q
}.

(** What the handlers read of an emotion event and of a resonance event:
    the confidence, and the mode of the action when the event carries an
    action. *)
Record EmotionEvent : Type := mkEmotion {
  em_emotion : string;
  em_confidence : Q
}.

Record ResonanceInput : Type := mkResonanceInput {
  in_action : option string;
  in_emotion : string;
  in_confidence : Q
}.

(** The event [handleResonanceEvent] publishes. *)
Record ResonanceOutput : Type := mkResonanceOutput {
  out_timestamp : Z;
  out_id : string;
  out_action : option string;
  out_emotion : string;
  out_confidence : Q;
  out_application : string;
  out_sessionId : Z;
  out_device : string
}.

(** The touch, emotion and resonance events [emit] passes on, oldest
    first.  (The error, status and performance events are in the log of
    [RTI]; the order between the two logs is not kept.) *)
Inductive Relayed : Type :=
| RelayTouch (e : TouchEvent)
| RelayEmotion (e : EmotionEvent)
| RelayResonance (e : ResonanceOutput).

(** An RTI instance with the rest of what its methods use: the
    configuration, the system start time, and what is under way in the
    asynchronous methods: the calls of [initializeComponents] and of
    [destroy] that have not settled, the start times of the touches whose
    decoding has not settled, the confidences of the emotion events whose
    processing has not settled. *)
Record Instance : Type := mkInstance {
  core : RTI;
  config : RTIConfig;
  systemStartTime : Z;
  initializing : nat;
  destroying : nat;
  touchesInFlight : list Q;
  emotionsInFlight : list Q;
  relayed : list Relayed
}.

Definition with_core (c : RTI) (i : Instance) : Instance :=
  mkInstance c (config i) (systemStartTime i) (initializing i) (destroying i)
             (touchesInFlight i) (emotionsInFlight i) (relayed i).

Definition with_stats (s : RTIStats) (st : RTI) : RTI :=
  mkRTI (status st) (status_performance st) s (sessionStartTime st)
        (performanceMetrics st) (errorListeners st) (emitted st).

(** A call of [handleError] from a [catch] block or from the listener on
    a component's errors.  When its emit throws, the exception goes to the
    caller's caller (the promise of an async method rejects, a component's
    own emit throws) and the instance is as it was; what becomes of the
    exception there is not part of the instance. *)
Definition reportError (code message : string) (now : Z) (i : Instance) : Instance :=
  match handleError code message now (core i) with
  | Some c => with_core c i
  | None => i
  end.

Definition relay (e : Relayed) (i : Instance) : Instance :=
  mkInstance (core i) (config i) (systemStartTime i) (initializing i) (destroying i)
             (touchesInFlight i) (emotionsInFlight i) (relayed i ++ [e]).

(** The instance the constructor has built when it has started the first
    initialization; [now] is [Date.now()]. *)
Definition created (override : option RTIConfigOverride) (now : Z) : Instance :=
  {| core := constructed now;
     config := mergeConfig DEFAULT_CONFIG override;
     systemStartTime := now;
     initializing := 1;
     destroying := 0;
     touchesInFlight := [];
     emotionsInFlight := [];
     relayed := [] |}.

(** A call of [initializeComponents()]: nothing of the state above changes
    before the call settles. *)
Definition initializeComponents (i : Instance) : Instance :=
  mkInstance (core i) (config i) (systemStartTime i) (S (initializing i)) (destroying i)
             (touchesInFlight i) (emotionsInFlight i) (relayed i).

(** A call of [initializeComponents] settles: its [try] block ran to the
    end ([ok]) or something in it threw. *)
Definition initializationSettles (ok : bool) (now : Z) (i : Instance) : Instance :=
  match initializing i with
  | O => i
  | S n =>
      let i := mkInstance (core i) (config i) (systemStartTime i) n (destroying i)
                          (touchesInFlight i) (emotionsInFlight i) (relayed i) in
      if ok
      then with_core (updateStatus READY now (core i)) i
      else reportError "INITIALIZATION_ERROR" "Failed to initialize RTI components" now i
  end.

(** [setEnabled(enabled)]. *)
Definition setEnabled (enabled : bool) (now : Z) (i : Instance) : Instance :=
  match enabled, status (core i) with
  | true, DISABLED => initializeComponents i
  | true, _ => i
  | false, _ => with_core (updateStatus DISABLED now (core i)) i
  end.

(** [updateConfig(newConfig)]. *)
Definition updateConfig (newConfig : RTIConfigOverride) (i : Instance) : Instance :=
  let i := mkInstance (core i) (mergeConfig (config i) (Some newConfig)) (systemStartTime i)
                      (initializing i) (destroying i) (touchesInFlight i)
                      (emotionsInFlight i) (relayed i) in
  match o_hardware newConfig, o_software newConfig with
  | None, None => i
  | _, _ => initializeComponents i
  end.

(** [getConfig()]. *)
Definition getConfig (i : Instance) : RTIConfig := config i.

(** A call of [destroy()], and the call settling: the components were
    destroyed and the listeners removed ([ok]), or something threw. *)
Definition destroy (i : Instance) : Instance :=
  mkInstance (core i) (config i) (systemStartTime i) (initializing i) (S (destroying i))
             (touchesInFlight i) (emotionsInFlight i) (relayed i).

Definition destroySettles (ok : bool) (now : Z) (i : Instance) : Instance :=
  match destroying i with
  | O => i
  | S n =>
      let i := mkInstance (core i) (config i) (systemStartTime i) (initializing i) n
                          (touchesInFlight i) (emotionsInFlight i) (relayed i) in
      if ok
      then with_core (updateStatus DISABLED now (removeAllListeners (core i))) i
      else reportError "DESTROY_ERROR" "Failed to destroy RTI system" now i
  end.

(** The listener [setupEventListeners] puts on the components' error
    events. *)
Definition componentError (code message : string) (now : Z) (i : Instance) : Instance :=
  reportError code message now i.

(** [handleTouchEvent(touchEvent)] up to its [await]; [startTime] is what
    [performance.now()] reads. *)
Definition touchArrives (e : TouchEvent) (startTime : Q) (i : Instance) : Instance :=
  let s := stats (core i) in
  let s := mkStats (S (totalTouches s)) (totalEmotions s) (totalResonances s)
                   (stats_averageLatency s) (recognitionAccuracy s) (topEmotions s)
                   (topModes s) (sessionDuration s) (uptime s) in
  let i := relay (RelayTouch e) (with_core (with_stats s (core i)) i) in
  mkInstance (core i) (config i) (systemStartTime i) (initializing i) (destroying i)
             (touchesInFlight i ++ [startTime]) (emotionsInFlight i) (relayed i).

(** The rest of [handleTouchEvent] for the touch at position [k] of those
    in flight: the decoder resolved ([ok], and [endTime] is what
    [performance.now()] reads then) or rejected. *)
Definition touchSettles (k : nat) (ok : bool) (endTime : Q) (now : Z) (i : Instance)
    : Instance :=
  match touchesInFlight i !! k with
  | None => i
  | Some startTime =>
      let i := mkInstance (core i) (config i) (systemStartTime i) (initializing i)
                          (destroying i) (delete k (touchesInFlight i))
                          (emotionsInFlight i) (relayed i) in
      if ok then
        let latency := endTime - startTime in
        let c := updatePerformanceMetrics latency now (core i) in
        let s := stats c in
        let s := mkStats (totalTouches s) (totalEmotions s) (totalResonances s)
                         (averageLatency (performanceMetrics c)) (recognitionAccuracy s)
                         (topEmotions s) (topModes s) (sessionDuration s) (uptime s) in
        with_core (with_stats s c) i
      else
        reportError "TOUCH_PROCESSING_ERROR" "Failed to process touch event" now i
  end.

(** [handleEmotionEvent(emotionEvent)] up to its [await]. *)
Definition emotionArrives (e : EmotionEvent) (i : Instance) : Instance :=
  let s := stats (core i) in
  let s := mkStats (totalTouches s) (S (totalEmotions s)) (totalResonances s)
                   (stats_averageLatency s) (recognitionAccuracy s) (topEmotions s)
                   (topModes s) (sessionDuration s) (uptime s) in
  let i := relay (RelayEmotion e) (with_core (with_stats s (core i)) i) in
  mkInstance (core i) (config i) (systemStartTime i) (initializing i) (destroying i)
             (touchesInFlight i) (emotionsInFlight i ++ [em_confidence e]) (relayed i).

(** The rest of [handleEmotionEvent] for the event at position [k] of those
    in flight. *)
Definition emotionSettles (k : nat) (ok : bool) (now : Z) (i : Instance) : Instance :=
  match emotionsInFlight i !! k with
  | None => i
  | Some confidence =>
      let i := mkInstance (core i) (config i) (systemStartTime i) (initializing i)
                          (destroying i) (touchesInFlight i)
                          (delete k (emotionsInFlight i)) (relayed i) in
      if ok
      then with_core (updateRecognitionAccuracy confidence (core i)) i
      else reportError "EMOTION_PROCESSING_ERROR" "Failed to process emotion event" now i
  end.

(** The global [navigator] where the instance runs: not declared at all (as
    in Node before version 21), or declared, with what [navigator?.platform]
    reads ([None] when [navigator] or its [platform] is null or
    undefined). *)
Inductive Navigator : Type :=
| Undeclared
| Declared (platform : option string).

(** [getDeviceInfo()]: [navigator?.platform || 'unknown'].  Optional
    chaining does not cover an identifier that is not declared: reading it
    throws a ReferenceError ([None]). *)
Definition getDeviceInfo (navigator : Navigator) : option string :=
  match navigator with
  | Undeclared => None
  | Declared (Some s) => Some (if String.eqb s "" then "unknown" else s)
  | Declared None => Some "unknown"
  end.

(** [handleResonanceEvent(resonanceEvent)], which has no [await]; [uuid] is
    what [uuidv4()] returns.  The event is counted first.  Building the
    event to publish throws where [navigator] is not declared, before
    anything is published; reading the mode of an action that is not there
    throws after the event was published. *)
Definition handleResonanceEvent (e : ResonanceInput) (uuid : string)
    (navigator : Navigator) (now : Z) (i : Instance) : Instance :=
  let s := stats (core i) in
  let s := mkStats (totalTouches s) (totalEmotions s) (S (totalResonances s))
                   (stats_averageLatency s) (recognitionAccuracy s) (topEmotions s)
                   (topModes s) (sessionDuration s) (uptime s) in
  let i := with_core (with_stats s (core i)) i in
  let failed :=
    reportError "RESONANCE_PROCESSING_ERROR" "Failed to process resonance event" now in
  match getDeviceInfo navigator with
  | None => failed i
  | Some device =>
      let full :=
        {| out_timestamp := now;
           out_id := uuid;
           out_action := in_action e;
           out_emotion := in_emotion e;
           out_confidence := in_confidence e;
           out_application := "unknown";
           out_sessionId := sessionStartTime (core i);
           out_device := device |} in
      let i := relay (RelayResonance full) i in
      match in_action e with
      | Some m => with_core (updateModeStatistics m (core i)) i
      | None => failed i
      end
  end.

(** The callback of [startPerformanceMonitoring], run every second;
    [heapUsed] is what [process.memoryUsage().heapUsed] reads. *)
Definition monitorTick (heapUsed : Q) (now : Z) (i : Instance) : Instance :=
  let c := core i in
  let pm := performanceMetrics c in
  let memory := heapUsed / 1024 / 1024 in
  let pm := mkMetrics (lastLatency pm) (averageLatency pm) (latencySamples pm) memory
                      (cpuUsage pm) in
  let sp := status_performance c in
  let sp := mkStatusPerformance (latency sp) (throughput sp) memory (sp_cpuUsage sp) in
  let s := stats c in
  let s := mkStats (totalTouches s) (totalEmotions s) (totalResonances s)
                   (stats_averageLatency s) (recognitionAccuracy s) (topEmotions s)
                   (topModes s) (now - sessionStartTime c)%Z (now - systemStartTime i)%Z in
  with_core (mkRTI (status c) sp s (sessionStartTime c) pm (errorListeners c) (emitted c)) i.

(** What can happen to an instance, in any order: the sequences are not
    restricted to those an application can bring about.  [OnError] and
    [OffError] are the application adding and removing a listener for
    'error'. *)
Inductive Op : Type :=
| SetEnabled (enabled : bool) (now : Z)
| UpdateConfig (newConfig : RTIConfigOverride)
| InitializationSettles (ok : bool) (now : Z)
| Destroy
| DestroySettles (ok : bool) (now : Z)
| ComponentError (code message : string) (now : Z)
| TouchArrives (e : TouchEvent) (startTime : Q)
| TouchSettles (k : nat) (ok : bool) (endTime : Q) (now : Z)
| EmotionArrives (e : EmotionEvent)
| EmotionSettles (k : nat) (ok : bool) (now : Z)
| ResonanceArrives (e : ResonanceInput) (uuid : string) (navigator : Navigator) (now : Z)
| MonitorTick (heapUsed : Q) (now : Z)
| OnError
| OffError.

Definition step (op : Op) (i : Instance) : Instance :=
  match op with
  | SetEnabled enabled now => setEnabled enabled now i
  | UpdateConfig newConfig => updateConfig newConfig i
  | InitializationSettles ok now => initializationSettles ok now i
  | Destroy => destroy i
  | DestroySettles ok now => destroySettles ok now i
  | ComponentError code message now => componentError code message now i
  | TouchArrives e startTime => touchArrives e startTime i
  | TouchSettles k ok endTime now => touchSettles k ok endTime now i
  | EmotionArrives e => emotionArrives e i
  | EmotionSettles k ok now => emotionSettles k ok now i
  | ResonanceArrives e uuid navigator now => handleResonanceEvent e uuid navigator now i
  | MonitorTick heapUsed now => monitorTick heapUsed now i
  | OnError => with_core (onError (core i)) i
  | OffError => with_core (offError (core i)) i
  end.

Definition run (ops : list Op) (i : Instance) : Instance :=
  fold_left (fun i op => step op i) ops i.

(** Successive calls of [updateRecognitionAccuracy]. *)
Definition recordConfidences (confidences : list Q) (st : RTI) : RTI :=
  fold_left (fun st c => updateRecognitionAccuracy c st) confidences st.

(** How often an operation of a kind occurs in a sequence. *)
Definition count_ops (kind : Op -> bool) (ops : list Op) : nat :=
  length (List.filter kind ops).

Definition is_touch (op : Op) : bool :=
  match op with TouchArrives _ _ => true | _ => false end.
Definition is_emotion (op : Op) : bool :=
  match op with EmotionArrives _ => true | _ => false end.
Definition is_resonance (op : Op) : bool :=
  match op with ResonanceArrives _ _ _ _ => true | _ => false end.
Definition is_published (op : Op) : bool :=
  match op with
  | ResonanceArrives _ _ (Declared _) _ => true
  | _ => false
  end.
Definition is_resonance_with_action (op : Op) : bool :=
  match op with
  | ResonanceArrives e _ (Declared _) _ =>
      match in_action e with Some _ => true | None => false end
  | _ => false
  end.
Definition is_relayed_resonance (e : Relayed) : bool :=
  match e with RelayResonance _ => true | _ => false end.

(** The first step of [updateModeStatistics]: the count of the mode goes up
    by one, in its entry or in a new one. *)
Definition bumped (m : string) (table : list ModeUsage) : list ModeUsage :=
  match List.find (fun e => String.eqb (mode e) m) table with
  | Some _ => incrementFirst m table
  | None => table ++ [mkModeUsage m 1 0]
  end.

(** The count the usage table holds for a mode (over all its entries of
    that mode). *)
Definition countFor (m : string) (table : list ModeUsage) : nat :=
  list_sum (List.map count (List.filter (fun e => String.eqb (mode e) m) table)).

(** The count of an entry as a number, the key the table is sorted by. *)
Definition countKey (e : ModeUsage) : Q := inject_Z (Z.of_nat (count e)).

(** What the statistics of an instance come to: the three counters, the
    usage table, the latency window, the number of touches in flight. *)
Definition summary (i : Instance) : nat * nat * nat * list ModeUsage * list Q * nat :=
  (totalTouches (stats (core i)), totalEmotions (stats (core i)),
   totalResonances (stats (core i)), topModes (stats (core i)),
   latencySamples (performanceMetrics (core i)), length (touchesInFlight i)).

(** The resonance events published so far. *)
Definition published (i : Instance) : nat :=
  length (List.filter is_relayed_resonance (relayed i)).

(** An override whose sampling rate of 50 Hz fails validation. *)
Definition slow_sampling : RTIConfigOverride :=
  mkConfigO (Some (mkHardwareO None None None (Some 50))) None None None.

End Lifecycle.

(** ** The constructor of RTI *)

Module Construction.
Import Constants Utils Orchestrator Lifecycle.

(** How a call into a component ends. *)
Inductive Outcome : Type :=
| Returns
| Throws.

(** The component classes are not part of this development; of them the
    constructor only needs to know how three kinds of call end: building
    the ForceTouchCore, the call of its [initialize()], and the calls of a
    component's [on] in [setupEventListeners], numbered in program order. *)
Record Environment : Type := mkEnvironment {
  construct : Outcome;
  initialize : Outcome;
  on : nat -> Outcome
}.

(** Which of the four component fields have been assigned. *)
Record Components : Type := mkComponents {
  forceTouchCore : bool;
  emotionDecoder : bool;
  resonanceEngine : bool;
  dimensionalTranslator : bool
}.

(** How the constructor ends, and the object it has built by then. *)
Inductive Completion : Type :=
| Returned (i : Instance)
| Threw (left : Instance).

(** The fields as the constructor assigns them before it calls
    [initializeComponents()]; no component field is assigned yet. *)
Definition fields (override : option RTIConfigOverride) (now : Z) : Instance :=
  {| core := constructed now;
     config := mergeConfig DEFAULT_CONFIG override;
     systemStartTime := now;
     initializing := 0;
     destroying := 0;
     touchesInFlight := [];
     emotionsInFlight := [];
     relayed := [] |}.

(** [initializeComponents()] up to where control comes back to its caller.
    An async function runs on the caller's stack as far as its first
    [await]: here, after the ForceTouchCore was built and assigned and its
    [initialize()] has returned, whatever it returned; the rest of the
    function (the three other components among it) runs later, from the
    job queue.  When one of the two calls throws, the [catch] block runs at
    once and the call is over. *)
Definition initializeComponents_begins (env : Environment) (now : Z)
    (c : Components) (i : Instance) : Components * Instance :=
  let failed :=
    reportError "INITIALIZATION_ERROR" "Failed to initialize RTI components" now i in
  match construct env with
  | Throws => (c, failed)
  | Returns =>
      let c := mkComponents true (emotionDecoder c) (resonanceEngine c)
                            (dimensionalTranslator c) in
      match initialize env with
      | Throws => (c, failed)
      | Returns => (c, initializeComponents i)
      end
  end.

(** [this.<component>.on(...)]: reading [on] of a field that is not
    assigned throws a TypeError ([None]). *)
Definition listen (assigned : bool) (call : Outcome) : option unit :=
  if assigned
  then match call with Returns => Some tt | Throws => None end
  else None.

Definition and_then (first : option unit) (next : option unit) : option unit :=
  match first with
  | Some _ => next
  | None => None
  end.

(** [setupEventListeners()]: the listeners for touch, emotion and
    resonance, then one for error on each of the four components. *)
Definition setupEventListeners (env : Environment) (c : Components) : option unit :=
  and_then (listen (forceTouchCore c) (on env 0))
  (and_then (listen (emotionDecoder c) (on env 1))
  (and_then (listen (resonanceEngine c) (on env 2))
  (and_then (listen (forceTouchCore c) (on env 3))
  (and_then (listen (emotionDecoder c) (on env 4))
  (and_then (listen (resonanceEngine c) (on env 5))
            (listen (dimensionalTranslator c) (on env 6))))))).

(** [new RTI(config)]: the fields, the start of the initialization, the
    listeners; [startPerformanceMonitoring()] then only sets a timer. *)
Definition new_RTI (override : option RTIConfigOverride) (now : Z) (env : Environment)
    : Completion :=
  let '(c, i) :=
    initializeComponents_begins env now (mkComponents false false false false)
                                (fields override now) in
  match setupEventListeners env c with
  | Some _ => Returned i
  | None => Threw i
  end.

End Construction.

(** * Properties *)

(** ** Numbers and lists *)

Lemma Qlt_bool_iff (x y : Q) : Qlt_bool x y = true <-> x < y.
Proof.
  unfold Qlt_bool. rewrite negb_true_iff.
  split.
  - intros H. apply Qnot_le_lt. intros Hle.
    apply Qle_bool_iff in Hle. congruence.
  - intros H. destruct (Qle_bool y x) eqn:E; [|reflexivity].
    apply Qle_bool_iff in E. exfalso. exact (Qlt_not_le _ _ H E).
Qed.

Lemma Qlt_bool_false_iff (x y : Q) : Qlt_bool x y = false <-> y <= x.
Proof.
  unfold Qlt_bool. rewrite negb_false_iff. apply Qle_bool_iff.
Qed.

Lemma overlay_Some {A : Type} (v b : A) : overlay (Some v) b = v.
Proof. reflexivity. Qed.

Lemma overlay_None {A : Type} (b : A) : overlay None b = b.
Proof. reflexivity. Qed.

(** ** RTIUtils *)
Module UtilsFacts.
Import Constants Utils.

Lemma mergeConfig_undefined (base : RTIConfig) : mergeConfig base None = base.
Proof. reflexivity. Qed.

Lemma mergeConfig_sections (base : RTIConfig) (o : RTIConfigOverride) :
  mergeConfig base (Some o) =
  {| hardware := from_option (spreadHardware (hardware base)) (hardware base) (o_hardware o);
     software := from_option (spreadSoftware (software base)) (software base) (o_software o);
     privacy := from_option (spreadPrivacy (privacy base)) (privacy base) (o_privacy o);
     performance :=
       from_option (spreadPerformance (performance base)) (performance base)
                   (o_performance o) |}.
Proof.
  destruct base, o as [[h|] [s|] [p|] [pf|]]; reflexivity.
Qed.

(** Field by field, the merge is the spread of what the override supplies
    over the base. *)
Lemma mergeConfig_readField (base : RTIConfig) (o : RTIConfigOverride) (f : ConfigField) :
  readField (mergeConfig base (Some o)) f = overlay (supplied o f) (readField base f).
Proof.
  rewrite mergeConfig_sections.
  destruct o as [oh os op opf]; cbn [o_hardware o_software o_privacy o_performance].
  destruct f; cbn [readField supplied hardware software privacy performance
                   o_hardware o_software o_privacy o_performance];
    match goal with
    | |- context [from_option _ _ ?s] => destruct s as [x|]; [destruct x as [a b c d]|]
    end; cbn; try reflexivity;
    match goal with
    | |- context [overlay ?v _] => destruct v; reflexivity
    end.
Qed.

(** C10.  mergeConfig merges each of the four sections shallowly: for each
    of the sixteen fields, when the override has the section and the section
    has the field, the result holds the override's value; when the override
    lacks the section or the section lacks the field, the result holds the
    base's value; and an undefined override gives back a configuration equal
    to the base. *)
Theorem mergeConfig_shallow :
  (forall base, mergeConfig base None = base) /\
  (forall base o f v,
      supplied o f = Some v -> readField (mergeConfig base (Some o)) f = v) /\
  (forall base o f,
      supplied o f = None ->
      readField (mergeConfig base (Some o)) f = readField base f).
Proof.
  split; [exact mergeConfig_undefined|]. split.
  - intros base o f v Hv. rewrite mergeConfig_readField, Hv. reflexivity.
  - intros base o f Hn. rewrite mergeConfig_readField, Hn. reflexivity.
Qed.

(** An override that only sets the sampling rate, to 50 Hz: the merged
    configuration samples at 50 Hz and keeps every other default. *)
Example mergeConfig_sampling_rate :
  let merged :=
    mergeConfig DEFAULT_CONFIG
      (Some (mkConfigO (Some (mkHardwareO None None None (Some 50))) None None None)) in
  samplingRate (hardware merged) = 50 /\
  pressureSensitivity (hardware merged) = pressureSensitivity (hardware DEFAULT_CONFIG) /\
  sensors (hardware merged) = sensors (hardware DEFAULT_CONFIG) /\
  software merged = software DEFAULT_CONFIG /\
  privacy merged = privacy DEFAULT_CONFIG /\
  performance merged = performance DEFAULT_CONFIG.
Proof. cbn. repeat split. Qed.

Lemma In_push_if (c : bool) (m : string) (e : list string) (x : string) :
  In x (push_if c m e) <-> In x e \/ (c = true /\ m = x).
Proof.
  unfold push_if. destruct c.
  - rewrite in_app_iff. simpl. intuition.
  - intuition discriminate.
Qed.

Lemma length_zero_iff {A : Type} (l : list A) : Nat.eqb (length l) 0 = true <-> l = [].
Proof. destruct l; simpl; split; intros H; try reflexivity; discriminate. Qed.

(** C4.  validateConfig collects every violated constraint instead of
    stopping at the first: each of the seven messages is in the errors list
    exactly when its constraint is violated; in particular a sampling rate of
    50 Hz together with a confidence threshold of 0.99 reports both
    violations; and the valid flag is true exactly when the errors list is
    empty. *)
Theorem validateConfig_collects_all (config : RTIConfig) :
  let r := validateConfig config in
  let h := hardware config in
  let s := software config in
  let p := performance config in
  (valid r = true <-> errors r = []) /\
  (In MSG_RATE_LOW (errors r) <-> samplingRate h < MIN_SAMPLING_RATE_HZ) /\
  (In MSG_RATE_HIGH (errors r) <-> MAX_SAMPLING_RATE_HZ < samplingRate h) /\
  (In MSG_PRESSURE (errors r) <-> pressureSensitivity h < 0 \/ 1 < pressureSensitivity h) /\
  (In MSG_CONFIDENCE_LOW (errors r) <-> confidenceThreshold s < MIN_CONFIDENCE_THRESHOLD) /\
  (In MSG_CONFIDENCE_HIGH (errors r) <-> MAX_CONFIDENCE_THRESHOLD < confidenceThreshold s) /\
  (In MSG_LATENCY (errors r) <-> MAX_LATENCY_MS < maxLatency p) /\
  (In MSG_MEMORY (errors r) <-> MAX_MEMORY_USAGE_MB < memoryLimit p) /\
  (samplingRate h == 50 -> confidenceThreshold s == 0.99 ->
   In MSG_RATE_LOW (errors r) /\ In MSG_CONFIDENCE_HIGH (errors r) /\ valid r = false).
Proof.
  intros r h s p.
  assert (Hv : valid r = true <-> errors r = []) by apply length_zero_iff.
  assert (Hin : forall x,
    In x (errors r) <->
    (samplingRate h < MIN_SAMPLING_RATE_HZ /\ MSG_RATE_LOW = x) \/
    (MAX_SAMPLING_RATE_HZ < samplingRate h /\ MSG_RATE_HIGH = x) \/
    ((pressureSensitivity h < 0 \/ 1 < pressureSensitivity h) /\ MSG_PRESSURE = x) \/
    (confidenceThreshold s < MIN_CONFIDENCE_THRESHOLD /\ MSG_CONFIDENCE_LOW = x) \/
    (MAX_CONFIDENCE_THRESHOLD < confidenceThreshold s /\ MSG_CONFIDENCE_HIGH = x) \/
    (MAX_LATENCY_MS < maxLatency p /\ MSG_LATENCY = x) \/
    (MAX_MEMORY_USAGE_MB < memoryLimit p /\ MSG_MEMORY = x)).
  { intros x. subst r. unfold validateConfig. cbn [errors].
    rewrite !In_push_if, orb_true_iff, !Qlt_bool_iff. simpl In. tauto. }
  assert (Hlow : In MSG_RATE_LOW (errors r) <-> samplingRate h < MIN_SAMPLING_RATE_HZ).
  { rewrite Hin. split; [|intros; left; split; [assumption|reflexivity]].
    intros [[H _]|[[_ H]|[[_ H]|[[_ H]|[[_ H]|[[_ H]|[_ H]]]]]]];
      [exact H | discriminate H ..]. }
  assert (Hchigh : In MSG_CONFIDENCE_HIGH (errors r)
                   <-> MAX_CONFIDENCE_THRESHOLD < confidenceThreshold s).
  { rewrite Hin. split; [|intros; do 4 right; left; split; [assumption|reflexivity]].
    intros [[_ H]|[[_ H]|[[_ H]|[[_ H]|[[H _]|[[_ H]|[_ H]]]]]]];
      [discriminate H .. | exact H | discriminate H | discriminate H]. }
  split; [exact Hv|].
  split; [exact Hlow|].
  split.
  { rewrite Hin. split; [|intros; right; left; split; [assumption|reflexivity]].
    intros [[_ H]|[[H _]|[[_ H]|[[_ H]|[[_ H]|[[_ H]|[_ H]]]]]]];
      first [exact H | discriminate H]. }
  split.
  { rewrite Hin. split; [|intros; do 2 right; left; split; [assumption|reflexivity]].
    intros [[_ H]|[[_ H]|[[H _]|[[_ H]|[[_ H]|[[_ H]|[_ H]]]]]]];
      first [exact H | discriminate H]. }
  split.
  { rewrite Hin. split; [|intros; do 3 right; left; split; [assumption|reflexivity]].
    intros [[_ H]|[[_ H]|[[_ H]|[[H _]|[[_ H]|[[_ H]|[_ H]]]]]]];
      first [exact H | discriminate H]. }
  split; [exact Hchigh|].
  split.
  { rewrite Hin. split; [|intros; do 5 right; left; split; [assumption|reflexivity]].
    intros [[_ H]|[[_ H]|[[_ H]|[[_ H]|[[_ H]|[[H _]|[_ H]]]]]]];
      first [exact H | discriminate H]. }
  split.
  { rewrite Hin. split; [|intros; do 6 right; split; [assumption|reflexivity]].
    intros [[_ H]|[[_ H]|[[_ H]|[[_ H]|[[_ H]|[[_ H]|[H _]]]]]]];
      first [exact H | discriminate H]. }
  intros Hrate Hconf.
  assert (L : In MSG_RATE_LOW (errors r)).
  { apply Hlow. rewrite Hrate. reflexivity. }
  split; [exact L|]. split.
  - apply Hchigh. rewrite Hconf. reflexivity.
  - apply not_true_is_false. intros E.
    apply Hv in E. rewrite E in L. destruct L.
Qed.

(** The scenario, evaluated: both violations, in the order of the checks. *)
Lemma validateConfig_scenario :
  In MSG_RATE_LOW (errors (validateConfig scenario_config)) /\
  In MSG_CONFIDENCE_HIGH (errors (validateConfig scenario_config)) /\
  valid (validateConfig scenario_config) = false.
Proof.
  apply (validateConfig_collects_all scenario_config); reflexivity.
Defined.

Example validateConfig_scenario_errors :
  errors (validateConfig scenario_config) = [MSG_RATE_LOW; MSG_CONFIDENCE_HIGH].
Proof. reflexivity. Qed.

Example validateConfig_default : validateConfig DEFAULT_CONFIG = mkValidation true [].
Proof. reflexivity. Qed.

End UtilsFacts.

(** ** The resonance mapper *)
Module MapperFacts.
Import Constants Mapper.

(** The structured rules are the entries of the source table, key by key. *)
Lemma rules_are_the_table :
  List.map (fun r => (rule_key r, rule_action r)) RESONANCE_RULES = RESONANCE_MAPPINGS.
Proof. reflexivity. Qed.

(** The order the rules are tried in: the three that name two emotions,
    then the five that name one, each group in declared order. *)
Lemma rules_by_specificity_eq :
  List.map rule_key rules_by_specificity =
  [ "joy_calm_LIGHT"; "focus_determination_MEDIUM"; "anger_frustration_HEAVY";
    "love_VERY_LIGHT"; "concentration_MEDIUM"; "anxiety_HEAVY";
    "compassion_VERY_LIGHT"; "gratitude_LIGHT" ].
Proof. reflexivity. Qed.

Lemma specificity_keeps_the_rules (r : Rule) :
  In r rules_by_specificity -> In (rule_action r) (List.map snd RESONANCE_MAPPINGS).
Proof.
  intros H. vm_compute in H.
  repeat (destruct H as [H|H]; [subst r; vm_compute; tauto|]).
  destruct H.
Qed.

Ltac case_thresholds :=
  repeat match goal with
         | |- context [Qle_bool ?a ?b] =>
             let E := fresh "E" in
             destruct (Qle_bool a b) eqn:E;
             [apply Qle_bool_iff in E
             |apply (proj2 (negb_true_iff _)), (Qlt_bool_iff b a) in E]
         end.

(** The bands are half-open: a band starts at its threshold and ends
    before the next one (the top band has no end). *)
Lemma pressureBand_Some (p : Q) (b : PressureBand) :
  pressureBand p = Some b <->
  PRESSURE_THRESHOLDS b <= p /\
  match next_band b with
  | Some n => p < PRESSURE_THRESHOLDS n
  | None => True
  end.
Proof.
  unfold pressureBand, bands_descending, List.find.
  case_thresholds; cbn [PRESSURE_THRESHOLDS] in *;
    (split; [intros [= <-]; cbn; split; first [exact I | lra]
            |intros [Hlo Hhi]; destruct b; cbn in *;
             first [reflexivity | exfalso; lra]]).
Qed.

Lemma pressureBand_None (p : Q) :
  pressureBand p = None <-> p < PRESSURE_THRESHOLDS VERY_LIGHT.
Proof.
  unfold pressureBand, bands_descending, List.find.
  case_thresholds; cbn [PRESSURE_THRESHOLDS] in *;
    (split; [intros H; first [discriminate H | lra] | intros H; first [reflexivity | exfalso; lra]]).
Qed.

(** No pressure is in two bands. *)
Lemma bands_do_not_overlap (p : Q) (b1 b2 : PressureBand) :
  pressureBand p = Some b1 -> pressureBand p = Some b2 -> b1 = b2.
Proof. congruence. Qed.

Lemma emotion_eqb_eq (a b : EmotionType) : emotion_eqb a b = true <-> a = b.
Proof.
  split; [|intros ->; destruct b; reflexivity].
  destruct a, b; intros H; first [reflexivity | discriminate H].
Qed.

Lemma band_eqb_eq (a b : PressureBand) : band_eqb a b = true <-> a = b.
Proof.
  split; [|intros ->; destruct b; reflexivity].
  destruct a, b; intros H; first [reflexivity | discriminate H].
Qed.

Lemma rule_matches_iff (s : EmotionalState) (b : PressureBand) (r : Rule) :
  rule_matches s b r = true <-> In (primary s) (rule_emotions r) /\ rule_band r = b.
Proof.
  unfold rule_matches. rewrite andb_true_iff, band_eqb_eq, existsb_exists.
  split.
  - intros [[e [Hin He]] Hb]. apply emotion_eqb_eq in He. subst e. auto.
  - intros [Hin Hb]. split; [|exact Hb].
    exists (primary s). split; [exact Hin|]. apply emotion_eqb_eq. reflexivity.
Qed.

(** C1.  For every pressure (so for every pressure in [0,1]) and every
    emotional state, whatever its emotion, map returns either an action of
    the resonance table or the neutral fallback, whose mode is alteration,
    whose form is structured and whose characteristics are empty.  The table
    action is returned exactly when the pressure falls in a band and a rule
    names the primary emotion for that band. *)
Theorem map_is_total (s : EmotionalState) (pressure : Q) :
  (In (Mapper.map s pressure) (List.map snd RESONANCE_MAPPINGS)
   \/ Mapper.map s pressure = NEUTRAL_FALLBACK) /\
  NEUTRAL_FALLBACK = mkMapping ALTERATION STRUCTURED [] /\
  ((exists b r, pressureBand pressure = Some b /\ In r RESONANCE_RULES
                /\ In (primary s) (rule_emotions r) /\ rule_band r = b)
   <-> exists r, In r RESONANCE_RULES /\ Mapper.map s pressure = rule_action r).
Proof.
  assert (Hperm : forall r, In r rules_by_specificity <-> In r RESONANCE_RULES).
  { intros r. vm_compute. tauto. }
  assert (Hnf : forall r, In r RESONANCE_RULES -> rule_action r <> NEUTRAL_FALLBACK).
  { intros r H. vm_compute in H.
    repeat (destruct H as [H|H]; [subst r; discriminate|]). destruct H. }
  split; [|split; [reflexivity|]].
  - unfold Mapper.map.
    destruct (pressureBand pressure) as [b|]; [|right; reflexivity].
    destruct (List.find _ _) as [r|] eqn:E; [|right; reflexivity].
    left. apply find_some in E. apply specificity_keeps_the_rules, E.
  - unfold Mapper.map. split.
    + intros (b & r & Hb & Hr & He & Hrb). rewrite Hb.
      destruct (List.find _ _) as [r'|] eqn:E.
      * apply find_some in E. exists r'. split; [apply Hperm, E|reflexivity].
      * exfalso. eapply find_none in E; [|apply Hperm, Hr].
        assert (rule_matches s b r = true) by (apply rule_matches_iff; auto).
        congruence.
    + intros (r & Hr & Heq).
      destruct (pressureBand pressure) as [b|];
        [|exfalso; exact (Hnf r Hr (eq_sym Heq))].
      destruct (List.find _ _) as [r'|] eqn:E;
        [|exfalso; exact (Hnf r Hr (eq_sym Heq))].
      apply find_some in E. destruct E as [Hin Hm].
      apply rule_matches_iff in Hm. destruct Hm as [He Hb].
      exists b, r'. split; [reflexivity|]. split; [apply Hperm, Hin|]. auto.
Qed.

(** An angry touch anywhere in the HEAVY band is mapped by the
    anger/frustration rule. *)
Lemma anger_heavy (s : EmotionalState) (pressure : Q) :
  primary s = ANGER ->
  PRESSURE_THRESHOLDS HEAVY <= pressure < PRESSURE_THRESHOLDS VERY_HEAVY ->
  Mapper.map s pressure = mkMapping DESTRUCTION GEOMETRIC ["sharp"; "fractured"; "broken"].
Proof.
  intros Hp Hr. unfold Mapper.map.
  assert (Hb : pressureBand pressure = Some HEAVY) by (apply pressureBand_Some; exact Hr).
  rewrite Hb. destruct s as [pr sec i c t]. cbn in Hp. subst pr. reflexivity.
Qed.

(** C8.  A sample of pressure 0.8 classified as anger with intensity 0.75
    (whatever the secondary emotion, confidence and timestamp) is in the
    HEAVY band, and the mapper returns an action of mode "destruction" and
    form "geometric". *)
Theorem anger_heavy_scenario (sec : option EmotionType) (conf : Q) (ts : Z) :
  let s := mkState ANGER sec 0.75 conf ts in
  pressureBand 0.8 = Some HEAVY /\
  INTERACTION_MODES (mode (Mapper.map s 0.8)) = "destruction" /\
  FORM_TYPES (form (Mapper.map s 0.8)) = "geometric".
Proof.
  intros s. split; [reflexivity|].
  rewrite (anger_heavy s 0.8); [split; reflexivity|reflexivity|].
  split; discriminate || reflexivity.
Qed.

End MapperFacts.

(** ** The stable sort behind [Array.prototype.sort] *)
Section ArraySort.
Context {A : Type} (cmp : A -> A -> Q).

Lemma sort_insert_perm (x : A) (l : list A) :
  Permutation (x :: l) (sort_insert cmp x l).
Proof.
  induction l as [|y r IH]; simpl; [reflexivity|].
  destruct (Qle_bool (cmp x y) 0); [reflexivity|].
  rewrite perm_swap. apply perm_skip, IH.
Qed.

Lemma array_sort_perm (l : list A) : Permutation l (array_sort cmp l).
Proof.
  induction l as [|x r IH]; simpl; [reflexivity|].
  rewrite <- sort_insert_perm. apply perm_skip, IH.
Qed.

Lemma array_sort_In (l : list A) (x : A) : In x (array_sort cmp l) <-> In x l.
Proof.
  split; apply Permutation_in; [symmetry|]; apply array_sort_perm.
Qed.

Lemma array_sort_length (l : list A) : length (array_sort cmp l) = length l.
Proof. symmetry. apply Permutation_length, array_sort_perm. Qed.

(** Stability: elements that the comparator does not separate keep their
    order.  [P] selects a class of such elements. *)
Lemma filter_sort_insert (P : A -> bool) (x : A) (l : list A) :
  (forall a b, P a = true -> P b = true -> cmp a b <= 0) ->
  List.filter P (sort_insert cmp x l) =
  if P x then x :: List.filter P l else List.filter P l.
Proof.
  intros HP. induction l as [|y r IH]; simpl; [reflexivity|].
  destruct (Qle_bool (cmp x y) 0) eqn:E; simpl; [reflexivity|].
  rewrite IH. destruct (P x) eqn:Px, (P y) eqn:Py; try reflexivity.
  exfalso. apply (HP x y Px) in Py. apply Qle_bool_iff in Py. congruence.
Qed.

Lemma array_sort_stable (P : A -> bool) (l : list A) :
  (forall a b, P a = true -> P b = true -> cmp a b <= 0) ->
  List.filter P (array_sort cmp l) = List.filter P l.
Proof.
  intros HP. induction l as [|x r IH]; simpl; [reflexivity|].
  rewrite filter_sort_insert by exact HP. rewrite IH. reflexivity.
Qed.

(** Sortedness, for a comparator that orders by a key, largest first. *)
Context (key : A -> Q).
Hypothesis cmp_key : forall a b, cmp a b <= 0 <-> key b <= key a.

Lemma HdRel_sort_insert (y x : A) (l : list A) :
  descending key y x -> HdRel (descending key) y l ->
  HdRel (descending key) y (sort_insert cmp x l).
Proof.
  intros Hyx Hl. destruct l as [|z r]; simpl; [constructor; exact Hyx|].
  destruct (Qle_bool (cmp x z) 0); constructor; [exact Hyx|].
  inversion Hl; assumption.
Qed.

Lemma sort_insert_sorted (x : A) (l : list A) :
  Sorted (descending key) l -> Sorted (descending key) (sort_insert cmp x l).
Proof.
  induction l as [|y r IH]; simpl; intros Hs.
  - repeat constructor.
  - inversion Hs as [|? ? Hr Hhd]; subst.
    destruct (Qle_bool (cmp x y) 0) eqn:E.
    + constructor; [exact Hs|]. constructor.
      apply cmp_key, Qle_bool_iff, E.
    + constructor; [apply IH, Hr|].
      apply HdRel_sort_insert; [|exact Hhd].
      unfold descending. apply Qlt_le_weak, Qnot_le_lt. intros Hle.
      apply cmp_key, Qle_bool_iff in Hle. congruence.
Qed.

Lemma array_sort_sorted (l : list A) :
  StronglySorted (descending key) (array_sort cmp l).
Proof.
  apply Sorted_StronglySorted.
  - intros a b c Hab Hbc. unfold descending in *. eapply Qle_trans; eassumption.
  - induction l as [|x r IH]; simpl; [constructor|].
    apply sort_insert_sorted, IH.
Qed.

End ArraySort.

(** ** The Genesis profile manager *)
Module GenesisFacts.
Import Genesis.

Lemma matchesPattern_iff (q : Query) (pattern : EmotionalPattern) :
  matchesPattern q pattern = true <-> Matches q pattern.
Proof.
  unfold matchesPattern, Matches.
  rewrite !andb_true_iff, String.eqb_eq, !Qle_bool_iff. tauto.
Qed.

Lemma byConfidence_key (a b : EmotionalPattern) :
  byConfidence a b <= 0 <-> confidence b <= confidence a.
Proof. unfold byConfidence. split; intros H; lra. Qed.

Lemma hasConfidence_ties (c : Q) (a b : EmotionalPattern) :
  hasConfidence c a = true -> hasConfidence c b = true -> byConfidence a b <= 0.
Proof.
  unfold hasConfidence. intros Ha%Qeq_bool_iff Hb%Qeq_bool_iff.
  apply byConfidence_key. rewrite Ha, Hb. apply Qle_refl.
Qed.

(** The reference [filter] returns is new to the store. *)
Lemma alloc_fresh (contents : list EmotionalPattern) (h : Heap) :
  h !! (alloc contents h).2 = None.
Proof.
  unfold alloc. cbn. apply not_elem_of_dom, is_fresh.
Qed.

(** One call, step by step: the filtered copy goes to a new reference [r],
    is sorted there, and [r] is returned. *)
Lemma findMatchingPatterns_run (p : GenesisProfile) (q : Query) (h : Heap)
    (stored : list EmotionalPattern) :
  h !! emotionalFingerprint p = Some stored ->
  exists r,
    h !! r = None /\
    findMatchingPatterns p q h =
    (<[r := array_sort byConfidence (List.filter (matchesPattern q) stored)]> h, r).
Proof.
  intros Hfp. exists (fresh (dom h)).
  split; [apply not_elem_of_dom, is_fresh|].
  unfold findMatchingPatterns, Array_filter, Array_sort, alloc, deref.
  rewrite Hfp. cbn. rewrite lookup_insert_eq. cbn.
  rewrite insert_insert_eq. reflexivity.
Qed.

(** C3.  findMatchingPatterns returns exactly the stored patterns that
    match the query (same primary emotion, intensity within the stored range
    with both ends included, pressure sensitivity and thermal signature each
    within 0.2 of the query's value, the distance and the comparison being
    those of binary64), each as often as it is stored; the result is in
    descending order of confidence, and patterns of equal confidence keep
    their stored order; the stored fingerprint, like every other array of the
    store, is left unchanged, and a second call on the store the first one
    left yields the same list. *)
Theorem findMatchingPatterns_spec (p : GenesisProfile) (q : Query) (h : Heap)
    (stored : list EmotionalPattern) :
  h !! emotionalFingerprint p = Some stored ->
  let '(h', r) := findMatchingPatterns p q h in
  let result := deref h' r in
  (forall x, In x result <-> In x stored /\ Matches q x) /\
  Permutation result (List.filter (matchesPattern q) stored) /\
  StronglySorted (descending confidence) result /\
  (forall c, List.filter (hasConfidence c) result =
             List.filter (hasConfidence c) (List.filter (matchesPattern q) stored)) /\
  h' !! emotionalFingerprint p = Some stored /\
  (forall l, is_Some (h !! l) -> h' !! l = h !! l) /\
  (let '(h'', r') := findMatchingPatterns p q h' in
   deref h'' r' = result /\ h'' !! emotionalFingerprint p = Some stored).
Proof.
  intros Hfp.
  destruct (findMatchingPatterns_run p q h stored Hfp) as (r & Hr & ->).
  assert (Hne : r <> emotionalFingerprint p) by congruence.
  assert (Hfp' : <[r := array_sort byConfidence (List.filter (matchesPattern q) stored)]> h
                 !! emotionalFingerprint p = Some stored).
  { rewrite lookup_insert_ne by exact Hne. exact Hfp. }
  destruct (findMatchingPatterns_run p q _ stored Hfp') as (r' & Hr' & ->).
  cbn zeta. unfold deref. rewrite !lookup_insert_eq.
  cbn [default from_option Datatypes.id].
  split.
  { intros x. rewrite array_sort_In, filter_In, matchesPattern_iff. tauto. }
  split; [symmetry; apply array_sort_perm|].
  split; [apply array_sort_sorted, byConfidence_key|].
  split; [intros c; apply array_sort_stable, hasConfidence_ties|].
  split; [exact Hfp'|].
  split; [intros l [v Hl]; apply lookup_insert_ne; congruence|].
  split; [reflexivity|].
  rewrite lookup_insert_ne; [exact Hfp'|].
  intros ->. rewrite Hfp' in Hr'. discriminate.
Qed.

(** The theorem at the example profile. *)
Lemma findMatchingPatterns_example :
  let '(h', r) := findMatchingPatterns example_profile example_query example_store in
  let result := deref h' r in
  (forall x, In x result <-> In x example_patterns /\ Matches example_query x) /\
  Permutation result (List.filter (matchesPattern example_query) example_patterns) /\
  StronglySorted (descending confidence) result /\
  (forall c, List.filter (hasConfidence c) result =
             List.filter (hasConfidence c)
                         (List.filter (matchesPattern example_query) example_patterns)) /\
  h' !! emotionalFingerprint example_profile = Some example_patterns /\
  (forall l, is_Some (example_store !! l) -> h' !! l = example_store !! l) /\
  (let '(h'', r') := findMatchingPatterns example_profile example_query h' in
   deref h'' r' = result /\ h'' !! emotionalFingerprint example_profile = Some example_patterns).
Proof.
  exact (findMatchingPatterns_spec example_profile example_query example_store
                                   example_patterns eq_refl).
Defined.

(** What the call returns there: "b" first, then the tie "a", "d" in stored
    order; "c" is another emotion and "e" is 0.4 away in pressure. *)
Example findMatchingPatterns_example_result :
  List.map id
    (deref (findMatchingPatterns example_profile example_query example_store).1
           (findMatchingPatterns example_profile example_query example_store).2)
  = ["b"; "a"; "d"].
Proof. vm_compute. reflexivity. Qed.

(** At a distance of 0.2 as written in decimals the rounding decides.  A
    stored thermal signature of 0.5 matches a query of 0.7, since the double
    0.7 - 0.5 is 0.19999999999999996: the example query with thermal 0.7
    returns the same three patterns.  A stored 0.4 does not match a query
    of 0.2, the double 0.4 - 0.2 being the double 0.2 itself. *)
Example proximity_at_the_boundary :
  List.map id
    (deref (findMatchingPatterns example_profile (mkQuery "joy" 0.5 0.5 0.7) example_store).1
           (findMatchingPatterns example_profile (mkQuery "joy" 0.5 0.5 0.7) example_store).2)
  = ["b"; "a"; "d"] /\
  matchesPattern (mkQuery "joy" 0.5 0.7 0.5) (example_pattern "a" "joy" 0.5 0.6) = true /\
  matchesPattern (mkQuery "joy" 0.5 0.2 0.5) (example_pattern "d" "joy" 0.4 0.6) = false /\
  matchesPattern (mkQuery "joy" 0.5 0.5 0.5) (example_pattern "n" "joy" PrimFloat.nan 0.6)
  = false.
Proof. vm_compute. repeat split. Qed.

(** C6.  For profiles that share neither patterns nor preferences,
    exportProfile(false) returns the identity, display name, version and
    timestamps and nothing of the patterns, preferences, privacy settings or
    learning data, so two such profiles that agree on the former have equal
    exports; exportProfile(true) returns every field, privacy settings and
    learning data included. *)
Theorem exportProfile_hides_private (p1 p2 : GenesisProfile) :
  sharePatterns (privacySettings p1) = false ->
  sharePreferences (privacySettings p1) = false ->
  sharePatterns (privacySettings p2) = false ->
  sharePreferences (privacySettings p2) = false ->
  userId p1 = userId p2 ->
  displayName p1 = displayName p2 ->
  version p1 = version p2 ->
  createdAt p1 = createdAt p2 ->
  updatedAt p1 = updatedAt p2 ->
  exportProfile false p1 =
    {| o_userId := Some (userId p1);
       o_displayName := Some (displayName p1);
       o_emotionalFingerprint := None;
       o_resonancePreferences := None;
       o_privacySettings := None;
       o_learningData := None;
       o_createdAt := Some (createdAt p1);
       o_updatedAt := Some (updatedAt p1);
       o_version := Some (version p1) |} /\
  exportProfile false p1 = exportProfile false p2 /\
  exportProfile true p1 =
    {| o_userId := Some (userId p1);
       o_displayName := Some (displayName p1);
       o_emotionalFingerprint := Some (emotionalFingerprint p1);
       o_resonancePreferences := Some (resonancePreferences p1);
       o_privacySettings := Some (privacySettings p1);
       o_learningData := Some (learningData p1);
       o_createdAt := Some (createdAt p1);
       o_updatedAt := Some (updatedAt p1);
       o_version := Some (version p1) |}.
Proof.
  intros Hp1 Hq1 Hp2 Hq2 Hu Hd Hv Hc Hup.
  unfold exportProfile. cbn [orb].
  rewrite Hp1, Hq1, Hp2, Hq2, Hu, Hd, Hv, Hc, Hup.
  repeat split.
Qed.

(** The theorem at the two example profiles, which differ in patterns,
    preferences, privacy settings and learning data. *)
Lemma exportProfile_example :
  exportProfile false example_profile = exportProfile false example_profile' /\
  o_privacySettings (exportProfile true example_profile)
    = Some (privacySettings example_profile) /\
  example_profile <> example_profile'.
Proof.
  destruct (exportProfile_hides_private example_profile example_profile'
              eq_refl eq_refl eq_refl eq_refl eq_refl eq_refl eq_refl eq_refl eq_refl)
    as (_ & Heq & Hall).
  split; [exact Heq|]. split; [rewrite Hall; reflexivity|].
  intros H. apply (f_equal emotionalFingerprint) in H. discriminate H.
Defined.

(** importProfile(data, true) leaves the store alone and ends by stamping
    the time of the save. *)
Lemma importProfile_merge_eq (data : PartialProfile) (now : Z) (p : GenesisProfile) (h : Heap) :
  importProfile data true now p h =
  (h, {| userId := userId p;
         displayName := overlay (o_displayName data) (displayName p);
         emotionalFingerprint :=
           overlay (o_emotionalFingerprint data) (emotionalFingerprint p);
         resonancePreferences :=
           overlay (o_resonancePreferences data) (resonancePreferences p);
         privacySettings := overlay (o_privacySettings data) (privacySettings p);
         learningData := overlay (o_learningData data) (learningData p);
         createdAt := createdAt p;
         updatedAt := now;
         version := overlay (o_version data) (version p) |}).
Proof. reflexivity. Qed.

(** C9, as stated, fails: importing with merge a payload that carries an
    [updatedAt] of its own (5) at time 9 leaves [updatedAt] at 9, the time of
    the save that ends the call, not at the payload's value. *)
Lemma importProfile_merge_restamps_updatedAt : ~ merge_overlays_every_other_field.
Proof.
  intros H.
  specialize (H example_import 9%Z example_profile example_store).
  cbn zeta in H. destruct H as (_ & _ & _ & _ & _ & _ & _ & _ & H).
  vm_compute in H. discriminate H.
Qed.

(** C9, amended.  importProfile(data, merge = true) keeps the profile's own
    userId and createdAt whatever data holds for them, and overlays data's
    other top-level fields onto the existing profile, except updatedAt, which
    the save that ends the call sets to the current time; the store of
    pattern arrays is left as it is. *)
Theorem importProfile_merge_preserves_identity
    (data : PartialProfile) (now : Z) (p : GenesisProfile) (h : Heap) :
  let '(h', p') := importProfile data true now p h in
  h' = h /\
  userId p' = userId p /\
  createdAt p' = createdAt p /\
  displayName p' = overlay (o_displayName data) (displayName p) /\
  emotionalFingerprint p' = overlay (o_emotionalFingerprint data) (emotionalFingerprint p) /\
  resonancePreferences p' = overlay (o_resonancePreferences data) (resonancePreferences p) /\
  privacySettings p' = overlay (o_privacySettings data) (privacySettings p) /\
  learningData p' = overlay (o_learningData data) (learningData p) /\
  version p' = overlay (o_version data) (version p) /\
  updatedAt p' = now.
Proof.
  rewrite importProfile_merge_eq. cbn. repeat split.
Qed.

Example importProfile_merge_example :
  let p' := (importProfile example_import true 9 example_profile example_store).2 in
  userId p' = "user-0001-abcd" /\ createdAt p' = 7%Z /\ updatedAt p' = 9%Z /\
  displayName p' = "Imported" /\ version p' = "2.0.0".
Proof. cbn. repeat split. Qed.

End GenesisFacts.

(** ** The orchestrator *)
Module OrchestratorFacts.
Import Constants Orchestrator.

(** *** The latency window *)

Lemma lastN_short {A : Type} (n : nat) (l : list A) :
  (length l <= n)%nat -> lastN n l = l.
Proof.
  intros H. unfold lastN. replace (length l - n)%nat with 0%nat by lia. reflexivity.
Qed.

Lemma lastN_length {A : Type} (n : nat) (l : list A) :
  length (lastN n l) = Nat.min n (length l).
Proof. unfold lastN. rewrite length_skipn. lia. Qed.

Lemma lastN_app_long {A : Type} (n : nat) (a b : list A) :
  (n <= length b)%nat -> lastN n (a ++ b) = lastN n b.
Proof.
  intros H. unfold lastN. rewrite length_app.
  replace (length a + length b - n)%nat with ((length b - n) + length a)%nat by lia.
  rewrite <- skipn_skipn. f_equal.
  rewrite skipn_app, skipn_all, Nat.sub_diag. reflexivity.
Qed.

Lemma lastN_lastN_app {A : Type} (n : nat) (a b : list A) :
  lastN n (lastN n a ++ b) = lastN n (a ++ b).
Proof.
  destruct (Nat.le_gt_cases (length a) n) as [Hle|Hgt].
  - rewrite (lastN_short n a Hle). reflexivity.
  - unfold lastN at 1 3. rewrite !length_app, lastN_length.
    replace (Nat.min n (length a) + length b - n)%nat with (length b) by lia.
    replace (length a + length b - n)%nat
      with (length b + (length a - n))%nat by lia.
    rewrite <- skipn_skipn. f_equal. unfold lastN.
    rewrite skipn_app.
    replace (length a - n - length a)%nat with 0%nat by lia. reflexivity.
Qed.

(** One push keeps the last 100 of what the window held and the new value. *)
Lemma pushSample_lastN (x : Q) (w : list Q) :
  (length w <= 100)%nat -> pushSample x w = lastN 100 (w ++ [x]).
Proof.
  intros H. unfold pushSample, lastN. rewrite length_app. cbn [length].
  destruct (Nat.ltb_spec 100 (length w + 1)) as [Hlt|Hge].
  - replace (length w + 1 - 100)%nat with 1%nat by lia.
    destruct (w ++ [x]); reflexivity.
  - replace (length w + 1 - 100)%nat with 0%nat by lia. reflexivity.
Qed.

Lemma pushSample_length (x : Q) (w : list Q) :
  (length w <= 100)%nat -> (length (pushSample x w) <= 100)%nat.
Proof.
  intros H. rewrite pushSample_lastN by exact H. rewrite lastN_length. lia.
Qed.

Lemma window_after_update (x : Q) (now : Z) (st : RTI) :
  latencySamples (performanceMetrics (updatePerformanceMetrics x now st))
  = pushSample x (latencySamples (performanceMetrics st)).
Proof. reflexivity. Qed.

Lemma average_after_update (x : Q) (now : Z) (st : RTI) :
  let st' := updatePerformanceMetrics x now st in
  averageLatency (performanceMetrics st') = average (latencySamples (performanceMetrics st'))
  /\ latency (status_performance st') = averageLatency (performanceMetrics st').
Proof. split; reflexivity. Qed.

Lemma recordLatencies_snoc (samples : list (Q * Z)) (s : Q * Z) (st : RTI) :
  recordLatencies (samples ++ [s]) st
  = updatePerformanceMetrics s.1 s.2 (recordLatencies samples st).
Proof. unfold recordLatencies. rewrite fold_left_app. reflexivity. Qed.

(** After any number of calls the window is the last 100 of its former
    contents followed by the measurements pushed. *)
Lemma window_after_record (samples : list (Q * Z)) (st : RTI) :
  (length (latencySamples (performanceMetrics st)) <= 100)%nat ->
  latencySamples (performanceMetrics (recordLatencies samples st))
  = lastN 100 (latencySamples (performanceMetrics st) ++ List.map fst samples).
Proof.
  intros Hw. induction samples as [|s samples IH] using rev_ind.
  - cbn. rewrite app_nil_r. symmetry. apply lastN_short, Hw.
  - rewrite recordLatencies_snoc, window_after_update, IH.
    rewrite pushSample_lastN by (rewrite lastN_length; lia).
    rewrite lastN_lastN_app, List.map_app, app_assoc. reflexivity.
Qed.

Lemma latency_window_bounded (samples : list (Q * Z)) (st : RTI) :
  (length (latencySamples (performanceMetrics st)) <= 100)%nat ->
  (length (latencySamples (performanceMetrics (recordLatencies samples st))) <= 100)%nat.
Proof.
  intros Hw. rewrite window_after_record by exact Hw. rewrite lastN_length. lia.
Qed.

(** What [reduce] accumulates from the left is the sum of the entries,
    written here as [x1 + (x2 + (... + 0))]. *)
Lemma reduce_is_the_sum (l : list Q) (a : Q) :
  fold_left Qplus l a == a + fold_right Qplus 0 l.
Proof.
  revert a. induction l as [|x l IH]; intros a; cbn [fold_left fold_right].
  - ring.
  - rewrite IH. ring.
Qed.

(** The average the code computes is the arithmetic mean: the sum of the
    entries over their number. *)
Lemma average_is_the_mean (l : list Q) :
  average l == fold_right Qplus 0 l / inject_Z (Z.of_nat (length l)).
Proof.
  unfold average, sumQ. rewrite reduce_is_the_sum.
  unfold Qdiv. ring.
Qed.

(** The window and the averages after a run that ends with a measurement. *)
Lemma averages_after_record (samples : list (Q * Z)) (s : Q * Z) (st : RTI) :
  let st' := recordLatencies (samples ++ [s]) st in
  let window := latencySamples (performanceMetrics st') in
  averageLatency (performanceMetrics st')
  == fold_right Qplus 0 window / inject_Z (Z.of_nat (length window)) /\
  latency (status_performance st')
  == fold_right Qplus 0 window / inject_Z (Z.of_nat (length window)) /\
  lastLatency (performanceMetrics st') = s.1.
Proof.
  cbn zeta. rewrite recordLatencies_snoc.
  destruct (average_after_update s.1 s.2 (recordLatencies samples st)) as [Ha Hl].
  cbn zeta in Ha, Hl. rewrite Hl, Ha.
  split; [apply average_is_the_mean|]. split; [apply average_is_the_mean|reflexivity].
Qed.

(** C2.  From a state whose window holds at most 100 entries (the
    constructor's is empty), after more than 100 latency measurements pushed
    by updatePerformanceMetrics the window holds exactly the most recent 100
    of them, and the average latency (as stored and as reported in the
    status) is the arithmetic mean of those 100, their sum
    [x1 + (x2 + (... + 0))] divided by 100: the mean of the window, not of
    everything pushed. *)
Theorem latency_window_slides (samples : list (Q * Z)) (st : RTI) :
  (length (latencySamples (performanceMetrics st)) <= 100)%nat ->
  (100 < length samples)%nat ->
  let st' := recordLatencies samples st in
  let window := latencySamples (performanceMetrics st') in
  let recent := lastN 100 (List.map fst samples) in
  window = recent /\
  length window = 100%nat /\
  averageLatency (performanceMetrics st') == fold_right Qplus 0 recent / 100 /\
  latency (status_performance st') == fold_right Qplus 0 recent / 100.
Proof.
  intros Hw Hn st' window recent.
  assert (Hwin : window = recent).
  { subst window st' recent. rewrite window_after_record by exact Hw.
    apply lastN_app_long. rewrite length_map. lia. }
  assert (Hlen : length window = 100%nat).
  { rewrite Hwin. subst recent. rewrite lastN_length, length_map. lia. }
  split; [exact Hwin|]. split; [exact Hlen|].
  destruct (exists_last (l := samples)) as (init & s & Hs).
  { intros ->. cbn in Hn. lia. }
  destruct (averages_after_record init s st) as (Ha & Hl & _).
  cbn zeta in Ha, Hl. rewrite <- Hs in Ha, Hl.
  fold st' in Ha, Hl. fold window in Ha, Hl.
  rewrite Hlen, Hwin in Ha, Hl.
  split; [exact Ha|exact Hl].
Qed.

(** The theorem on a new instance fed 1 ms, 2 ms, ..., 101 ms. *)
Lemma latency_window_example :
  let st' := recordLatencies example_latencies (constructed 0) in
  let window := latencySamples (performanceMetrics st') in
  let recent := lastN 100 (List.map fst example_latencies) in
  window = recent /\
  length window = 100%nat /\
  averageLatency (performanceMetrics st') == fold_right Qplus 0 recent / 100 /\
  latency (status_performance st') == fold_right Qplus 0 recent / 100.
Proof.
  apply (latency_window_slides example_latencies (constructed 0)).
  - apply Nat.leb_le. reflexivity.
  - apply Nat.ltb_lt. reflexivity.
Defined.

(** There the window is 2 ms to 101 ms and its mean is 51.5 ms, where the
    mean of all 101 measurements is 51 ms. *)
Example latency_window_example_value :
  let st' := recordLatencies example_latencies (constructed 0) in
  averageLatency (performanceMetrics st') == 51.5 /\
  fold_right Qplus 0 (List.map fst example_latencies) / 101 == 51 /\
  head (latencySamples (performanceMetrics st')) = Some (inject_Z 2).
Proof. vm_compute. repeat split. Qed.

(** *** The mode-usage table *)

Lemma fold_left_Qplus (l : list Q) (a : Q) : fold_left Qplus l a == a + sumQ l.
Proof.
  unfold sumQ. revert a. induction l as [|x l IH]; intros a; cbn [fold_left].
  - ring.
  - rewrite (IH (a + x)), (IH (0 + x)). ring.
Qed.

Lemma sumQ_cons (x : Q) (l : list Q) : sumQ (x :: l) == x + sumQ l.
Proof.
  unfold sumQ at 1. cbn [fold_left]. rewrite fold_left_Qplus. ring.
Qed.

Lemma sumQ_perm (l l' : list Q) : Permutation l l' -> sumQ l == sumQ l'.
Proof.
  induction 1 as [|x l l' _ IH|x y l|l l' l'' _ IH1 _ IH2].
  - reflexivity.
  - rewrite !sumQ_cons, IH. reflexivity.
  - rewrite !sumQ_cons. ring.
  - rewrite IH1. exact IH2.
Qed.

Lemma fold_count (l : list ModeUsage) (a : nat) :
  fold_left (fun sum m => (sum + count m)%nat) l a = (a + totalCount l)%nat.
Proof.
  unfold totalCount. revert a. induction l as [|e l IH]; intros a; cbn [fold_left].
  - lia.
  - rewrite (IH (a + count e)%nat), (IH (0 + count e)%nat). lia.
Qed.

Lemma totalCount_cons (e : ModeUsage) (l : list ModeUsage) :
  totalCount (e :: l) = (count e + totalCount l)%nat.
Proof. unfold totalCount at 1. cbn [fold_left]. rewrite fold_count. lia. Qed.

(** The first step of an update adds one to the total, whether the mode was
    there or not. *)
Lemma total_after_count (m : string) (table : list ModeUsage) :
  totalCount
    match List.find (fun e => String.eqb (mode e) m) table with
    | Some _ => incrementFirst m table
    | None => table ++ [mkModeUsage m 1 0]
    end
  = S (totalCount table).
Proof.
  induction table as [|e r IH]; [reflexivity|].
  cbn [List.find incrementFirst]. destruct (String.eqb (mode e) m).
  - rewrite !totalCount_cons. cbn [count]. lia.
  - destruct (List.find _ r); cbn [app]; rewrite !totalCount_cons, IH; lia.
Qed.

Lemma percentageSum_cons (e : ModeUsage) (l : list ModeUsage) :
  percentageSum (e :: l) == percentage e + percentageSum l.
Proof. unfold percentageSum. cbn [List.map]. apply sumQ_cons. Qed.

(** After the percentages are recomputed over [total], they add up to the
    share of [total] that the counts make. *)
Lemma percentageSum_setPercentage (total : nat) (table : list ModeUsage) :
  percentageSum (List.map (setPercentage total) table)
  == inject_Z (Z.of_nat (totalCount table)) / inject_Z (Z.of_nat total) * 100.
Proof.
  induction table as [|e r IH].
  - unfold Qdiv. cbn. ring.
  - cbn [List.map]. rewrite percentageSum_cons, IH, totalCount_cons.
    cbn [setPercentage percentage]. rewrite Nat2Z.inj_add, inject_Z_plus.
    unfold Qdiv. ring.
Qed.

Lemma percentageSum_sort (table : list ModeUsage) :
  percentageSum (array_sort byCount table) == percentageSum table.
Proof.
  unfold percentageSum. apply sumQ_perm, Permutation_map.
  symmetry. apply array_sort_perm.
Qed.

Lemma updateModeTable_sum (m : string) (table : list ModeUsage) :
  percentageSum (updateModeTable m table) == 100.
Proof.
  unfold updateModeTable. cbn zeta.
  rewrite percentageSum_sort, percentageSum_setPercentage, total_after_count.
  field. rewrite Nat2Z.inj_succ. unfold inject_Z, Qeq. cbn. lia.
Qed.

Lemma updateModeTable_nonempty (m : string) (table : list ModeUsage) :
  updateModeTable m table <> [].
Proof.
  intros H. apply (f_equal (@length _)) in H. revert H.
  unfold updateModeTable. cbn zeta.
  rewrite array_sort_length, length_map.
  destruct (List.find _ table) as [e|] eqn:E.
  - destruct table as [|e' r]; [discriminate E|].
    cbn. destruct (String.eqb (mode e') m); discriminate.
  - rewrite length_app. cbn. lia.
Qed.

(** The table an update leaves is in descending order of count. *)
Lemma updateModeTable_sorted (m : string) (table : list ModeUsage) :
  StronglySorted (descending (fun e => inject_Z (Z.of_nat (count e))))
                 (updateModeTable m table).
Proof.
  unfold updateModeTable. cbn zeta. apply array_sort_sorted.
  intros a b. unfold byCount. change 0 with (inject_Z 0).
  rewrite <- !Zle_Qle. lia.
Qed.

Lemma recordModes_snoc (modes : list string) (m : string) (st : RTI) :
  recordModes (modes ++ [m]) st = updateModeStatistics m (recordModes modes st).
Proof. unfold recordModes. rewrite fold_left_app. reflexivity. Qed.

(** C5.  After every call of updateModeStatistics, from any state, the
    table is non-empty and its percentages sum to 100 (exactly, so within
    0.01); and on every state reached from a new instance by such calls, a
    non-empty table has percentages that sum to 100. *)
Theorem mode_percentages_sum_to_100 (m : string) (st : RTI) (modes : list string) (now : Z) :
  let table := topModes (stats (updateModeStatistics m st)) in
  let reached := topModes (stats (recordModes modes (constructed now))) in
  table <> [] /\
  percentageSum table == 100 /\
  Qabs (percentageSum table - 100) <= 0.01 /\
  (reached <> [] ->
   percentageSum reached == 100 /\ Qabs (percentageSum reached - 100) <= 0.01).
Proof.
  assert (Hclose : forall t, percentageSum t == 100 -> Qabs (percentageSum t - 100) <= 0.01).
  { intros t H. rewrite H. discriminate. }
  cbn zeta. cbn [updateModeStatistics stats topModes].
  split; [apply updateModeTable_nonempty|].
  split; [apply updateModeTable_sum|].
  split; [apply Hclose, updateModeTable_sum|].
  intros Hne.
  assert (Hm : modes <> []) by (intros ->; apply Hne; reflexivity).
  destruct (exists_last Hm) as (init & last & ->).
  rewrite recordModes_snoc. cbn [updateModeStatistics stats topModes].
  split; [apply updateModeTable_sum|apply Hclose, updateModeTable_sum].
Qed.

(** The theorem on a new instance after "creation", "blessing", "creation",
    and on one more "blessing". *)
Lemma mode_percentages_example :
  let st := recordModes ["creation"; "blessing"; "creation"] (constructed 0) in
  percentageSum (topModes (stats st)) == 100 /\
  percentageSum (topModes (stats (updateModeStatistics "blessing" st))) == 100.
Proof.
  intros st.
  destruct (mode_percentages_sum_to_100
              "blessing" st ["creation"; "blessing"; "creation"] 0)
    as (_ & Hone & _ & Hreached).
  split; [|exact Hone].
  apply Hreached. discriminate.
Defined.

(** Three resonances on a new instance: "creation" twice, "blessing" once. *)
Example mode_table_example :
  List.map (fun e => (mode e, count e))
           (topModes (stats (recordModes ["creation"; "blessing"; "creation"] (constructed 0))))
  = [("creation", 2%nat); ("blessing", 1%nat)].
Proof. vm_compute. reflexivity. Qed.

(** *** Error severity and escalation *)

Lemma prefix_iff (a b : string) :
  String.prefix a b = true <-> exists post, b = a +:+ post.
Proof.
  revert b. induction a as [|c a IH]; intros [|c' b]; cbn.
  - split; [exists ""; reflexivity|reflexivity].
  - split; [exists (String c' b); reflexivity|reflexivity].
  - split; [discriminate|intros [post [=]]].
  - destruct (Ascii.ascii_dec c c') as [->|Hne].
    + rewrite IH. split; intros [post H]; exists post;
        [rewrite H; reflexivity|injection H; auto].
    + split; [discriminate|]. intros [post H]. injection H as H _.
      exfalso. apply Hne. exact (eq_sym H).
Qed.

(** [includes] is the substring test. *)
Lemma includes_iff (s sub : string) :
  includes s sub = true <-> exists pre post, s = pre +:+ sub +:+ post.
Proof.
  induction s as [|c s IH]; cbn [includes]; rewrite orb_true_iff, prefix_iff.
  - split.
    + intros [[post H]|H]; [|discriminate H]. exists "", post. exact H.
    + intros ([|c pre] & post & H); [left; exists post; exact H|discriminate H].
  - rewrite IH. split.
    + intros [[post H]|(pre & post & H)].
      * exists "", post. exact H.
      * exists (String c pre), post. cbn. rewrite H. reflexivity.
    + intros ([|c' pre] & post & H).
      * left. exists post. exact H.
      * right. exists pre, post. injection H as _ H. exact H.
Qed.

Lemma array_includes_iff (l : list string) (s : string) :
  array_includes l s = true <-> In s l.
Proof.
  unfold array_includes. rewrite existsb_exists. split.
  - intros (x & Hin & Heq). apply String.eqb_eq in Heq. subst x. exact Hin.
  - intros Hin. exists s. split; [exact Hin|apply String.eqb_refl].
Qed.

(** None of the six listed codes contains "PERFORMANCE". *)
Lemma listed_codes_not_performance (code : string) :
  In code (criticalErrors ++ highErrors) -> includes code "PERFORMANCE" = false.
Proof.
  intros H. cbn in H.
  repeat (destruct H as [<-|H]; [vm_compute; reflexivity|]). destruct H.
Qed.

Lemma lists_are_disjoint (code : string) :
  In code criticalErrors -> In code highErrors -> False.
Proof.
  intros Hc Hh. cbn in Hc, Hh.
  repeat (destruct Hc as [<-|Hc];
          [repeat (destruct Hh as [Hh|Hh]; [discriminate Hh|]); destruct Hh|]).
  destruct Hc.
Qed.

(** How [determineErrorSeverity] classifies a code. *)
Lemma determineErrorSeverity_spec (code : string) :
  (determineErrorSeverity code = critical <-> In code criticalErrors) /\
  (determineErrorSeverity code = high <-> In code highErrors) /\
  (determineErrorSeverity code = medium <->
   exists pre post, code = pre +:+ "PERFORMANCE" +:+ post) /\
  (determineErrorSeverity code = low <->
   ~ In code criticalErrors /\ ~ In code highErrors /\
   ~ exists pre post, code = pre +:+ "PERFORMANCE" +:+ post).
Proof.
  pose proof (array_includes_iff criticalErrors code) as Hc.
  pose proof (array_includes_iff highErrors code) as Hh.
  pose proof (includes_iff code "PERFORMANCE") as Hp.
  pose proof (listed_codes_not_performance code) as Hnp.
  pose proof (lists_are_disjoint code) as Hd.
  rewrite in_app_iff in Hnp.
  unfold determineErrorSeverity.
  set (P := exists pre post, code = pre +:+ "PERFORMANCE" +:+ post) in *.
  destruct (array_includes criticalErrors code);
    [|destruct (array_includes highErrors code);
      [|destruct (includes code "PERFORMANCE")]].
  - assert (Hin : In code criticalErrors) by (apply Hc; reflexivity).
    assert (Hn : ~ P) by (rewrite <- Hp, Hnp by tauto; discriminate).
    split; [tauto|]. split; [split; [discriminate|tauto]|].
    split; [split; [discriminate|tauto]|]. split; [discriminate|tauto].
  - assert (Hin : In code highErrors) by (apply Hh; reflexivity).
    assert (Hn : ~ P) by (rewrite <- Hp, Hnp by tauto; discriminate).
    split; [split; [discriminate|tauto]|]. split; [tauto|].
    split; [split; [discriminate|tauto]|]. split; [discriminate|tauto].
  - assert (Hn1 : ~ In code criticalErrors) by (rewrite <- Hc; discriminate).
    assert (Hn2 : ~ In code highErrors) by (rewrite <- Hh; discriminate).
    assert (Hy : P) by (apply Hp; reflexivity).
    split; [split; [discriminate|tauto]|]. split; [split; [discriminate|tauto]|].
    split; [tauto|]. split; [discriminate|tauto].
  - assert (Hn1 : ~ In code criticalErrors) by (rewrite <- Hc; discriminate).
    assert (Hn2 : ~ In code highErrors) by (rewrite <- Hh; discriminate).
    assert (Hn : ~ P) by (rewrite <- Hp; discriminate).
    split; [split; [discriminate|tauto]|]. split; [split; [discriminate|tauto]|].
    split; [split; [discriminate|tauto]|]. tauto.
Qed.

(** Without a listener for 'error' the emit throws, and handleError with
    it. *)
Lemma handleError_unheard (code message : string) (now : Z) (st : RTI) :
  errorListeners st = 0%nat -> handleError code message now st = None.
Proof. intros H. unfold handleError, emitError. rewrite H. reflexivity. Qed.

(** With one, the event is published and the status is looked at. *)
Lemma handleError_heard (code message : string) (now : Z) (st : RTI) :
  (0 < errorListeners st)%nat ->
  handleError code message now st
  = Some (if severity_is_critical (determineErrorSeverity code)
          then updateStatus ERROR now
                 (emit (EmitError code message (determineErrorSeverity code) now) st)
          else emit (EmitError code message (determineErrorSeverity code) now) st).
Proof.
  intros H. unfold handleError, emitError.
  destruct (errorListeners st); [lia|reflexivity].
Qed.

(** determineErrorSeverity gives critical exactly to HARDWARE_NOT_SUPPORTED,
    EMOTION_DECODER_ERROR and RESONANCE_ENGINE_ERROR, high exactly to
    SENSOR_DISCONNECTED, LATENCY_EXCEEDED and MEMORY_LIMIT_EXCEEDED, medium
    exactly to the codes that contain "PERFORMANCE", and low to every other
    code.  On an instance with a listener for 'error', handleError publishes
    the error event, and then sets the status to Error (publishing the
    status change) exactly when the severity is critical; for every other
    severity the status stays what it was and no status change is published;
    nothing else of the state changes.  On an instance without such a
    listener handleError throws, whatever the severity, and nothing
    changes. *)
Lemma handleError_spec (code message : string) (now : Z) (st : RTI) :
  let severity := determineErrorSeverity code in
  (severity = critical <->
   In code [ ERROR_CODES.HARDWARE_NOT_SUPPORTED; ERROR_CODES.EMOTION_DECODER_ERROR;
             ERROR_CODES.RESONANCE_ENGINE_ERROR ]) /\
  (severity = high <->
   In code [ ERROR_CODES.SENSOR_DISCONNECTED; ERROR_CODES.LATENCY_EXCEEDED;
             ERROR_CODES.MEMORY_LIMIT_EXCEEDED ]) /\
  (severity = medium <-> exists pre post, code = pre +:+ "PERFORMANCE" +:+ post) /\
  (severity = low <->
   ~ In code criticalErrors /\ ~ In code highErrors /\
   ~ exists pre post, code = pre +:+ "PERFORMANCE" +:+ post) /\
  (errorListeners st = 0%nat -> handleError code message now st = None) /\
  ((0 < errorListeners st)%nat ->
   exists st',
     handleError code message now st = Some st' /\
     (severity = critical ->
      status st' = ERROR /\
      emitted st' = emitted st ++ [EmitError code message critical now;
                                   EmitStatusChange ERROR now]) /\
     (severity <> critical ->
      status st' = status st /\
      emitted st' = emitted st ++ [EmitError code message severity now]) /\
     stats st' = stats st /\
     performanceMetrics st' = performanceMetrics st /\
     status_performance st' = status_performance st /\
     sessionStartTime st' = sessionStartTime st /\
     errorListeners st' = errorListeners st).
Proof.
  intros severity.
  destruct (determineErrorSeverity_spec code) as (H1 & H2 & H3 & H4).
  split; [exact H1|]. split; [exact H2|]. split; [exact H3|]. split; [exact H4|].
  split; [apply handleError_unheard|].
  intros Hl. rewrite (handleError_heard code message now st Hl).
  eexists. split; [reflexivity|]. fold severity.
  split; [|split].
  - intros Hc. rewrite Hc. cbn. rewrite <- app_assoc. split; reflexivity.
  - intros Hn. destruct severity; try congruence; split; reflexivity.
  - destruct (severity_is_critical severity); repeat split.
Qed.

(** On an instance with a listener: an unsupported-hardware error takes the
    status from Initializing to Error; an exceeded CPU limit, which is in
    neither list and does not contain "PERFORMANCE", is low and leaves it. *)
Example handleError_example :
  status <$> handleError ERROR_CODES.HARDWARE_NOT_SUPPORTED "no force touch" 5
                         (onError (constructed 0))
  = Some ERROR /\
  determineErrorSeverity ERROR_CODES.CPU_LIMIT_EXCEEDED = low /\
  status <$> handleError ERROR_CODES.CPU_LIMIT_EXCEEDED "cpu" 5 (onError (constructed 0))
  = Some INITIALIZING.
Proof. repeat split. Qed.

(** C7.  The escalation of a critical error does not happen on an instance
    nobody listens to.  handleError emits the error event before it looks
    at the severity; the constructor registers no listener for 'error', so
    on a new instance that emit throws and the status update is never
    reached: HARDWARE_NOT_SUPPORTED, critical by its code, leaves the status
    Initializing.  Once a listener is registered the same call sets the
    status to Error. *)
Theorem handleError_without_listener :
  determineErrorSeverity ERROR_CODES.HARDWARE_NOT_SUPPORTED = critical /\
  errorListeners (constructed 0) = 0%nat /\
  handleError ERROR_CODES.HARDWARE_NOT_SUPPORTED "no force touch" 5 (constructed 0) = None /\
  status (constructed 0) = INITIALIZING /\
  status <$> handleError ERROR_CODES.HARDWARE_NOT_SUPPORTED "no force touch" 5
                         (onError (constructed 0))
  = Some ERROR.
Proof.
  split; [reflexivity|]. split; [reflexivity|].
  split; [apply handleError_unheard; reflexivity|].
  split; [reflexivity|].
  rewrite handleError_heard by (cbn; lia). reflexivity.
Qed.

Example severities :
  List.map determineErrorSeverity
    [ "RESONANCE_ENGINE_ERROR"; "LATENCY_EXCEEDED"; "GPU_PERFORMANCE_DROP";
      "INITIALIZATION_ERROR"; "performance" ]
  = [critical; high; medium; low; low].
Proof. reflexivity. Qed.

End OrchestratorFacts.

(** ** RTIUtils: the numeric helpers *)
Module UtilsNumericFacts.
Import UtilsNumeric.

Ltac name_minmax :=
  repeat match goal with
         | |- context [Qmax ?a ?b] =>
             let H := fresh "Hmax" in let m := fresh "m" in
             pose proof (Q.max_spec a b) as H; set (m := Qmax a b) in *; clearbody m
         | |- context [Qmin ?a ?b] =>
             let H := fresh "Hmin" in let m := fresh "m" in
             pose proof (Q.min_spec a b) as H; set (m := Qmin a b) in *; clearbody m
         | _ : context [Qmax ?a ?b] |- _ =>
             let H := fresh "Hmax" in let m := fresh "m" in
             pose proof (Q.max_spec a b) as H; set (m := Qmax a b) in *; clearbody m
         | _ : context [Qmin ?a ?b] |- _ =>
             let H := fresh "Hmin" in let m := fresh "m" in
             pose proof (Q.min_spec a b) as H; set (m := Qmin a b) in *; clearbody m
         end.

Ltac split_minmax := name_minmax; lra.

(** clamp keeps a value inside [min, max] when min <= max, returns it
    unchanged when it is already inside, and is idempotent; with the bounds
    the wrong way round (max < min) it returns min whatever the value. *)
Theorem clamp_bounds (value min max : Q) :
  (min <= max ->
   (min <= clamp value min max /\ clamp value min max <= max) /\
   (min <= value /\ value <= max -> clamp value min max == value) /\
   clamp (clamp value min max) min max == clamp value min max) /\
  (max < min -> clamp value min max == min).
Proof.
  unfold clamp. split.
  - intros Hle. split; [|split].
    + split; split_minmax.
    + intros [Hlo Hhi]. split_minmax.
    + split_minmax.
  - intros Hlt. split_minmax.
Qed.

Lemma clamp_example :
  clamp 7 0 5 == 5 /\ clamp (-1) 0 5 == 0 /\ clamp 3 0 5 == 3 /\ clamp 3 5 0 == 5.
Proof.
  destruct (clamp_bounds 7 0 5) as [H1 _].
  repeat split; reflexivity.
Defined.

Lemma ratio_le (a b d : Q) : 0 < d -> a <= b -> a / d <= b / d.
Proof.
  intros Hd Hab. unfold Qdiv. apply Qmult_le_compat_r; [exact Hab|].
  apply Qlt_le_weak, Qinv_lt_0_compat, Hd.
Qed.

Lemma ratio_bounds (x d : Q) :
  0 < d -> (0 <= x -> 0 <= x / d) /\ (x <= 0 -> x / d <= 0) /\
           (x <= d -> x / d <= 1) /\ (d <= x -> 1 <= x / d).
Proof.
  intros Hd.
  assert (H0 : 0 / d == 0) by (unfold Qdiv; ring).
  assert (H1 : d / d == 1) by (field; lra).
  repeat split; intros H.
  - rewrite <- H0. apply ratio_le; assumption.
  - rewrite <- H0. apply ratio_le; assumption.
  - rewrite <- H1. apply ratio_le; assumption.
  - rewrite <- H1. apply ratio_le; assumption.
Qed.

(** For min < max, normalizePressure maps the pressure linearly onto [0, 1]
    and saturates outside: the result is always in [0, 1], it is 0 at and
    below min, 1 at and above max, the exact ratio in between, and it never
    decreases when the pressure grows. *)
Theorem normalizePressure_range (pressure pressure' min max : Q) :
  min < max ->
  let r := normalizePressure pressure (Some min) (Some max) in
  (0 <= r /\ r <= 1) /\
  (pressure <= min -> r == 0) /\
  (max <= pressure -> r == 1) /\
  (min <= pressure /\ pressure <= max -> r == (pressure - min) / (max - min)) /\
  (pressure <= pressure' -> r <= normalizePressure pressure' (Some min) (Some max)).
Proof.
  intros Hlt. unfold normalizePressure. cbn [overlay]. cbn zeta.
  assert (Hd : 0 < max - min) by lra.
  destruct (ratio_bounds (pressure - min) (max - min) Hd) as (B1 & B2 & B3 & B4).
  destruct (ratio_bounds (pressure' - min) (max - min) Hd) as (C1 & C2 & C3 & C4).
  set (x := (pressure - min) / (max - min)) in *.
  set (x' := (pressure' - min) / (max - min)) in *.
  split; [split; split_minmax|].
  split; [intros H; assert (x <= 0) by (apply B2; lra); split_minmax|].
  split; [intros H; assert (1 <= x) by (apply B4; lra); split_minmax|].
  split.
  - intros [H1 H2]. assert (0 <= x) by (apply B1; lra).
    assert (x <= 1) by (apply B3; lra). split_minmax.
  - intros H. assert (Hx : x <= x').
    { subst x x'. apply ratio_le; [exact Hd|lra]. }
    split_minmax.
Qed.

(** With the default range (0 to 500), a raw pressure of 250 is 0.5 and one
    of 600 saturates at 1. *)
Lemma normalizePressure_example :
  normalizePressure 250 None None == 0.5 /\
  normalizePressure 600 None None == 1 /\
  normalizePressure 250 None None <= normalizePressure 600 None None.
Proof.
  assert (H : (0 : Q) < 500) by reflexivity.
  destruct (normalizePressure_range 250 600 0 500 H) as (_ & _ & _ & _ & Hmono).
  split; [reflexivity|]. split; [reflexivity|].
  apply Hmono. discriminate.
Defined.

(** calculateEmotionalIntensity always lies in [0, 1]; for readings in
    [0, 1] the clamp never acts, the result is the weighted sum
    0.6 pressure + 0.3 thermal (+ 0.1 pulse), and without a pulse reading it
    cannot exceed 0.9. *)
Theorem calculateEmotionalIntensity_range (pressure thermal : Q) (pulse : option Q) :
  let r := calculateEmotionalIntensity pressure thermal pulse in
  (0 <= r /\ r <= 1) /\
  ((0 <= pressure /\ pressure <= 1) -> (0 <= thermal /\ thermal <= 1) ->
   match pulse with
   | Some pulse =>
       (0 <= pulse /\ pulse <= 1) ->
       r == 0.6 * pressure + 0.3 * thermal + 0.1 * pulse
   | None => r == 0.6 * pressure + 0.3 * thermal /\ r <= 0.9
   end).
Proof.
  unfold calculateEmotionalIntensity. cbn zeta.
  split; [split; split_minmax|].
  intros [P0 P1] [T0 T1]. destruct pulse as [pulse|].
  - intros [U0 U1]. split_minmax.
  - split; split_minmax.
Qed.

Lemma calculateEmotionalIntensity_example :
  calculateEmotionalIntensity 1 1 None <= 0.9 /\
  calculateEmotionalIntensity 1 1 None == 0.9 /\
  calculateEmotionalIntensity 1 1 (Some 1) == 1.
Proof.
  destruct (calculateEmotionalIntensity_range 1 1 None) as [_ H].
  split; [apply H; split; discriminate|].
  split; reflexivity.
Defined.

(** *** retry *)

Lemma sumQ_snoc (l : list Q) (x : Q) : sumQ (l ++ [x]) = sumQ l + x.
Proof. unfold sumQ. rewrite fold_left_app. reflexivity. Qed.

(** The delays double: after [k] failures their sum is [2^k - 1] base
    delays. *)
Lemma backoff_total (baseDelay : Q) (k : nat) :
  sumQ (List.map (backoff baseDelay) (seq 0 k))
  == baseDelay * (inject_Z (2 ^ Z.of_nat k) - 1).
Proof.
  induction k as [|k IH].
  - cbn [seq List.map]. unfold sumQ. cbn [fold_left].
    change (inject_Z (2 ^ Z.of_nat 0)) with 1. ring.
  - rewrite seq_S, List.map_app, Nat.add_0_l. cbn [List.map].
    rewrite sumQ_snoc, IH. unfold backoff.
    rewrite Nat2Z.inj_succ, Z.pow_succ_r by lia.
    rewrite inject_Z_mult. change (inject_Z 2) with 2. ring.
Qed.

(** While the iterations fail and the last one is not reached, the loop
    sleeps the next delay and goes on. *)
Lemma retry_loop_fails {E T : Type} (func : nat -> E + T) (maxRetries : Z) (baseDelay : Q)
    (n remaining from : nat) (lastError : option E) (slept : list Q) :
  (forall j, (from <= j < from + n)%nat -> exists e, func j = inl e) ->
  (Z.of_nat (from + n) <= maxRetries)%Z ->
  (n <= remaining)%nat ->
  exists lastError',
    retry_loop func maxRetries baseDelay remaining from lastError slept =
    retry_loop func maxRetries baseDelay (remaining - n) (from + n) lastError'
               (slept ++ List.map (backoff baseDelay) (seq from n)).
Proof.
  revert remaining from lastError slept.
  induction n as [|n IH]; intros remaining from lastError slept Hfail Hle Hrem.
  - exists lastError. cbn [seq List.map]. rewrite app_nil_r, Nat.sub_0_r, Nat.add_0_r.
    reflexivity.
  - destruct remaining as [|remaining]; [lia|].
    destruct (Hfail from ltac:(lia)) as [e He].
    cbn [retry_loop]. rewrite He.
    destruct (Z.eqb_spec (Z.of_nat from) maxRetries) as [Heq|Hne]; [lia|].
    destruct (IH remaining (S from) (Some e)
                 (slept ++ [baseDelay * inject_Z (2 ^ Z.of_nat from)]))
      as (last' & Hrun).
    + intros j Hj. apply Hfail. lia.
    + lia.
    + lia.
    + exists last'. replace (from + S n)%nat with (S from + n)%nat by lia.
      cbn [Nat.sub seq List.map]. rewrite Hrun, <- app_assoc. reflexivity.
Qed.

Lemma retry_resolves {E T : Type} (func : nat -> E + T) (maxRetries : Z) (baseDelay : Q)
    (k : nat) (v : T) :
  (Z.of_nat k <= maxRetries)%Z ->
  (forall j, (j < k)%nat -> exists e, func j = inl e) ->
  func k = inr v ->
  retry func (Some maxRetries) (Some baseDelay)
  = (Resolved v, List.map (backoff baseDelay) (seq 0 k)).
Proof.
  intros Hk Hfail Hok. unfold retry. cbn [overlay]. cbn zeta.
  destruct (retry_loop_fails func maxRetries baseDelay k (Z.to_nat (maxRetries + 1))
              0 None []) as (last' & ->).
  - intros j Hj. apply Hfail. lia.
  - lia.
  - lia.
  - destruct (Z.to_nat (maxRetries + 1) - k)%nat as [|r] eqn:Er; [lia|].
    cbn [retry_loop Nat.add app]. rewrite Hok. reflexivity.
Qed.

(** retry resolves with the first success: when the calls of iterations
    0, ..., k-1 reject and the call of iteration k <= maxRetries resolves
    with [v], retry resolves with [v] after sleeping baseDelay * 2^j after
    each failure j < k, [2^k - 1] base delays in all; how func would settle
    in later iterations plays no part. *)
Theorem retry_first_success {E T : Type} (func func' : nat -> E + T) (maxRetries : Z)
    (baseDelay : Q) (k : nat) (v : T) :
  (Z.of_nat k <= maxRetries)%Z ->
  (forall j, (j < k)%nat -> exists e, func j = inl e) ->
  func k = inr v ->
  (forall j, (j <= k)%nat -> func' j = func j) ->
  let run := retry func (Some maxRetries) (Some baseDelay) in
  run = (Resolved v, List.map (backoff baseDelay) (seq 0 k)) /\
  sumQ run.2 == baseDelay * (inject_Z (2 ^ Z.of_nat k) - 1) /\
  retry func' (Some maxRetries) (Some baseDelay) = run.
Proof.
  intros Hk Hfail Hok Hsame run.
  assert (Hrun : run = (Resolved v, List.map (backoff baseDelay) (seq 0 k)))
    by (apply retry_resolves; assumption).
  split; [exact Hrun|]. rewrite Hrun. split; [apply backoff_total|].
  apply retry_resolves; [exact Hk| |].
  - intros j Hj. rewrite Hsame by lia. apply Hfail, Hj.
  - rewrite Hsame by lia. exact Hok.
Qed.

(** Two failures, then a value: with the defaults (3 retries, 1000 ms) retry
    resolves after sleeping 1000 ms and 2000 ms. *)
Lemma retry_first_success_example :
  retry (fun j => if (j <? 2)%nat then inl "busy" else inr j) None None
  = (Resolved 2%nat, [1000; 2000]).
Proof.
  refine (proj1 (retry_first_success
                   (fun j => if (j <? 2)%nat then inl "busy" else inr j)
                   (fun j => if (j <? 2)%nat then inl "busy" else inr j)
                   3 1000 2 2%nat _ _ eq_refl (fun _ _ => eq_refl))).
  - discriminate.
  - intros j Hj. exists "busy". destruct j as [|[|j]]; [reflexivity|reflexivity|lia].
Defined.

(** When every attempt fails, retry makes maxRetries + 1 of them and
    rejects with the error of the last one, having slept after each failure
    but the last; with a negative maxRetries it makes no attempt at all and
    rejects with undefined. *)
Theorem retry_exhausted {E T : Type} (func : nat -> E + T) (maxRetries : Z) (baseDelay : Q) :
  ((0 <= maxRetries)%Z ->
   forall errors : nat -> E,
     (forall j, (Z.of_nat j <= maxRetries)%Z -> func j = inl (errors j)) ->
     retry func (Some maxRetries) (Some baseDelay)
     = (Rejected (Some (errors (Z.to_nat maxRetries))),
        List.map (backoff baseDelay) (seq 0 (Z.to_nat maxRetries)))) /\
  ((maxRetries < 0)%Z ->
   retry func (Some maxRetries) (Some baseDelay) = (Rejected None, [])).
Proof.
  split.
  - intros Hpos errors Hfail. unfold retry. cbn [overlay]. cbn zeta.
    destruct (retry_loop_fails func maxRetries baseDelay (Z.to_nat maxRetries)
                (Z.to_nat (maxRetries + 1)) 0 None []) as (last' & ->).
    + intros j Hj. exists (errors j). apply Hfail. lia.
    + lia.
    + lia.
    + replace (Z.to_nat (maxRetries + 1) - Z.to_nat maxRetries)%nat with 1%nat by lia.
      cbn [retry_loop Nat.add app]. rewrite Hfail by lia.
      destruct (Z.eqb_spec (Z.of_nat (Z.to_nat maxRetries)) maxRetries) as [_|Hne]; [|lia].
      reflexivity.
  - intros Hneg. unfold retry. cbn [overlay]. cbn zeta.
    replace (Z.to_nat (maxRetries + 1)) with 0%nat by lia. reflexivity.
Qed.

(** Always failing, with two retries: three attempts, two sleeps, and the
    third error comes out. *)
Lemma retry_exhausted_example :
  retry (T := nat) (fun j => inl j) (Some 2%Z) (Some 100)
  = (Rejected (Some 2%nat), [100; 200]).
Proof.
  refine (proj1 (retry_exhausted (T := nat) (fun j => inl j) 2 100) _ (fun j => j) _).
  - discriminate.
  - reflexivity.
Defined.

End UtilsNumericFacts.

Module FileSizeFacts.
Import UtilsNumeric.

Definition kib (j : nat) : Q := inject_Z (1024 ^ Z.of_nat j).

Lemma kib_pos (j : nat) : 0 < kib j.
Proof.
  unfold kib. change 0 with (inject_Z 0). rewrite <- Zlt_Qlt. lia.
Qed.

Lemma kib_S (j : nat) : kib (S j) == 1024 * kib j.
Proof.
  unfold kib. rewrite Nat2Z.inj_succ, Z.pow_succ_r by lia.
  rewrite inject_Z_mult. reflexivity.
Qed.

Lemma kib_0 : kib 0 == 1.
Proof. reflexivity. Qed.

(** The loop stops at the first unit in which the size is below 1024, or at
    the last unit; every unit it has passed left at least 1024 of the one
    before, so at least 1 of the one it stops at. *)
Lemma scale_spec (fuel : nat) (size : Q) (k : nat) :
  (fuel + k = 4)%nat ->
  let r := scale fuel size k in
  exists j : nat,
    r.2 = (k + j)%nat /\ (r.2 <= 4)%nat /\
    r.1 == size / kib j /\
    ((r.2 < 4)%nat -> r.1 < 1024) /\
    ((0 < j)%nat -> 1 <= r.1).
Proof.
  revert size k. induction fuel as [|fuel IH]; intros size k Hk; cbv zeta; cbn [scale].
  - exists 0%nat. cbn [fst snd]. split; [lia|]. split; [lia|].
    split; [rewrite kib_0; field|]. split; intros; lia.
  - change (length units - 1)%nat with 4%nat.
    destruct (Qle_bool 1024 size) eqn:Hle; cbn [andb].
    + destruct (Nat.ltb_spec k 4) as [_|Hge]; [|lia].
      destruct (IH (size / 1024) (S k) ltac:(lia)) as (j & Hu & Hb & Hs & Hlt & Hone).
      cbv zeta in *. exists (S j). split; [lia|]. split; [exact Hb|].
      split; [|split].
      * rewrite Hs, kib_S. pose proof (kib_pos j). field. lra.
      * exact Hlt.
      * intros _. destruct j as [|j].
        -- rewrite Hs, kib_0. apply Qle_bool_iff in Hle.
           assert (E : size / 1024 / 1 == size / 1024) by field.
           rewrite E. apply Qle_shift_div_l; [reflexivity|]. lra.
        -- apply Hone. lia.
    + exists 0%nat. cbn [fst snd]. split; [lia|]. split; [lia|].
      split; [rewrite kib_0; field|]. split; [|intros; lia].
      intros _. apply Qnot_le_lt. intros H. apply Qle_bool_iff in H. congruence.
Qed.

Lemma tenths_spec (x : Q) :
  0 <= x ->
  inject_Z (Z.of_N (tenths x)) - (1 # 2) <= 10 * x /\
  10 * x < inject_Z (Z.of_N (tenths x)) + (1 # 2).
Proof.
  intros Hx. unfold tenths.
  assert (H0 : (0 <= Qfloor (x * 10 + (1 # 2)))%Z).
  { change 0%Z with (Qfloor 0). apply Qfloor_resp_le. lra. }
  rewrite Z2N.id by exact H0.
  pose proof (Qfloor_le (x * 10 + (1 # 2))) as Hlo.
  pose proof (Qlt_floor (x * 10 + (1 # 2))) as Hhi.
  rewrite inject_Z_plus in Hhi. change (inject_Z 1) with 1 in Hhi.
  split; lra.
Qed.

(** formatFileSize prints "<whole>.<digit> <unit>": the unit is the
    largest of B, KB, MB, GB, TB of which the size holds at least one (B
    below 1024 bytes, TB from 1024^4 bytes on, however large), and the number
    is the size in that unit rounded to the nearest tenth, a half going up. *)
Theorem formatFileSize_spec (bytes : N) :
  (bytes < 2 ^ 53)%N ->
  exists (j : nat) (unit : string) (t : N),
    formatFileSize bytes
    = (decimal (t / 10) +:+ "." +:+ decimal (t mod 10)) +:+ " " +:+ unit /\
    units !! j = Some unit /\
    ((0 < j)%nat -> (1024 ^ Z.of_nat j <= Z.of_N bytes)%Z) /\
    ((j < 4)%nat -> (Z.of_N bytes < 1024 ^ Z.of_nat (S j))%Z) /\
    inject_Z (Z.of_N t) - (1 # 2) <= 10 * (inject_Z (Z.of_N bytes) / kib j) /\
    10 * (inject_Z (Z.of_N bytes) / kib j) < inject_Z (Z.of_N t) + (1 # 2).
Proof.
  intros _. unfold formatFileSize. change (length units - 1)%nat with 4%nat.
  pose proof (scale_spec 4 (inject_Z (Z.of_N bytes)) 0 eq_refl) as H.
  cbv zeta in H. destruct (scale 4 (inject_Z (Z.of_N bytes)) 0) as [size k].
  cbn [fst snd] in H. destruct H as (j & Hk & Hb & Hs & Hlt & Hone).
  cbn [Nat.add] in Hk. subst k.
  assert (Hbytes : 0 <= inject_Z (Z.of_N bytes)).
  { change 0 with (inject_Z 0). rewrite <- Zle_Qle. lia. }
  pose proof (kib_pos j) as Hpos.
  assert (Hsize : 0 <= size).
  { rewrite Hs. apply Qle_shift_div_l; [exact Hpos|]. lra. }
  assert (Hunit : exists unit, units !! j = Some unit /\ nth j units "" = unit).
  { do 5 (destruct j as [|j]; [eexists; split; reflexivity|]). lia. }
  destruct Hunit as (unit & Hlook & Hnth).
  exists j, unit, (tenths size). rewrite Hnth.
  split; [reflexivity|].
  split; [exact Hlook|].
  split; [|split].
  - intros Hj. specialize (Hone Hj). rewrite Hs in Hone.
    rewrite Zle_Qle. fold (kib j).
    apply (Qmult_le_r _ _ (kib j)) in Hone; [|exact Hpos].
    assert (E : inject_Z (Z.of_N bytes) / kib j * kib j == inject_Z (Z.of_N bytes))
      by (field; lra).
    rewrite E in Hone. lra.
  - intros Hj. specialize (Hlt Hj). rewrite Hs in Hlt.
    rewrite Zlt_Qlt. fold (kib (S j)). rewrite kib_S.
    apply (Qmult_lt_r _ _ (kib j)) in Hlt; [|exact Hpos].
    assert (E : inject_Z (Z.of_N bytes) / kib j * kib j == inject_Z (Z.of_N bytes))
      by (field; lra).
    rewrite E in Hlt. lra.
  - destruct (tenths_spec size Hsize) as [Hlo Hhi].
    revert Hs Hlo Hhi. generalize (inject_Z (Z.of_N bytes) / kib j).
    generalize (inject_Z (Z.of_N (tenths size))). intros t x Hs Hlo Hhi.
    split; lra.
Qed.

(** One byte short of a megabyte is still counted in kilobytes, and rounds
    up to "1024.0 KB". *)
Lemma formatFileSize_example :
  formatFileSize 1048575 = "1024.0 KB" /\
  exists (j : nat) (unit : string) (t : N),
    formatFileSize 1048575
    = (decimal (t / 10) +:+ "." +:+ decimal (t mod 10)) +:+ " " +:+ unit /\
    units !! j = Some unit /\
    ((0 < j)%nat -> (1024 ^ Z.of_nat j <= Z.of_N 1048575)%Z) /\
    ((j < 4)%nat -> (Z.of_N 1048575 < 1024 ^ Z.of_nat (S j))%Z) /\
    inject_Z (Z.of_N t) - (1 # 2) <= 10 * (inject_Z (Z.of_N 1048575) / kib j) /\
    10 * (inject_Z (Z.of_N 1048575) / kib j) < inject_Z (Z.of_N t) + (1 # 2).
Proof.
  split; [vm_compute; reflexivity|].
  apply (formatFileSize_spec 1048575). reflexivity.
Defined.

End FileSizeFacts.

(** ** RTIUtils: more on mergeConfig and validateConfig *)
Module ConfigFacts.
Import Constants Utils UtilsNumeric.

Lemma push_if_nil (c : bool) (m : string) (e : list string) :
  push_if c m e = [] <-> c = false /\ e = [].
Proof.
  unfold push_if. destruct c.
  - split; [intros H; destruct e; discriminate H|intros [H _]; discriminate H].
  - tauto.
Qed.

(** On finite numbers the two embeddings of validateConfig are one. *)
Lemma validateNumbers_finite (config : RTIConfig) :
  validateNumbers (checkedNumbers config) = validateConfig config.
Proof. reflexivity. Qed.

(** The two comparisons that guard a range let through NaN and what lies
    in the range, and nothing else. *)
Lemma within_iff (lo hi : Q) (x : Number) :
  Number_lt x (Num lo) = false /\ Number_lt (Num hi) x = false
  <-> NaN_or_within lo hi x.
Proof.
  destruct x as [q| | |]; cbn [Number_lt NaN_or_within].
  - rewrite !Qlt_bool_false_iff. tauto.
  - split; [intros [_ H]; discriminate H|tauto].
  - split; [intros [H _]; discriminate H|tauto].
  - tauto.
Qed.

Lemma at_most_iff (hi : Q) (x : Number) :
  Number_lt (Num hi) x = false <-> NaN_or_at_most hi x.
Proof.
  destruct x as [q| | |]; cbn [Number_lt NaN_or_at_most].
  - apply Qlt_bool_false_iff.
  - split; [discriminate|tauto].
  - tauto.
  - tauto.
Qed.

(** validateConfig reports a configuration valid exactly when each number
    it checks is NaN or lies where it should: the sampling rate in
    [100, 2000], the pressure sensitivity in [0, 1], the confidence threshold
    in [0.5, 0.95], the maximum latency at most 10 and the memory limit at
    most 100.  NaN passes every check, since every comparison with it is
    false; latency and memory limit have no lower bound.  On finite
    numbers this is the validateConfig of [Utils]. *)
Theorem validateConfig_valid_iff (c : CheckedNumbers) (config : RTIConfig) :
  (valid (validateNumbers c) = true <->
   NaN_or_within MIN_SAMPLING_RATE_HZ MAX_SAMPLING_RATE_HZ (n_samplingRate c) /\
   NaN_or_within 0 1 (n_pressureSensitivity c) /\
   NaN_or_within MIN_CONFIDENCE_THRESHOLD MAX_CONFIDENCE_THRESHOLD
                 (n_confidenceThreshold c) /\
   NaN_or_at_most MAX_LATENCY_MS (n_maxLatency c) /\
   NaN_or_at_most MAX_MEMORY_USAGE_MB (n_memoryLimit c)) /\
  validateConfig config = validateNumbers (checkedNumbers config).
Proof.
  split; [|reflexivity].
  unfold validateNumbers. cbn [valid].
  rewrite UtilsFacts.length_zero_iff, !push_if_nil, orb_false_iff.
  rewrite <- !within_iff, <- !at_most_iff. tauto.
Qed.

(** A sampling rate and a confidence threshold that are NaN pass, and so
    does a negative latency budget: only the upper limit is checked. *)
Lemma validateConfig_valid_example :
  valid (validateNumbers (mkChecked NaN (Num 0.5) NaN (Num (-5)) MinusInfinity)) = true /\
  valid (validateNumbers (mkChecked PlusInfinity (Num 0.5) (Num 0.7) (Num 10) (Num 50)))
  = false.
Proof.
  split.
  - apply (validateConfig_valid_iff (mkChecked NaN (Num 0.5) NaN (Num (-5)) MinusInfinity)
                                    DEFAULT_CONFIG).
    cbn. repeat split; discriminate.
  - reflexivity.
Defined.

Lemma length_push_if (c : bool) (m : string) (e : list string) :
  length (push_if c m e) = (length e + if c then 1 else 0)%nat.
Proof.
  unfold push_if. destruct c; [rewrite length_app; reflexivity|lia].
Qed.

(** The two sampling-rate checks exclude each other, and so do the two
    confidence checks: validateConfig reports at most five of its seven
    messages, each at most once. *)
Theorem validateConfig_at_most_five (config : RTIConfig) :
  (length (errors (validateConfig config)) <= 5)%nat /\
  List.NoDup (errors (validateConfig config)).
Proof.
  unfold validateConfig. cbn [errors].
  set (rate := samplingRate (hardware config)).
  set (conf := confidenceThreshold (software config)).
  assert (Hrate : Qlt_bool rate MIN_SAMPLING_RATE_HZ && Qlt_bool MAX_SAMPLING_RATE_HZ rate
                  = false).
  { apply andb_false_iff.
    destruct (Qlt_bool rate MIN_SAMPLING_RATE_HZ) eqn:E; [right|left; reflexivity].
    apply Qlt_bool_iff in E. apply Qlt_bool_false_iff.
    unfold MIN_SAMPLING_RATE_HZ, MAX_SAMPLING_RATE_HZ in *. lra. }
  assert (Hconf : Qlt_bool conf MIN_CONFIDENCE_THRESHOLD
                  && Qlt_bool MAX_CONFIDENCE_THRESHOLD conf = false).
  { apply andb_false_iff.
    destruct (Qlt_bool conf MIN_CONFIDENCE_THRESHOLD) eqn:E; [right|left; reflexivity].
    apply Qlt_bool_iff in E. apply Qlt_bool_false_iff.
    unfold MIN_CONFIDENCE_THRESHOLD, MAX_CONFIDENCE_THRESHOLD in *. lra. }
  revert Hrate Hconf.
  generalize (Qlt_bool rate MIN_SAMPLING_RATE_HZ) (Qlt_bool MAX_SAMPLING_RATE_HZ rate)
             (Qlt_bool conf MIN_CONFIDENCE_THRESHOLD) (Qlt_bool MAX_CONFIDENCE_THRESHOLD conf)
             (Qlt_bool (pressureSensitivity (hardware config)) 0
              || Qlt_bool 1 (pressureSensitivity (hardware config)))
             (Qlt_bool MAX_LATENCY_MS (maxLatency (performance config)))
             (Qlt_bool MAX_MEMORY_USAGE_MB (memoryLimit (performance config))).
  intros b1 b2 b4 b5 b3 b6 b7 Hrate Hconf.
  destruct b1, b2; try discriminate Hrate;
    destruct b4, b5; try discriminate Hconf;
    destruct b3, b6, b7; cbn;
    (split; [lia|]);
    repeat (constructor; [cbn; intuition discriminate|]); constructor.
Qed.

(** Applying the same override twice is applying it once, and an override
    that holds no section changes nothing. *)
Theorem mergeConfig_idempotent (base : RTIConfig) (o : RTIConfigOverride) :
  mergeConfig (mergeConfig base (Some o)) (Some o) = mergeConfig base (Some o) /\
  mergeConfig base (Some (mkConfigO None None None None)) = base.
Proof.
  split; [|reflexivity].
  rewrite !UtilsFacts.mergeConfig_sections.
  destruct o as [[[a1 a2 a3 a4]|] [[b1 b2 b3 b4]|] [[c1 c2 c3 c4]|] [[d1 d2 d3 d4]|]];
    cbn; f_equal;
    unfold spreadHardware, spreadSoftware, spreadPrivacy, spreadPerformance; cbn; f_equal;
    match goal with
    | |- overlay ?x _ = _ => destruct x; reflexivity
    end.
Qed.

End ConfigFacts.

(** ** The Genesis profile manager: patterns, settings, export and import *)
Module GenesisOpsFacts.
Import Genesis GenesisOps.

(** *** Looking a pattern up by its identifier *)

Lemma findIndex_None (patternId : string) (arr : list EmotionalPattern) :
  findIndex patternId arr = None <-> ~ In patternId (List.map id arr).
Proof.
  induction arr as [|x r IH]; cbn; [tauto|].
  destruct (String.eqb_spec (id x) patternId) as [Heq|Hne].
  - split; [discriminate|]. intros H. exfalso. apply H. left. exact Heq.
  - destruct (findIndex patternId r); cbn.
    + split; [discriminate|]. intros H. exfalso.
      assert (Hr : ~ In patternId (List.map id r)) by tauto.
      apply IH in Hr. discriminate Hr.
    + split; [|reflexivity]. intros _ [H|H]; [exact (Hne H)|].
      apply (proj1 IH eq_refl H).
Qed.

(** The index found is that of the first pattern with the identifier. *)
Lemma findIndex_first (patternId : string) (before after : list EmotionalPattern)
    (x : EmotionalPattern) :
  ~ In patternId (List.map id before) -> id x = patternId ->
  findIndex patternId (before ++ x :: after) = Some (length before).
Proof.
  intros Hnot Hx. induction before as [|y r IH]; cbn.
  - rewrite Hx, String.eqb_refl. reflexivity.
  - destruct (String.eqb_spec (id y) patternId) as [Heq|Hne].
    + exfalso. apply Hnot. left. exact Heq.
    + rewrite IH; [reflexivity|]. intros H. apply Hnot. right. exact H.
Qed.

Lemma findIndex_Some (patternId : string) (arr : list EmotionalPattern) (i : nat) :
  findIndex patternId arr = Some i ->
  exists before x after,
    arr = before ++ x :: after /\ length before = i /\ id x = patternId /\
    ~ In patternId (List.map id before).
Proof.
  revert i. induction arr as [|y r IH]; intros i; cbn; [discriminate|].
  destruct (String.eqb_spec (id y) patternId) as [Heq|Hne].
  - intros [= <-]. exists [], y, r. cbn. tauto.
  - destruct (findIndex patternId r) as [j|]; cbn; [|discriminate].
    intros [= <-]. destruct (IH j eq_refl) as (b & x & a & -> & Hl & Hx & Hn).
    exists (y :: b), x, a. cbn. repeat split; [lia|exact Hx|].
    intros [H|H]; [exact (Hne H)|exact (Hn H)].
Qed.

Lemma alter_middle (f : EmotionalPattern -> EmotionalPattern)
    (before after : list EmotionalPattern) (x : EmotionalPattern) :
  alter f (length before) (before ++ x :: after) = before ++ f x :: after.
Proof. induction before as [|y r IH]; cbn; [reflexivity|]. f_equal. exact IH. Qed.

Lemma delete_middle (before after : list EmotionalPattern) (x : EmotionalPattern) :
  delete (length before) (before ++ x :: after) = before ++ after.
Proof. induction before as [|y r IH]; cbn; [reflexivity|]. f_equal. exact IH. Qed.

(** *** Updating and removing *)

(** updateEmotionalPattern and removeEmotionalPattern with an identifier
    that no stored pattern has change nothing at all: neither the store nor
    the profile, whose updatedAt is not even stamped, since nothing is
    saved. *)
Theorem unknown_pattern_is_ignored (patternId : string) (updates : PartialPattern) (now : Z)
    (p : GenesisProfile) (h : Heap) :
  ~ In patternId (List.map id (deref h (emotionalFingerprint p))) ->
  updateEmotionalPattern patternId updates now p h = (h, p) /\
  removeEmotionalPattern patternId now p h = (h, p).
Proof.
  intros Hnot. apply findIndex_None in Hnot.
  unfold updateEmotionalPattern, removeEmotionalPattern. rewrite Hnot. split; reflexivity.
Qed.

Lemma unknown_pattern_example :
  updateEmotionalPattern "zz" (mkPartialPattern None None None None (Some 1) None None) 50
                         example_profile example_store
  = (example_store, example_profile).
Proof.
  apply (unknown_pattern_is_ignored
           "zz" (mkPartialPattern None None None None (Some 1) None None) 50
           example_profile example_store).
  vm_compute. intuition discriminate.
Defined.

Lemma remove_takes_the_first (patternId : string) (now : Z)
    (p : GenesisProfile) (h : Heap) (before after : list EmotionalPattern)
    (x : EmotionalPattern) :
  h !! emotionalFingerprint p = Some (before ++ x :: after) ->
  ~ In patternId (List.map id before) ->
  id x = patternId ->
  removeEmotionalPattern patternId now p h
  = (<[emotionalFingerprint p := before ++ after]> h, saveProfile now p).
Proof.
  intros Hfp Hnot Hx.
  unfold removeEmotionalPattern, Array_splice1, deref.
  rewrite Hfp. cbn [default from_option Datatypes.id].
  rewrite (findIndex_first patternId before after x Hnot Hx), delete_middle.
  reflexivity.
Qed.

(** updateEmotionalPattern and removeEmotionalPattern act on the first
    stored pattern that has the identifier and on no other: the update
    replaces it by the overlay of the updates, with lastObserved set to the
    time of the call whatever the updates say; the removal takes it out;
    the patterns before and after keep their places, every other array of
    the store is untouched, and the profile is saved (updatedAt stamped). *)
Theorem known_pattern_is_the_first (patternId : string) (updates : PartialPattern) (now : Z)
    (p : GenesisProfile) (h : Heap) (before after : list EmotionalPattern)
    (x : EmotionalPattern) :
  h !! emotionalFingerprint p = Some (before ++ x :: after) ->
  ~ In patternId (List.map id before) ->
  id x = patternId ->
  updateEmotionalPattern patternId updates now p h
  = (<[emotionalFingerprint p := before ++ mergePattern updates now x :: after]> h,
     saveProfile now p) /\
  lastObserved (mergePattern updates now x) = now /\
  removeEmotionalPattern patternId now p h
  = (<[emotionalFingerprint p := before ++ after]> h, saveProfile now p).
Proof.
  intros Hfp Hnot Hx.
  unfold updateEmotionalPattern, removeEmotionalPattern, Array_update, Array_splice1, deref.
  rewrite Hfp. cbn [default from_option Datatypes.id].
  rewrite (findIndex_first patternId before after x Hnot Hx).
  rewrite alter_middle, delete_middle. repeat split.
Qed.

(** At the example store, updating the confidence of "d" (the fourth of
    five patterns) and removing "d". *)
Lemma known_pattern_example :
  let updates := mkPartialPattern None None None None (Some 1) None None in
  List.map (fun x => (id x, lastObserved x))
    (deref (updateEmotionalPattern "d" updates 50 example_profile example_store).1 0%nat)
  = [("a", 0%Z); ("b", 0%Z); ("c", 0%Z); ("d", 50%Z); ("e", 0%Z)] /\
  List.map id (deref (removeEmotionalPattern "d" 50 example_profile example_store).1 0%nat)
  = ["a"; "b"; "c"; "e"].
Proof.
  intros updates.
  destruct (known_pattern_is_the_first
              "d" updates 50 example_profile example_store
              [ example_pattern "a" "joy" 0.5 0.6; example_pattern "b" "joy" 0.6 0.9;
                example_pattern "c" "anger" 0.5 1 ]
              [ example_pattern "e" "joy" 0.9 0.95 ]
              (example_pattern "d" "joy" 0.4 0.6) eq_refl)
    as (Hup & _ & Hrm).
  - vm_compute. intuition discriminate.
  - reflexivity.
  - rewrite Hup, Hrm. split; reflexivity.
Defined.

(** *** Adding *)

Lemma push_lookup (x : EmotionalPattern) (arr : loc) (h : Heap)
    (stored : list EmotionalPattern) :
  h !! arr = Some stored -> Array_push x arr h = <[arr := stored ++ [x]]> h.
Proof. intros H. unfold Array_push, deref. rewrite H. reflexivity. Qed.

(** Adding a pattern and then removing it by the identifier it was given
    puts the store back exactly as it was, provided no stored pattern already
    had that identifier; if one had, the removal takes that older pattern out
    and the new one stays. *)
Theorem add_then_remove (pattern : EmotionalPattern) (uuid : string) (now now' : Z)
    (p : GenesisProfile) (h : Heap) (stored : list EmotionalPattern) :
  h !! emotionalFingerprint p = Some stored ->
  let '(h1, p1) := addEmotionalPattern pattern uuid now p h in
  let '(h2, p2) := removeEmotionalPattern uuid now' p1 h1 in
  h1 !! emotionalFingerprint p = Some (stored ++ [stampPattern pattern uuid now]) /\
  p2 = saveProfile now' p /\
  (~ In uuid (List.map id stored) -> h2 = h) /\
  (forall before x after,
      stored = before ++ x :: after -> ~ In uuid (List.map id before) -> id x = uuid ->
      h2 !! emotionalFingerprint p
      = Some (before ++ after ++ [stampPattern pattern uuid now])).
Proof.
  intros Hfp. unfold addEmotionalPattern. rewrite (push_lookup _ _ _ _ Hfp).
  set (new := stampPattern pattern uuid now).
  assert (Hfp1 : <[emotionalFingerprint p := stored ++ [new]]> h
                 !! emotionalFingerprint (saveProfile now p) = Some (stored ++ [new]))
    by apply lookup_insert_eq.
  destruct (In_dec String.string_dec uuid (List.map id stored)) as [Hin|Hnot].
  - assert (Hsome : exists i, findIndex uuid stored = Some i).
    { destruct (findIndex uuid stored) as [i|] eqn:E; [eauto|].
      apply findIndex_None in E. contradiction. }
    destruct Hsome as [i Hi].
    destruct (findIndex_Some uuid stored i Hi) as (b & x & a & Hst & _ & Hx & Hn).
    assert (Hst' : stored ++ [new] = b ++ x :: (a ++ [new])).
    { rewrite Hst, <- app_assoc. reflexivity. }
    rewrite Hst' in Hfp1 |- *.
    pose proof (remove_takes_the_first uuid now' (saveProfile now p) _ b (a ++ [new]) x
                Hfp1 Hn Hx) as Hrm.
    rewrite Hrm. cbn [emotionalFingerprint saveProfile].
    split; [apply lookup_insert_eq|]. split; [reflexivity|].
    split; [intros H; contradiction|].
    intros b' x' a' Hst2 Hn' Hx'.
    rewrite insert_insert_eq, lookup_insert_eq.
    assert (Hb : b' = b /\ a' = a).
    { assert (E1 : findIndex uuid (b' ++ x' :: a') = Some (length b'))
        by (apply findIndex_first; assumption).
      assert (E2 : findIndex uuid (b ++ x :: a) = Some (length b))
        by (apply findIndex_first; assumption).
      rewrite <- Hst2, Hst in E1. rewrite E2 in E1. injection E1 as E1.
      rewrite Hst in Hst2. apply app_inj_1 in Hst2; [|exact E1].
      destruct Hst2 as [-> Heq]. injection Heq as _ ->. split; reflexivity. }
    destruct Hb as [-> ->]. reflexivity.
  - assert (Hnew : id new = uuid) by reflexivity.
    pose proof (remove_takes_the_first uuid now' (saveProfile now p) _ stored [] new
                Hfp1 Hnot Hnew) as Hrm.
    rewrite Hrm. cbn [emotionalFingerprint saveProfile].
    split; [apply lookup_insert_eq|]. split; [reflexivity|].
    split.
    + intros _. rewrite insert_insert_eq, app_nil_r. apply insert_id, Hfp.
    + intros b x a Hst Hn Hx. exfalso. apply Hnot. rewrite Hst, List.map_app.
      apply in_or_app. right. left. exact Hx.
Qed.

(** At the example store, with an identifier no stored pattern has. *)
Lemma add_then_remove_example :
  let '(h1, p1) :=
    addEmotionalPattern (example_pattern "" "calm" 0.5 0.7) "n1" 60
                        example_profile example_store in
  let '(h2, p2) := removeEmotionalPattern "n1" 61 p1 h1 in
  h2 = example_store.
Proof.
  pose proof (add_then_remove (example_pattern "" "calm" 0.5 0.7) "n1" 60 61
                              example_profile example_store example_patterns eq_refl) as H.
  destruct (addEmotionalPattern _ _ _ _ _) as [h1 p1].
  destruct (removeEmotionalPattern _ _ _ _) as [h2 p2].
  destruct H as (_ & _ & H & _). apply H.
  vm_compute. intuition discriminate.
Defined.

(** A query made before a pattern is added keeps its result: the array it
    returned is its own, which neither the addition nor a later query
    touches.  The same query made after the addition returns the same list
    when the new pattern does not match; when it matches, the list gains the
    new pattern, stays in descending order of confidence, and among the
    patterns of its confidence the new one comes last. *)
Theorem added_pattern_ranks_after_its_equals (pattern : EmotionalPattern) (uuid : string)
    (now : Z) (p : GenesisProfile) (q : Query) (h : Heap) (stored : list EmotionalPattern) :
  h !! emotionalFingerprint p = Some stored ->
  let new := stampPattern pattern uuid now in
  let '(h0, r0) := findMatchingPatterns p q h in
  let '(h1, p1) := addEmotionalPattern pattern uuid now p h0 in
  let '(h2, r) := findMatchingPatterns p1 q h1 in
  let earlier := deref h0 r0 in
  let later := deref h2 r in
  deref h2 r0 = earlier /\
  (matchesPattern q new = false -> later = earlier) /\
  (matchesPattern q new = true ->
   Permutation later (new :: earlier) /\
   StronglySorted (descending confidence) later /\
   List.filter (hasConfidence (confidence new)) later
   = List.filter (hasConfidence (confidence new)) earlier ++ [new]).
Proof.
  intros Hfp new.
  destruct (GenesisFacts.findMatchingPatterns_run p q h stored Hfp) as (r0 & Hr0 & ->).
  set (res0 := array_sort byConfidence (List.filter (matchesPattern q) stored)).
  assert (Hne0 : r0 <> emotionalFingerprint p) by congruence.
  assert (Hfp0 : <[r0 := res0]> h !! emotionalFingerprint p = Some stored)
    by (rewrite lookup_insert_ne by exact Hne0; exact Hfp).
  unfold addEmotionalPattern. rewrite (push_lookup _ _ _ _ Hfp0). fold new.
  set (h1 := <[emotionalFingerprint p := stored ++ [new]]> (<[r0 := res0]> h)).
  assert (Hfp1 : h1 !! emotionalFingerprint (saveProfile now p) = Some (stored ++ [new]))
    by apply lookup_insert_eq.
  destruct (GenesisFacts.findMatchingPatterns_run (saveProfile now p) q h1 _ Hfp1)
    as (r & Hr & ->).
  assert (Hr0' : h1 !! r0 = Some res0).
  { subst h1. rewrite lookup_insert_ne by congruence. apply lookup_insert_eq. }
  assert (Hne : r <> r0) by congruence.
  cbn zeta. unfold deref. rewrite !lookup_insert_eq, lookup_insert_ne by exact Hne.
  rewrite Hr0'. cbn [default from_option Datatypes.id].
  rewrite List.filter_app. cbn [List.filter].
  split; [reflexivity|]. split.
  - intros ->. rewrite app_nil_r. reflexivity.
  - intros ->. split; [|split].
    + rewrite <- array_sort_perm. subst res0. rewrite <- array_sort_perm.
      rewrite Permutation_app_comm. reflexivity.
    + apply array_sort_sorted, GenesisFacts.byConfidence_key.
    + subst res0. rewrite !array_sort_stable by apply GenesisFacts.hasConfidence_ties.
      rewrite List.filter_app. cbn [List.filter].
      unfold hasConfidence at 2. rewrite (proj2 (Qeq_bool_iff _ _) (Qeq_refl _)).
      reflexivity.
Qed.

(** At the example store: a new "joy" pattern of confidence 0.6 goes after
    the stored "a" and "d" of that confidence. *)
Lemma added_pattern_example :
  let '(h0, r0) := findMatchingPatterns example_profile example_query example_store in
  let '(h1, p1) :=
    addEmotionalPattern (example_pattern "" "joy" 0.5 0.6) "n1" 60 example_profile h0 in
  let '(h2, r) := findMatchingPatterns p1 example_query h1 in
  List.map id (deref h2 r0) = ["b"; "a"; "d"] /\
  List.map id (deref h2 r) = ["b"; "a"; "d"; "n1"].
Proof.
  pose proof (added_pattern_ranks_after_its_equals
                (example_pattern "" "joy" 0.5 0.6) "n1" 60 example_profile example_query
                example_store example_patterns eq_refl) as H.
  cbn zeta in H.
  destruct (findMatchingPatterns example_profile example_query example_store) as [h0 r0] eqn:E0.
  destruct (addEmotionalPattern _ _ _ _ h0) as [h1 p1] eqn:E1.
  destruct (findMatchingPatterns p1 _ h1) as [h2 r] eqn:E2.
  destruct H as (Hsnap & _).
  rewrite Hsnap.
  vm_compute in E0. injection E0 as <- <-.
  vm_compute in E1. injection E1 as <- <-.
  vm_compute in E2. injection E2 as <- <-.
  split; vm_compute; reflexivity.
Defined.

(** exportProfile(true) and getProfile() hand out the profile's own pattern
    array, not a copy: a pattern added afterwards shows in what was
    exported. *)
Theorem export_shares_the_fingerprint (pattern : EmotionalPattern) (uuid : string) (now : Z)
    (p : GenesisProfile) (h : Heap) (stored : list EmotionalPattern) :
  h !! emotionalFingerprint p = Some stored ->
  let exported := exportProfile true p in
  let copy := getProfile p in
  let '(h1, p1) := addEmotionalPattern pattern uuid now p h in
  (exists arr, o_emotionalFingerprint exported = Some arr /\
               deref h arr = stored /\
               deref h1 arr = stored ++ [stampPattern pattern uuid now]) /\
  deref h1 (emotionalFingerprint copy) = stored ++ [stampPattern pattern uuid now].
Proof.
  intros Hfp. unfold addEmotionalPattern. rewrite (push_lookup _ _ _ _ Hfp). cbn zeta.
  unfold getProfile, deref. split.
  - exists (emotionalFingerprint p). rewrite lookup_insert_eq, Hfp. repeat split.
  - rewrite lookup_insert_eq. reflexivity.
Qed.

Lemma export_shares_example :
  let exported := exportProfile true example_profile in
  let '(h1, p1) :=
    addEmotionalPattern (example_pattern "" "joy" 0.5 0.6) "n1" 60
                        example_profile example_store in
  exists arr, o_emotionalFingerprint exported = Some arr /\
              List.map id (deref h1 arr) = ["a"; "b"; "c"; "d"; "e"; "n1"].
Proof.
  pose proof (export_shares_the_fingerprint
                (example_pattern "" "joy" 0.5 0.6) "n1" 60 example_profile example_store
                example_patterns eq_refl) as H.
  cbn zeta in H.
  destruct (addEmotionalPattern _ _ _ _ _) as [h1 p1].
  destruct H as [(arr & He & _ & Hd) _].
  exists arr. split; [exact He|]. rewrite Hd. reflexivity.
Defined.

(** *** Export and import *)

(** Importing a full export of another profile takes over everything but
    the user identifier, the pattern array included (by reference, so the
    two profiles then share it); the creation time is kept when merging and
    taken over when not; arrays already in the store are untouched.
    Importing a profile's own full export changes nothing but updatedAt. *)
Theorem import_of_full_export (merge : bool) (now : Z) (p other : GenesisProfile) (h : Heap) :
  let '(h', p') := importProfile (exportProfile true other) merge now p h in
  p' = {| userId := userId p;
          displayName := displayName other;
          emotionalFingerprint := emotionalFingerprint other;
          resonancePreferences := resonancePreferences other;
          privacySettings := privacySettings other;
          learningData := learningData other;
          createdAt := if merge then createdAt p else createdAt other;
          updatedAt := now;
          version := version other |} /\
  (forall l, is_Some (h !! l) -> h' !! l = h !! l) /\
  (other = p -> p' = saveProfile now p).
Proof.
  destruct merge; cbn.
  - split; [reflexivity|]. split; [reflexivity|]. intros ->. reflexivity.
  - split; [reflexivity|]. split.
    + intros l Hl. apply lookup_insert_ne. intros <-.
      apply elem_of_dom in Hl. exact (is_fresh (dom h) Hl).
    + intros ->. reflexivity.
Qed.

(** *** Personalised settings *)

Lemma sorted_head_is_max (l : list EmotionalPattern) (top : EmotionalPattern)
    (rest : list EmotionalPattern) :
  StronglySorted (descending confidence) l -> l = top :: rest ->
  forall x, In x l -> confidence x <= confidence top.
Proof.
  intros Hs -> x [<-|Hin]; [apply Qle_refl|].
  apply StronglySorted_inv in Hs. destruct Hs as [_ Hall].
  rewrite List.Forall_forall in Hall. exact (Hall x Hin).
Qed.

(** getPersonalizedResonance probes the stored patterns with intensity,
    pressure and thermal 0.5.  When none matches it returns the stored
    preferences whole.  Otherwise it returns only a sensitivity and a
    response speed, both taken from one matching pattern: the one of highest
    confidence, and of these the one stored first; the speed is fast exactly
    when that confidence is above 0.8, and a pulse correlation that is
    missing or 0 counts as 0.5.  The stored patterns are left as they are. *)
Theorem getPersonalizedResonance_uses_the_top_pattern (emotion : string)
    (p : GenesisProfile) (h : Heap) (stored : list EmotionalPattern) :
  h !! emotionalFingerprint p = Some stored ->
  let matching := List.filter (matchesPattern (probe emotion)) stored in
  let '(h', settings) := getPersonalizedResonance emotion p h in
  h' !! emotionalFingerprint p = Some stored /\
  (matching = [] ->
   settings = {| u_preferredModes := Some (preferredModes (resonancePreferences p));
                 u_formPreferences := Some (formPreferences (resonancePreferences p));
                 u_sensitivity := Some (sensitivity (resonancePreferences p));
                 u_responseSpeed := Some (responseSpeed (resonancePreferences p));
                 u_hapticFeedback := Some (hapticFeedback (resonancePreferences p)) |}) /\
  (matching <> [] ->
   exists top,
     In top matching /\
     (forall x, In x matching -> confidence x <= confidence top) /\
     head (List.filter (hasConfidence (confidence top)) matching) = Some top /\
     settings =
       {| u_preferredModes := None;
          u_formPreferences := None;
          u_sensitivity :=
            Some {| pressure := pressureSensitivity (characteristics top);
                    thermal := thermalSignature (characteristics top);
                    pulse := or_half (pulseCorrelation (characteristics top)) |};
          u_responseSpeed := Some (if Qlt_bool 0.8 (confidence top) then fast else normal);
          u_hapticFeedback := None |} /\
     (u_responseSpeed settings = Some fast <-> 0.8 < confidence top)).
Proof.
  intros Hfp matching. unfold getPersonalizedResonance. fold (probe emotion).
  destruct (GenesisFacts.findMatchingPatterns_run p (probe emotion) h stored Hfp)
    as (r & Hr & ->).
  fold matching. unfold deref. rewrite lookup_insert_eq.
  cbn [default from_option Datatypes.id].
  assert (Hfp' : <[r := array_sort byConfidence matching]> h !! emotionalFingerprint p
                 = Some stored).
  { rewrite lookup_insert_ne by congruence. exact Hfp. }
  pose proof (array_sort_perm byConfidence matching) as Hperm.
  pose proof (array_sort_sorted byConfidence confidence GenesisFacts.byConfidence_key matching)
    as Hsorted.
  destruct (array_sort byConfidence matching) as [|top rest] eqn:Es.
  - split; [exact Hfp'|]. split; [reflexivity|].
    intros Hne. exfalso. apply Hne. apply Permutation_nil. symmetry. exact Hperm.
  - split; [exact Hfp'|]. split.
    + intros Hnil. rewrite Hnil in Hperm. apply Permutation_nil in Hperm. discriminate Hperm.
    + intros _. exists top.
      split; [apply (Permutation_in top (Permutation_sym Hperm)); left; reflexivity|].
      split.
      { intros x Hx. apply (sorted_head_is_max (top :: rest) top rest Hsorted eq_refl).
        apply (Permutation_in x Hperm Hx). }
      split.
      { rewrite <- (array_sort_stable byConfidence (hasConfidence (confidence top)) matching)
          by apply GenesisFacts.hasConfidence_ties.
        rewrite Es. cbn [List.filter]. unfold hasConfidence at 1.
        rewrite (proj2 (Qeq_bool_iff _ _) (Qeq_refl _)). reflexivity. }
      split; [reflexivity|].
      cbn [u_responseSpeed]. rewrite <- Qlt_bool_iff.
      destruct (Qlt_bool 0.8 (confidence top)); split; intros H;
        first [reflexivity | discriminate H | injection H as H; discriminate H].
Qed.

(** At the example store, "joy" is answered from "b" (confidence 0.9, so
    fast), and an emotion with no stored pattern gets the stored
    preferences. *)
Lemma getPersonalizedResonance_example :
  u_responseSpeed (getPersonalizedResonance "joy" example_profile example_store).2
    = Some fast /\
  u_preferredModes (getPersonalizedResonance "fear" example_profile example_store).2
    = Some ["creation"; "alteration"].
Proof.
  pose proof (getPersonalizedResonance_uses_the_top_pattern
                "fear" example_profile example_store example_patterns eq_refl) as H.
  cbn zeta in H.
  destruct (getPersonalizedResonance "fear" example_profile example_store) as [h' s].
  destruct H as (_ & Hnone & _).
  split; [vm_compute; reflexivity|].
  rewrite Hnone; reflexivity.
Defined.

(** *** Learning adjustments *)

Lemma recordAdjustments_snoc (calls : list (string * Q * Z)) (c : string * Q * Z)
    (p : GenesisProfile) :
  recordAdjustments (calls ++ [c]) p
  = recordLearningAdjustment c.1.1 c.1.2 c.2 (recordAdjustments calls p).
Proof. unfold recordAdjustments. rewrite fold_left_app. reflexivity. Qed.

(** recordLearningAdjustment keeps the sample count in step with the log:
    after any number of calls the count has grown by the number of calls and
    the log by one entry per call, in call order, each stamped with the time
    of its call; the last call's time is lastTraining and updatedAt; the
    learning rate and the accuracy, like the rest of the profile, are
    untouched. *)
Theorem learning_log_counts_samples (calls : list (string * Q * Z)) (p : GenesisProfile) :
  let p' := recordAdjustments calls p in
  trainingSamples (learningData p') = (trainingSamples (learningData p) + length calls)%nat /\
  adjustments (learningData p')
  = adjustments (learningData p)
    ++ List.map (fun c => mkAdjustment c.1.1 c.1.2 c.2) calls /\
  lastTraining (learningData p') = List.last (List.map snd calls) (lastTraining (learningData p)) /\
  updatedAt p' = List.last (List.map snd calls) (updatedAt p) /\
  learningRate (learningData p') = learningRate (learningData p) /\
  accuracy (learningData p') = accuracy (learningData p) /\
  (userId p', displayName p', emotionalFingerprint p', resonancePreferences p',
   privacySettings p', createdAt p', version p')
  = (userId p, displayName p, emotionalFingerprint p, resonancePreferences p,
     privacySettings p, createdAt p, version p).
Proof.
  induction calls as [|c calls IH] using rev_ind.
  - cbn. rewrite app_nil_r, Nat.add_0_r. repeat split.
  - rewrite recordAdjustments_snoc. cbn zeta in *.
    destruct IH as (I1 & I2 & I3 & I4 & I5 & I6 & I7).
    cbn [recordLearningAdjustment saveProfile with_learningData learningData
         trainingSamples adjustments lastTraining updatedAt learningRate accuracy
         userId displayName emotionalFingerprint resonancePreferences privacySettings
         createdAt version].
    rewrite !List.map_app. cbn [List.map]. rewrite !List.last_last.
    split; [rewrite I1, length_app; cbn; lia|].
    split; [rewrite I2, <- app_assoc; reflexivity|].
    split; [reflexivity|]. split; [reflexivity|].
    split; [exact I5|]. split; [exact I6|exact I7].
Qed.

(** *** Clearing *)

(** clearProfile puts a default profile for the same user in place, on a new
    empty pattern array: every query on it finds nothing.  The old array
    stays in the store with its patterns, so whoever holds it (an earlier
    export) still sees them. *)
Theorem clearProfile_starts_afresh (now : Z) (p : GenesisProfile) (h : Heap) (q : Query) :
  let '(h1, p1) := clearProfile now p h in
  let '(h2, r) := findMatchingPatterns p1 q h1 in
  userId p1 = userId p /\
  p1 = (createDefaultProfile (userId p) now h).2 /\
  h !! emotionalFingerprint p1 = None /\
  h1 !! emotionalFingerprint p1 = Some [] /\
  (forall l, is_Some (h !! l) -> h1 !! l = h !! l) /\
  deref h2 r = [].
Proof.
  unfold clearProfile, createDefaultProfile, alloc. cbn zeta.
  set (fp := fresh (dom h)).
  assert (Hfresh : h !! fp = None) by apply not_elem_of_dom, is_fresh.
  set (p1 := saveProfile now _).
  assert (Hfp1 : <[fp := []]> h !! emotionalFingerprint p1 = Some [])
    by apply lookup_insert_eq.
  destruct (GenesisFacts.findMatchingPatterns_run p1 q _ [] Hfp1) as (r & Hr & ->).
  split; [reflexivity|]. split; [reflexivity|]. split; [exact Hfresh|].
  split; [exact Hfp1|]. split.
  - intros l Hl. apply lookup_insert_ne. intros <-. rewrite Hfresh in Hl.
    destruct Hl as [? Hl]. discriminate Hl.
  - unfold deref. rewrite lookup_insert_eq. reflexivity.
Qed.

End GenesisOpsFacts.

(** ** The orchestrator: accuracy, latency window and usage table *)
Module StatsFacts.
Import Constants Orchestrator Lifecycle.

(** *** The accuracy average *)

Lemma accuracy_step (c : Q) (st : RTI) :
  recognitionAccuracy (stats (updateRecognitionAccuracy c st)) - c
  == 0.9 * (recognitionAccuracy (stats st) - c).
Proof. cbn. ring. Qed.

Lemma recordConfidences_snoc (cs : list Q) (c : Q) (st : RTI) :
  recordConfidences (cs ++ [c]) st = updateRecognitionAccuracy c (recordConfidences cs st).
Proof. unfold recordConfidences. rewrite fold_left_app. reflexivity. Qed.

(** Each call of updateRecognitionAccuracy moves the accuracy a tenth of
    the way to the confidence: the distance to it shrinks by the factor 0.9.
    So an accuracy in [0, 1] fed confidences in [0, 1] stays in [0, 1], and
    after n calls with the same confidence the distance to that confidence
    is 0.9^n times what it was. *)
Theorem accuracy_is_a_moving_average (confidences : list Q) (c : Q) (n : nat) (st : RTI) :
  let a := recognitionAccuracy (stats st) in
  recognitionAccuracy (stats (updateRecognitionAccuracy c st)) - c == 0.9 * (a - c) /\
  (0 <= a /\ a <= 1 ->
   (forall x, In x confidences -> 0 <= x /\ x <= 1) ->
   0 <= recognitionAccuracy (stats (recordConfidences confidences st)) /\
   recognitionAccuracy (stats (recordConfidences confidences st)) <= 1) /\
  recognitionAccuracy (stats (recordConfidences (repeat c n) st)) - c
  == 0.9 ^ Z.of_nat n * (a - c).
Proof.
  cbn zeta. split; [apply accuracy_step|]. split.
  - intros Ha Hall. induction confidences as [|x cs IH] using rev_ind; [exact Ha|].
    rewrite recordConfidences_snoc.
    assert (Hcs : forall y, In y cs -> 0 <= y /\ y <= 1).
    { intros y Hy. apply Hall, in_or_app. left. exact Hy. }
    specialize (IH Hcs).
    assert (Hx : 0 <= x /\ x <= 1).
    { apply Hall, in_or_app. right. left. reflexivity. }
    pose proof (accuracy_step x (recordConfidences cs st)) as Hstep.
    set (a' := recognitionAccuracy (stats (updateRecognitionAccuracy x _))) in *.
    set (a0 := recognitionAccuracy (stats (recordConfidences cs st))) in *.
    lra.
  - induction n as [|n IH].
    + unfold recordConfidences. cbn [repeat fold_left].
      change (0.9 ^ Z.of_nat 0) with 1. ring.
    + replace (repeat c (S n)) with (repeat c n ++ [c])
        by (symmetry; apply (repeat_cons n c)).
      rewrite recordConfidences_snoc, accuracy_step, IH.
      rewrite Nat2Z.inj_succ, <- Z.add_1_r, Qpower_plus by discriminate.
      change (0.9 ^ 1) with 0.9. generalize (0.9 ^ Z.of_nat n). intros k. ring.
Qed.

(** On a new instance (accuracy 0), three recognitions of confidence 0.8
    give 0.8 * (1 - 0.9^3) = 0.2168. *)
Lemma accuracy_example :
  recognitionAccuracy (stats (recordConfidences [0.8; 0.8; 0.8] (constructed 0))) == 0.2168 /\
  0 <= recognitionAccuracy (stats (recordConfidences [0.8; 0.8; 0.8] (constructed 0))).
Proof.
  destruct (accuracy_is_a_moving_average [0.8; 0.8; 0.8] 0.8 3 (constructed 0))
    as (_ & Hrange & _).
  split; [reflexivity|].
  apply Hrange.
  - split; discriminate.
  - intros x Hx. cbn in Hx. intuition (subst; discriminate).
Defined.

(** *** The latency window, for any number of measurements *)

Lemma lastN_all {A : Type} (n : nat) (l : list A) : (length l <= n)%nat -> lastN n l = l.
Proof. apply OrchestratorFacts.lastN_short. Qed.

Lemma emitted_after_update (x : Q) (now : Z) (st : RTI) :
  length (emitted (updatePerformanceMetrics x now st)) = S (length (emitted st)).
Proof. cbn. rewrite length_app. cbn. lia. Qed.

(** On a new instance, after any number of measurements the window holds
    the last 100 of them, all of them while there are at most 100; from the
    first measurement on, the average latency (stored and in the status) is
    the arithmetic mean of the window, the sum of its entries
    [x1 + (x2 + (... + 0))] over their number, and the last latency is the
    latest measurement; one performance update is published per measurement
    and nothing else. *)
Theorem latency_window_any_length (samples : list (Q * Z)) (now : Z) :
  let st' := recordLatencies samples (constructed now) in
  let window := latencySamples (performanceMetrics st') in
  window = lastN 100 (List.map fst samples) /\
  length window = Nat.min 100 (length samples) /\
  ((length samples <= 100)%nat -> window = List.map fst samples) /\
  (forall earlier s, samples = earlier ++ [s] ->
     averageLatency (performanceMetrics st')
     == fold_right Qplus 0 window / inject_Z (Z.of_nat (length window)) /\
     latency (status_performance st')
     == fold_right Qplus 0 window / inject_Z (Z.of_nat (length window)) /\
     lastLatency (performanceMetrics st') = s.1) /\
  length (emitted st') = length samples /\
  status st' = INITIALIZING.
Proof.
  cbn zeta.
  assert (Hw : latencySamples (performanceMetrics (recordLatencies samples (constructed now)))
               = lastN 100 (List.map fst samples)).
  { rewrite OrchestratorFacts.window_after_record by (cbn; lia). reflexivity. }
  split; [exact Hw|]. split; [rewrite Hw, OrchestratorFacts.lastN_length, length_map; lia|].
  split; [intros Hle; rewrite Hw; apply lastN_all; rewrite length_map; exact Hle|].
  split.
  - intros earlier s ->.
    exact (OrchestratorFacts.averages_after_record earlier s (constructed now)).
  - split.
    + induction samples as [|s samples IH] using rev_ind; [reflexivity|].
      rewrite OrchestratorFacts.recordLatencies_snoc, emitted_after_update, length_app, IH.
      * cbn. lia.
      * rewrite OrchestratorFacts.window_after_record by (cbn; lia). reflexivity.
    + clear Hw. induction samples as [|s samples IH] using rev_ind; [reflexivity|].
      rewrite OrchestratorFacts.recordLatencies_snoc. exact IH.
Qed.

(** *** The usage table as a histogram *)

Lemma updateModeTable_bumped (m : string) (table : list ModeUsage) :
  updateModeTable m table
  = array_sort byCount (List.map (setPercentage (totalCount (bumped m table))) (bumped m table)).
Proof. reflexivity. Qed.

Lemma find_mode_None (m : string) (table : list ModeUsage) :
  List.find (fun e => String.eqb (mode e) m) table = None
  <-> ~ In m (List.map mode table).
Proof.
  induction table as [|e r IH]; cbn; [tauto|].
  destruct (String.eqb_spec (mode e) m) as [Heq|Hne].
  - split; [discriminate|]. intros H. exfalso. apply H. left. exact Heq.
  - rewrite IH. tauto.
Qed.

Lemma modes_incrementFirst (m : string) (table : list ModeUsage) :
  List.map mode (incrementFirst m table) = List.map mode table.
Proof.
  induction table as [|e r IH]; cbn; [reflexivity|].
  destruct (String.eqb (mode e) m); cbn; [reflexivity|]. f_equal. exact IH.
Qed.

Lemma modes_bumped (m : string) (table : list ModeUsage) :
  List.map mode (bumped m table)
  = if In_dec String.string_dec m (List.map mode table)
    then List.map mode table else List.map mode table ++ [m].
Proof.
  unfold bumped. destruct (List.find _ table) as [e|] eqn:E.
  - destruct (In_dec _ _ _) as [_|Hn]; [apply modes_incrementFirst|].
    apply find_mode_None in Hn. congruence.
  - destruct (In_dec _ _ _) as [Hin|_].
    + apply find_mode_None in E. contradiction.
    + rewrite List.map_app. reflexivity.
Qed.

Lemma countFor_cons (m : string) (e : ModeUsage) (r : list ModeUsage) :
  countFor m (e :: r) = ((if String.eqb (mode e) m then count e else 0) + countFor m r)%nat.
Proof. unfold countFor. cbn. destruct (String.eqb (mode e) m); reflexivity. Qed.

Lemma countFor_app (m : string) (a b : list ModeUsage) :
  countFor m (a ++ b) = (countFor m a + countFor m b)%nat.
Proof.
  unfold countFor. rewrite List.filter_app, List.map_app, list_sum_app. reflexivity.
Qed.

Lemma countFor_absent (m : string) (table : list ModeUsage) :
  ~ In m (List.map mode table) -> countFor m table = 0%nat.
Proof.
  induction table as [|e r IH]; [reflexivity|]. cbn [List.map In]. intros Hn.
  rewrite countFor_cons, IH by tauto.
  destruct (String.eqb_spec (mode e) m) as [Heq|_]; [tauto|reflexivity].
Qed.

Lemma countFor_incrementFirst (m m' : string) (table : list ModeUsage) :
  In m (List.map mode table) ->
  countFor m' (incrementFirst m table)
  = (countFor m' table + if String.eqb m m' then 1 else 0)%nat.
Proof.
  induction table as [|e r IH]; cbn [List.map In incrementFirst]; [tauto|].
  intros Hin. destruct (String.eqb_spec (mode e) m) as [Heq|Hne].
  - rewrite !countFor_cons. cbn [mode count]. rewrite Heq.
    destruct (String.eqb m m'); lia.
  - rewrite !countFor_cons, IH by tauto. lia.
Qed.

Lemma countFor_bumped (m m' : string) (table : list ModeUsage) :
  countFor m' (bumped m table) = (countFor m' table + if String.eqb m m' then 1 else 0)%nat.
Proof.
  unfold bumped. destruct (List.find _ table) as [e|] eqn:E.
  - apply countFor_incrementFirst.
    destruct (In_dec String.string_dec m (List.map mode table)) as [H|H]; [exact H|].
    apply find_mode_None in H. congruence.
  - rewrite countFor_app, countFor_cons. cbn [mode count].
    change (countFor m' []) with 0%nat. destruct (String.eqb m m'); lia.
Qed.

Lemma countFor_setPercentage (m : string) (total : nat) (table : list ModeUsage) :
  countFor m (List.map (setPercentage total) table) = countFor m table.
Proof.
  induction table as [|e r IH]; [reflexivity|].
  cbn [List.map]. rewrite !countFor_cons, IH. reflexivity.
Qed.

Lemma countFor_perm (m : string) (a b : list ModeUsage) :
  Permutation a b -> countFor m a = countFor m b.
Proof.
  induction 1 as [|x a b _ IH|x y a|a b c _ IH1 _ IH2].
  - reflexivity.
  - rewrite !countFor_cons, IH. reflexivity.
  - rewrite !countFor_cons. lia.
  - congruence.
Qed.

Lemma countFor_update (m m' : string) (table : list ModeUsage) :
  countFor m' (updateModeTable m table)
  = (countFor m' table + if String.eqb m m' then 1 else 0)%nat.
Proof.
  rewrite updateModeTable_bumped.
  rewrite <- (countFor_perm m' _ _ (array_sort_perm byCount _)).
  rewrite countFor_setPercentage. apply countFor_bumped.
Qed.

Lemma modes_update (m : string) (table : list ModeUsage) :
  Permutation (List.map mode (updateModeTable m table)) (List.map mode (bumped m table)).
Proof.
  rewrite updateModeTable_bumped.
  rewrite <- (Permutation_map mode (array_sort_perm byCount _)).
  rewrite List.map_map. cbn [setPercentage mode].
  apply Permutation_refl.
Qed.

Lemma modes_stay_distinct (m : string) (table : list ModeUsage) :
  List.NoDup (List.map mode table) -> List.NoDup (List.map mode (updateModeTable m table)).
Proof.
  intros Hnd. apply (Permutation_NoDup (Permutation_sym (modes_update m table))).
  rewrite modes_bumped. destruct (In_dec _ _ _) as [_|Hn]; [exact Hnd|].
  apply (Permutation_NoDup (Permutation_cons_append (List.map mode table) m)).
  constructor; assumption.
Qed.

Lemma countFor_own (table : list ModeUsage) (e : ModeUsage) :
  List.NoDup (List.map mode table) -> In e table -> countFor (mode e) table = count e.
Proof.
  induction table as [|x r IH]; [intros _ []|].
  cbn [List.map]. intros Hnd Hin. apply NoDup_cons_iff in Hnd. destruct Hnd as [Hx Hr].
  rewrite countFor_cons. destruct Hin as [->|Hin].
  - rewrite String.eqb_refl, (countFor_absent _ _ Hx). lia.
  - rewrite (IH Hr Hin).
    destruct (String.eqb_spec (mode x) (mode e)) as [Heq|_]; [|lia].
    exfalso. apply Hx. rewrite Heq. apply in_map, Hin.
Qed.

Lemma totalCount_perm (a b : list ModeUsage) :
  Permutation a b -> totalCount a = totalCount b.
Proof.
  induction 1 as [|x a b _ IH|x y a|a b c _ IH1 _ IH2].
  - reflexivity.
  - rewrite !OrchestratorFacts.totalCount_cons, IH. reflexivity.
  - rewrite !OrchestratorFacts.totalCount_cons. lia.
  - congruence.
Qed.

Lemma totalCount_setPercentage (total : nat) (table : list ModeUsage) :
  totalCount (List.map (setPercentage total) table) = totalCount table.
Proof.
  induction table as [|e r IH]; [reflexivity|].
  cbn [List.map]. rewrite !OrchestratorFacts.totalCount_cons, IH. reflexivity.
Qed.

Lemma totalCount_update (m : string) (table : list ModeUsage) :
  totalCount (updateModeTable m table) = S (totalCount table).
Proof.
  rewrite updateModeTable_bumped.
  rewrite <- (totalCount_perm _ _ (array_sort_perm byCount _)), totalCount_setPercentage.
  apply OrchestratorFacts.total_after_count.
Qed.

Lemma percentage_after_update (m : string) (table : list ModeUsage) (e : ModeUsage) :
  In e (updateModeTable m table) ->
  percentage e
  = inject_Z (Z.of_nat (count e)) / inject_Z (Z.of_nat (S (totalCount table))) * 100.
Proof.
  rewrite updateModeTable_bumped, array_sort_In, in_map_iff.
  intros (e0 & <- & _). unfold bumped.
  rewrite OrchestratorFacts.total_after_count. reflexivity.
Qed.

Lemma reached_table (modes : list string) (now : Z) :
  let table := topModes (stats (recordModes modes (constructed now))) in
  List.NoDup (List.map mode table) /\
  (forall m, countFor m table = count_occ String.string_dec modes m) /\
  (forall m, In m (List.map mode table) <-> In m modes) /\
  totalCount table = length modes.
Proof.
  induction modes as [|m modes IH] using rev_ind.
  - cbn. repeat split; try tauto. constructor.
  - rewrite OrchestratorFacts.recordModes_snoc. cbn zeta in *.
    cbn [updateModeStatistics stats topModes].
    set (table := topModes (stats (recordModes modes (constructed now)))) in *.
    destruct IH as (Hnd & Hcount & Hmodes & Htotal).
    split; [apply modes_stay_distinct, Hnd|]. split; [|split].
    + intros m'. rewrite countFor_update, Hcount, count_occ_app. cbn [count_occ].
      destruct (String.string_dec m m') as [->|Hne].
      * rewrite String.eqb_refl. reflexivity.
      * rewrite (proj2 (String.eqb_neq m m') Hne). reflexivity.
    + intros m'. rewrite in_app_iff. cbn [In].
      split.
      * intros H. apply (Permutation_in _ (modes_update m table)) in H.
        rewrite modes_bumped in H. destruct (In_dec _ _ _) as [_|_].
        -- left. apply Hmodes, H.
        -- apply in_app_or in H. destruct H as [H|[H|[]]]; [left; apply Hmodes, H|auto].
      * intros H. apply (Permutation_in _ (Permutation_sym (modes_update m table))).
        rewrite modes_bumped. destruct (In_dec _ _ _) as [Hi|_].
        -- destruct H as [H|[<-|[]]]; [apply Hmodes, H|exact Hi].
        -- apply in_or_app. destruct H as [H|[<-|[]]]; [left; apply Hmodes, H|right; left; reflexivity].
    + rewrite totalCount_update, Htotal, length_app. cbn. lia.
Qed.

(** On a new instance the usage table is the histogram of the modes
    recorded so far: one entry per distinct mode, no mode twice; the count of
    an entry is the number of times its mode was recorded and its percentage
    is that count over the number of all recordings, times 100; the entries
    are in descending order of count and the counts add up to the number of
    recordings. *)
Theorem usage_table_is_a_histogram (modes : list string) (now : Z) :
  let table := topModes (stats (recordModes modes (constructed now))) in
  List.NoDup (List.map mode table) /\
  (forall m, In m (List.map mode table) <-> In m modes) /\
  (forall e, In e table ->
     count e = count_occ String.string_dec modes (mode e) /\
     percentage e
     = inject_Z (Z.of_nat (count e)) / inject_Z (Z.of_nat (length modes)) * 100) /\
  StronglySorted (descending countKey) table /\
  totalCount table = length modes.
Proof.
  destruct (reached_table modes now) as (Hnd & Hcount & Hmodes & Htotal).
  cbn zeta in *.
  split; [exact Hnd|]. split; [exact Hmodes|]. split; [|split; [|exact Htotal]].
  - intros e He. split; [rewrite <- Hcount; symmetry; apply countFor_own; assumption|].
    revert He. clear. destruct modes as [|m modes] using rev_ind; [intros []|].
    rewrite OrchestratorFacts.recordModes_snoc. cbn [updateModeStatistics stats topModes].
    intros He. rewrite (percentage_after_update _ _ _ He).
    destruct (reached_table modes now) as (_ & _ & _ & ->).
    rewrite length_app. cbn [length]. rewrite Nat.add_1_r. reflexivity.
  - destruct modes as [|m modes] using rev_ind; [constructor|].
    rewrite OrchestratorFacts.recordModes_snoc. cbn [updateModeStatistics stats topModes].
    apply OrchestratorFacts.updateModeTable_sorted.
Qed.

(** Five resonances on a new instance. *)
Example usage_table_example :
  List.map (fun e => (mode e, count e, Qred (percentage e)))
    (topModes (stats (recordModes ["blessing"; "creation"; "creation"; "alteration"; "creation"]
                                  (constructed 0))))
  = [("creation", 3%nat, 60); ("blessing", 1%nat, 20); ("alteration", 1%nat, 20)].
Proof. vm_compute. reflexivity. Qed.

End StatsFacts.

(** ** The orchestrator: life cycle and event handlers *)
Module LifecycleFacts.
Import Constants Utils Orchestrator Lifecycle.

(** Reporting an error leaves everything but the status and the log alone,
    whether handleError throws or not. *)
Lemma reportError_keeps (code message : string) (now : Z) (i : Instance) :
  summary (reportError code message now i) = summary i /\
  relayed (reportError code message now i) = relayed i /\
  errorListeners (core (reportError code message now i)) = errorListeners (core i).
Proof.
  unfold reportError, handleError, emitError, summary.
  destruct (errorListeners (core i)) eqn:E; [rewrite E; repeat split|].
  destruct (severity_is_critical _); cbn; rewrite E; repeat split.
Qed.

(** It sets the status to Error when the code is critical and someone
    listens for errors, and leaves it otherwise. *)
Lemma reportError_status (code message : string) (now : Z) (i : Instance) :
  status (core (reportError code message now i))
  = if severity_is_critical (determineErrorSeverity code)
       && Nat.ltb 0 (errorListeners (core i))
    then ERROR else status (core i).
Proof.
  unfold reportError, handleError, emitError.
  destruct (errorListeners (core i)); [rewrite andb_false_r; reflexivity|].
  destruct (severity_is_critical _); reflexivity.
Qed.

(** The codes the orchestrator raises from its own catch blocks. *)
Lemma own_codes_are_low (code : string) :
  In code [ "INITIALIZATION_ERROR"; "TOUCH_PROCESSING_ERROR"; "EMOTION_PROCESSING_ERROR";
            "RESONANCE_PROCESSING_ERROR"; "DESTROY_ERROR" ] ->
  determineErrorSeverity code = low.
Proof.
  intros H. cbn in H.
  repeat (destruct H as [<-|H]; [vm_compute; reflexivity|]). destruct H.
Qed.

Lemma own_code_keeps_status (code message : string) (now : Z) (i : Instance) :
  In code [ "INITIALIZATION_ERROR"; "TOUCH_PROCESSING_ERROR"; "EMOTION_PROCESSING_ERROR";
            "RESONANCE_PROCESSING_ERROR"; "DESTROY_ERROR" ] ->
  status (core (reportError code message now i)) = status (core i).
Proof.
  intros H. rewrite reportError_status, (own_codes_are_low code H). reflexivity.
Qed.

Ltac own_code :=
  rewrite own_code_keeps_status by (cbn; tauto); reflexivity.

(** The status changes for three reasons only.  It becomes Ready when an
    initialization that is under way succeeds, Error when a component
    reports one of the three critical codes (and a listener for 'error' is
    registered, without which the report throws), Disabled on
    setEnabled(false) or when a destroy that is under way succeeds.  Nothing
    else changes it: not a failed initialization or destroy, not a touch,
    emotion or resonance, whether its processing succeeds or fails.  So from
    a new instance the status is only ever Initializing, Ready, Error or
    Disabled, never Processing. *)
Theorem status_changes_have_three_causes (op : Op) (i : Instance) (ops : list Op)
    (override : option RTIConfigOverride) (start : Z) :
  (status (core (step op i)) = status (core i) \/
   (status (core (step op i)) = READY /\
    (0 < initializing i)%nat /\ exists now, op = InitializationSettles true now) \/
   (status (core (step op i)) = ERROR /\
    exists code message now, op = ComponentError code message now /\ In code criticalErrors /\
                             (0 < errorListeners (core i))%nat) \/
   (status (core (step op i)) = DISABLED /\
    ((exists now, op = SetEnabled false now) \/
     ((0 < destroying i)%nat /\ exists now, op = DestroySettles true now)))) /\
  In (status (core (run ops (created override start)))) [INITIALIZING; READY; ERROR; DISABLED].
Proof.
  assert (Hstep : forall op i,
    status (core (step op i)) = status (core i) \/
    (status (core (step op i)) = READY /\
     (0 < initializing i)%nat /\ exists now, op = InitializationSettles true now) \/
    (status (core (step op i)) = ERROR /\
     exists code message now, op = ComponentError code message now /\ In code criticalErrors /\
                              (0 < errorListeners (core i))%nat) \/
    (status (core (step op i)) = DISABLED /\
     ((exists now, op = SetEnabled false now) \/
      ((0 < destroying i)%nat /\ exists now, op = DestroySettles true now)))).
  { clear. intros op i. destruct op; cbn [step]; try (left; reflexivity).
    - destruct enabled.
      + left. unfold setEnabled.
        destruct (status (core i)) eqn:E; cbn [initializeComponents core];
          rewrite ?E; reflexivity.
      + right. right. right. split; [reflexivity|]. left. eauto.
    - left. unfold updateConfig. cbn zeta.
      destruct (o_hardware newConfig), (o_software newConfig); reflexivity.
    - unfold initializationSettles. destruct (initializing i) as [|n] eqn:E; [left; reflexivity|].
      destruct ok.
      + right. left. split; [reflexivity|]. split; [lia|eauto].
      + left. own_code.
    - unfold destroySettles. destruct (destroying i) as [|n] eqn:E; [left; reflexivity|].
      destruct ok.
      + right. right. right. split; [reflexivity|]. right. split; [lia|eauto].
      + left. own_code.
    - unfold componentError. rewrite reportError_status.
      destruct (determineErrorSeverity code) eqn:E; cbn; try (left; reflexivity).
      destruct (errorListeners (core i)) as [|n] eqn:El; cbn; [left; reflexivity|].
      right. right. left. split; [reflexivity|].
      exists code, message, now. split; [reflexivity|]. split; [|lia].
      apply (proj1 (OrchestratorFacts.determineErrorSeverity_spec code)), E.
    - left. unfold touchSettles. destruct (touchesInFlight i !! k); [|reflexivity].
      destruct ok; [reflexivity|]. own_code.
    - left. unfold emotionSettles. destruct (emotionsInFlight i !! k); [|reflexivity].
      destruct ok; [reflexivity|]. own_code.
    - left. unfold handleResonanceEvent. cbn zeta.
      destruct (getDeviceInfo navigator); [destruct (in_action e); [reflexivity|]|];
        own_code. }
  split; [apply Hstep|].
  induction ops as [|op' ops' IH] using rev_ind; [cbn; tauto|].
  unfold run in *. rewrite fold_left_app. cbn [fold_left].
  set (j := fold_left _ ops' _) in *.
  destruct (Hstep op' j) as [H|[[H _]|[[H _]|[H _]]]]; rewrite H; cbn; tauto.
Qed.

(** What one operation does to the statistics. *)
Lemma step_summary (op : Op) (i : Instance) :
  summary (step op i) =
  let '(t, e, r, table, window, flying) := summary i in
  match op with
  | TouchArrives _ _ => (S t, e, r, table, window, S flying)
  | TouchSettles k ok endTime _ =>
      match touchesInFlight i !! k with
      | Some startTime =>
          (t, e, r, table,
           if ok then pushSample (endTime - startTime) window else window, pred flying)
      | None => (t, e, r, table, window, flying)
      end
  | EmotionArrives _ => (t, S e, r, table, window, flying)
  | ResonanceArrives x _ navigator _ =>
      (t, e, S r,
       match navigator, in_action x with
       | Declared _, Some m => updateModeTable m table
       | _, _ => table
       end,
       window, flying)
  | _ => (t, e, r, table, window, flying)
  end.
Proof.
  unfold summary. destruct op; cbn [step].
  - unfold setEnabled. destruct enabled; [destruct (status (core i))|]; reflexivity.
  - unfold updateConfig. cbn zeta.
    destruct (o_hardware newConfig), (o_software newConfig); reflexivity.
  - unfold initializationSettles. destruct (initializing i); [reflexivity|].
    destruct ok; [reflexivity|].
    fold (summary (reportError "INITIALIZATION_ERROR" "Failed to initialize RTI components"
                               now
                               (mkInstance (core i) (config i) (systemStartTime i) n
                                           (destroying i) (touchesInFlight i)
                                           (emotionsInFlight i) (relayed i)))).
    rewrite (proj1 (reportError_keeps _ _ _ _)). reflexivity.
  - reflexivity.
  - unfold destroySettles. destruct (destroying i); [reflexivity|].
    destruct ok; [reflexivity|].
    fold (summary (reportError "DESTROY_ERROR" "Failed to destroy RTI system" now
                               (mkInstance (core i) (config i) (systemStartTime i)
                                           (initializing i) n (touchesInFlight i)
                                           (emotionsInFlight i) (relayed i)))).
    rewrite (proj1 (reportError_keeps _ _ _ _)). reflexivity.
  - unfold componentError. fold (summary (reportError code message now i)).
    rewrite (proj1 (reportError_keeps _ _ _ _)). reflexivity.
  - unfold touchArrives. cbn. rewrite length_app. cbn. rewrite Nat.add_1_r. reflexivity.
  - unfold touchSettles. destruct (touchesInFlight i !! k) as [startTime|] eqn:E; [|reflexivity].
    assert (Hlen : length (delete k (touchesInFlight i)) = pred (length (touchesInFlight i))).
    { rewrite length_delete by (rewrite E; eauto). lia. }
    destruct ok.
    + cbn [with_core core touchesInFlight]. rewrite Hlen. reflexivity.
    + match goal with
      | |- context [reportError ?c ?m ?n ?j] =>
          fold (summary (reportError c m n j));
          rewrite (proj1 (reportError_keeps c m n j))
      end.
      unfold summary. cbn [core touchesInFlight]. rewrite Hlen. reflexivity.
  - reflexivity.
  - unfold emotionSettles. destruct (emotionsInFlight i !! k); [|reflexivity].
    destruct ok; [reflexivity|].
    match goal with
    | |- context [reportError ?c ?m ?n ?j] =>
        fold (summary (reportError c m n j));
        rewrite (proj1 (reportError_keeps c m n j))
    end.
    reflexivity.
  - unfold handleResonanceEvent. cbn zeta.
    destruct navigator as [|[platform|]]; cbn [getDeviceInfo];
      try (destruct (in_action e); [reflexivity|]);
      match goal with
      | |- context [reportError ?c ?m ?n ?j] =>
          fold (summary (reportError c m n j));
          rewrite (proj1 (reportError_keeps c m n j))
      end;
      reflexivity.
  - reflexivity.
  - reflexivity.
  - reflexivity.
Qed.

(** Only a resonance that arrives where [navigator] is declared is
    published. *)
Lemma step_published (op : Op) (i : Instance) :
  published (step op i) = (published i + if is_published op then 1 else 0)%nat.
Proof.
  unfold published. destruct op; cbn [step is_published]; rewrite ?Nat.add_0_r.
  - unfold setEnabled. destruct enabled; [destruct (status (core i))|]; reflexivity.
  - unfold updateConfig. cbn zeta.
    destruct (o_hardware newConfig), (o_software newConfig); reflexivity.
  - unfold initializationSettles. destruct (initializing i); [reflexivity|].
    destruct ok; [reflexivity|]. rewrite (proj1 (proj2 (reportError_keeps _ _ _ _))).
    reflexivity.
  - reflexivity.
  - unfold destroySettles. destruct (destroying i); [reflexivity|].
    destruct ok; [reflexivity|]. rewrite (proj1 (proj2 (reportError_keeps _ _ _ _))).
    reflexivity.
  - unfold componentError. rewrite (proj1 (proj2 (reportError_keeps _ _ _ _))).
    reflexivity.
  - unfold touchArrives. cbn. rewrite List.filter_app, length_app. cbn. lia.
  - unfold touchSettles. destruct (touchesInFlight i !! k); [|reflexivity].
    destruct ok; [reflexivity|]. rewrite (proj1 (proj2 (reportError_keeps _ _ _ _))).
    reflexivity.
  - unfold emotionArrives. cbn. rewrite List.filter_app, length_app. cbn. lia.
  - unfold emotionSettles. destruct (emotionsInFlight i !! k); [|reflexivity].
    destruct ok; [reflexivity|]. rewrite (proj1 (proj2 (reportError_keeps _ _ _ _))).
    reflexivity.
  - unfold handleResonanceEvent. cbn zeta.
    destruct navigator as [|[platform|]]; cbn [getDeviceInfo];
      [rewrite (proj1 (proj2 (reportError_keeps _ _ _ _))), Nat.add_0_r; reflexivity| |];
      (destruct (in_action e);
       [|rewrite (proj1 (proj2 (reportError_keeps _ _ _ _)))];
       cbn; rewrite List.filter_app, length_app; reflexivity).
  - reflexivity.
  - reflexivity.
  - reflexivity.
Qed.

Lemma count_ops_snoc (kind : Op -> bool) (ops : list Op) (op : Op) :
  count_ops kind (ops ++ [op]) = (count_ops kind ops + if kind op then 1 else 0)%nat.
Proof.
  unfold count_ops. rewrite List.filter_app, length_app. cbn.
  destruct (kind op); reflexivity.
Qed.

(** The statistics after a run, from what each operation does to them. *)
Lemma statistics_of_run (ops : list Op) (override : option RTIConfigOverride)
    (start : Z) :
  let i := run ops (created override start) in
  let s := stats (core i) in
  totalTouches s = count_ops is_touch ops /\
  totalEmotions s = count_ops is_emotion ops /\
  totalResonances s = count_ops is_resonance ops /\
  totalCount (topModes s) = count_ops is_resonance_with_action ops /\
  (topModes s <> [] -> percentageSum (topModes s) == 100) /\
  (length (latencySamples (performanceMetrics (core i))) <= 100)%nat /\
  (length (latencySamples (performanceMetrics (core i))) + length (touchesInFlight i)
   <= totalTouches s)%nat.
Proof.
  cbn zeta. induction ops as [|op ops IH] using rev_ind.
  - cbn. repeat split; try lia. intros H. contradiction.
  - unfold run in *. rewrite fold_left_app. cbn [fold_left].
    set (j := fold_left _ ops _) in *.
    pose proof (step_summary op j) as Hs. unfold summary in Hs.
    cbv beta iota zeta in Hs.
    rewrite !count_ops_snoc.
    destruct IH as (I1 & I2 & I3 & I4 & I5 & I6 & I7).
    assert (Hdel : forall k x, touchesInFlight j !! k = Some x ->
                               (0 < length (touchesInFlight j))%nat).
    { intros k x Hk. apply lookup_lt_Some in Hk. lia. }
    destruct op; cbn [is_touch is_emotion is_resonance is_resonance_with_action];
      try (destruct (touchesInFlight j !! k) as [x|] eqn:E);
      pose proof (f_equal (fun x => x.1.1.1.1.1) Hs) as H1;
      pose proof (f_equal (fun x => x.1.1.1.1.2) Hs) as H2;
      pose proof (f_equal (fun x => x.1.1.1.2) Hs) as H3;
      pose proof (f_equal (fun x => x.1.1.2) Hs) as H4;
      pose proof (f_equal (fun x => x.1.2) Hs) as H5;
      pose proof (f_equal (fun x => x.2) Hs) as H6;
      cbn [fst snd] in H1, H2, H3, H4, H5, H6; clear Hs;
      rewrite H1, H2, H3, H4, H5, H6;
      try (repeat split; first [lia | exact I5]).
    + repeat split; try lia; try exact I5.
      * destruct ok; [apply OrchestratorFacts.pushSample_length, I6|exact I6].
      * specialize (Hdel k x E).
        destruct ok; [|lia].
        pose proof (OrchestratorFacts.pushSample_lastN (endTime - x) _ I6) as Hp.
        rewrite Hp, OrchestratorFacts.lastN_length, length_app. cbn [length].
        pose proof (Nat.le_min_r 100 (length (latencySamples (performanceMetrics (core j))) + 1))
          as Hmin.
        revert Hmin Hdel I7. clear.
        generalize (100 `min` (length (latencySamples (performanceMetrics (core j))) + 1))%nat.
        generalize (length (latencySamples (performanceMetrics (core j)))).
        generalize (length (touchesInFlight j)). generalize (totalTouches (stats (core j))).
        intros t f w m Hmin Hdel I7. destruct f; [lia|]. cbn [Nat.pred]. lia.
    + destruct navigator as [|platform]; [repeat split; first [lia | exact I5]|].
      destruct (in_action e) as [m|]; repeat split; try lia; try exact I5.
      * rewrite StatsFacts.totalCount_update. lia.
      * intros _. apply OrchestratorFacts.updateModeTable_sum.
Qed.

Lemma published_of_run (ops : list Op) (i : Instance) :
  published (run ops i) = (published i + count_ops is_published ops)%nat.
Proof.
  induction ops as [|op ops IH] using rev_ind; [cbn; lia|].
  unfold run in *. rewrite fold_left_app. cbn [fold_left].
  rewrite step_published, IH, count_ops_snoc. lia.
Qed.

(** Touches, emotions and resonances are counted as they arrive, whatever
    the status is at the time (Disabled and Error included) and however
    their processing ends: on any run from a new instance each counter is the
    number of arrivals.  A resonance is published only where navigator is
    declared, and the counts of the usage table add up to the number of
    published resonances that carried an action (the others are counted,
    but raise a low-severity error instead of entering the table); the
    percentages of the table sum to 100 once it is non-empty.  The latency
    window never holds more than 100 entries, and it and the touches still in
    flight together never outnumber the touches counted. *)
Theorem counters_count_arrivals (ops : list Op) (override : option RTIConfigOverride)
    (start : Z) :
  let i := run ops (created override start) in
  let s := stats (core i) in
  totalTouches s = count_ops is_touch ops /\
  totalEmotions s = count_ops is_emotion ops /\
  totalResonances s = count_ops is_resonance ops /\
  published i = count_ops is_published ops /\
  totalCount (topModes s) = count_ops is_resonance_with_action ops /\
  (topModes s <> [] -> percentageSum (topModes s) == 100) /\
  (length (latencySamples (performanceMetrics (core i))) <= 100)%nat /\
  (length (latencySamples (performanceMetrics (core i))) + length (touchesInFlight i)
   <= totalTouches s)%nat.
Proof.
  cbn zeta.
  destruct (statistics_of_run ops override start) as (H1 & H2 & H3 & H4 & H5 & H6 & H7).
  rewrite published_of_run.
  split; [exact H1|]. split; [exact H2|]. split; [exact H3|].
  split; [reflexivity|]. split; [exact H4|]. split; [exact H5|].
  split; [exact H6|exact H7].
Qed.

(** An initialization that is under way wins over a later setEnabled(false):
    on a disabled instance, enable, disable again, and let the
    initialization succeed; the status ends Ready although the last request
    was to disable.  Enabling an instance that is not Disabled does nothing,
    so an instance in Error stays there. *)
Theorem initialization_overrides_disable (i : Instance) (now1 now2 now3 : Z) :
  (status (core i) = DISABLED ->
   status (core (run [SetEnabled true now1; SetEnabled false now2;
                      InitializationSettles true now3] i)) = READY) /\
  (status (core i) <> DISABLED -> setEnabled true now1 i = i).
Proof.
  split.
  - intros Hd. cbn [run fold_left step]. unfold setEnabled at 2. rewrite Hd.
    cbn. reflexivity.
  - intros Hn. unfold setEnabled. destruct (status (core i)); try reflexivity.
    contradiction.
Qed.

Lemma initialization_overrides_example :
  let i := run [InitializationSettles true 1; SetEnabled false 2] (created None 0) in
  status (core i) = DISABLED /\
  status (core (run [SetEnabled true 3; SetEnabled false 4; InitializationSettles true 5] i))
  = READY.
Proof.
  intros i. split; [reflexivity|].
  apply (initialization_overrides_disable i 3 4 5). reflexivity.
Defined.

(** updateConfig stores the merged configuration without validating it, and
    starts a new initialization exactly when the update brings a hardware or
    a software section; when that initialization succeeds the status is
    Ready whatever it was before, Disabled and Error included. *)
Theorem updateConfig_reinitializes (newConfig : RTIConfigOverride) (i : Instance) (now : Z) :
  config (updateConfig newConfig i) = mergeConfig (config i) (Some newConfig) /\
  core (updateConfig newConfig i) = core i /\
  initializing (updateConfig newConfig i)
  = (initializing i
     + match o_hardware newConfig, o_software newConfig with
       | None, None => 0
       | _, _ => 1
       end)%nat /\
  (o_hardware newConfig <> None \/ o_software newConfig <> None ->
   status (core (run [UpdateConfig newConfig; InitializationSettles true now] i)) = READY).
Proof.
  unfold run, updateConfig. cbn [fold_left step]. unfold updateConfig. cbn zeta.
  split; [destruct (o_hardware newConfig), (o_software newConfig); reflexivity|].
  split; [destruct (o_hardware newConfig), (o_software newConfig); reflexivity|].
  split; [destruct (o_hardware newConfig), (o_software newConfig); cbn; lia|].
  intros H. destruct (o_hardware newConfig), (o_software newConfig);
    try reflexivity. destruct H as [H|H]; contradiction.
Qed.

(** A disabled instance given a sampling rate of 50 Hz keeps it, although
    validateConfig rejects the result, and is Ready again once the
    initialization succeeds. *)
Lemma updateConfig_example :
  let i := run [InitializationSettles true 1; SetEnabled false 2] (created None 0) in
  let i' := run [UpdateConfig slow_sampling; InitializationSettles true 3] i in
  status (core i) = DISABLED /\ status (core i') = READY /\
  valid (validateConfig (getConfig i')) = false.
Proof.
  intros i i'. split; [reflexivity|]. split; [|reflexivity].
  apply (updateConfig_reinitializes slow_sampling i 3). left. discriminate.
Defined.

End LifecycleFacts.

(** ** The constructor *)

Module ConstructionFacts.
Import Constants Utils Orchestrator Lifecycle Construction.

(** The start of an initialization assigns at most the hardware layer. *)
Lemma begins_assigns_no_decoder (env : Environment) (now : Z) (c : Components)
    (i : Instance) :
  emotionDecoder (initializeComponents_begins env now c i).1 = emotionDecoder c.
Proof.
  unfold initializeComponents_begins.
  destruct (construct env); [destruct (initialize env)|]; reflexivity.
Qed.

Lemma setupEventListeners_needs_decoder (env : Environment) (c : Components) :
  emotionDecoder c = false -> setupEventListeners env c = None.
Proof.
  intros H. unfold setupEventListeners. rewrite H.
  destruct (listen (forceTouchCore c) (on env 0)); reflexivity.
Qed.

(** new RTI(...) never returns: however the hardware layer behaves, the
    constructor reaches setupEventListeners before the asynchronous
    initialization can have created the emotion decoder, and throws.  When
    the hardware layer was built and its initialize() returned, the object
    left behind is the new instance with its first initialization under
    way. *)
Theorem constructor_never_returns (override : option RTIConfigOverride) (now : Z)
    (env : Environment) :
  (exists left, new_RTI override now env = Threw left) /\
  (construct env = Returns -> initialize env = Returns ->
   new_RTI override now env = Threw (created override now)).
Proof.
  assert (H : exists left, new_RTI override now env = Threw left
                           /\ left = (initializeComponents_begins
                                        env now (mkComponents false false false false)
                                        (fields override now)).2).
  { unfold new_RTI.
    pose proof (begins_assigns_no_decoder env now (mkComponents false false false false)
                  (fields override now)) as Hd.
    destruct (initializeComponents_begins _ _ _ _) as [c i]. cbn [fst snd] in *.
    rewrite (setupEventListeners_needs_decoder env c Hd). eauto. }
  destruct H as (left & Hnew & Hleft). split; [eauto|].
  intros Hc Hi. rewrite Hnew, Hleft. unfold initializeComponents_begins.
  rewrite Hc, Hi. reflexivity.
Qed.

(** With every call into the components returning. *)
Lemma constructor_example :
  new_RTI None 0 (mkEnvironment Returns Returns (fun _ => Returns))
  = Threw (created None 0).
Proof.
  apply (proj2 (constructor_never_returns None 0
                  (mkEnvironment Returns Returns (fun _ => Returns))));
    reflexivity.
Defined.

End ConstructionFacts.
